(** * account-editor-demo: the Go/Gin backend and the polling frontend

    A shallow embedding of the handlers of [backend/internal/auth],
    [backend/internal/automation], [backend/pkg/utils], of the panel API
    client and of the polling loop of [frontend/src/pages/Action.tsx],
    followed by the properties the specification states about them.

    Conventions of the embedding.
    - Go [int] is [Z]; Go strings are byte strings, here [string].
    - [time.Time] is an abstract instant [Time := Z]; [*time.Time] is
      [option Time].
    - [float64] values are rationals [Q] (every finite float64 is one).
    - The gorm handle is a store of three tables (lists of rows in rowid
      order) together with a schedule of driver faults, so that every
      [if err != nil] branch of the source is reachable in the model.
    - Everything outside the process (bcrypt, JWT signing, the HTTP
      transport, the random source, UUIDs, the JSON decoder of upstream
      bodies) is a field of the record [Env]. *)

From Stdlib Require Import ZArith List String Ascii Bool Lia QArith DecimalString.
Import ListNotations.
Local Open Scope string_scope.
Local Open Scope Z_scope.

Set Implicit Arguments.
Set Warnings "-register-all".

(* ================================================================== *)
(** ** Go's [strings] package                                           *)
(* ================================================================== *)

Module strings.

(** [strings.Contains(s, substr)]: [substr] occurs somewhere in [s]. *)
Fixpoint Contains (s substr : string) : bool :=
  if String.prefix substr s then true
  else match s with
       | EmptyString => false
       | String _ rest => Contains rest substr
       end.

End strings.

(** The mathematical reading of "contains": a decomposition of the string. *)
Definition occurs_in (needle hay : string) : Prop :=
  exists before after, hay = before ++ needle ++ after.

(** Go's [err]/value pairs: [inl msg] is a non-nil error carrying
    [err.Error() = msg], [inr v] is a value with a nil error. *)
Definition Result (A : Type) : Type := (string + A)%type.

Definition Time := Z.

(* ================================================================== *)
(** ** [encoding/json]: values and raw messages                         *)
(* ================================================================== *)

(** A JSON document as a tree. Object members are kept in the order in
    which [json.Marshal] writes them (map keys sorted, struct fields in
    declaration order). A [time.Time] leaf is kept as the instant. *)
Inductive JValue : Type :=
| JNull
| JBool (b : bool)
| JInt (n : Z)
| JFloat (q : Q)
| JString (s : string)
| JTime (t : Time)
| JArray (items : list JValue)
| JObject (members : list (string * JValue)).

(** [json.RawMessage]: bytes that either encode a document or do not. *)
Inductive RawMessage : Type :=
| Encoded (v : JValue)
| Garbage (bytes : string).

(* ================================================================== *)
(** ** [internal/models]                                                *)
(* ================================================================== *)

Module User.
Record t : Type := mk {
  ID : Z;
  Username : string;
  HashedPassword : string;
  IsActive : bool;
  IsAdmin : bool;
  CreatedAt : Time;
  UpdatedAt : Time;
  LastLoginAt : option Time
}.
End User.

Module UserSettings.
Record t : Type := mk {
  ID : Z;
  UserID : Z;
  WebsiteURL : string;
  APIKey : string;
  AuthUser : string;
  CreatedAt : Time;
  UpdatedAt : Time
}.
End UserSettings.

Module AutomationTask.
(** [Result] is [None] for a nil/empty [models.JSON] (SQL NULL). The
    [User] association is never loaded or written by the handlers and
    is left out. *)
Record t : Type := mk {
  ID : Z;
  UserID : Z;
  Name : string;
  TargetWebsite : string;
  Status : string;
  Result : option RawMessage;
  CreatedAt : Time;
  UpdatedAt : Time;
  CompletedAt : option Time
}.
End AutomationTask.

(* ================================================================== *)
(** ** [gorm] over SQLite                                               *)
(* ================================================================== *)

(** [gorm.ErrRecordNotFound] is compared by identity in the handlers;
    every other error only through [err.Error()]. *)
Inductive DbError : Type :=
| ErrRecordNotFound
| DriverError (msg : string).

Definition DbError_Error (e : DbError) : string :=
  match e with
  | ErrRecordNotFound => "record not found"
  | DriverError msg => msg
  end.

(** A table: its rows and the AUTOINCREMENT counter SQLite keeps for it. *)
Record Table (R : Type) : Type := mkTable {
  rows : list R;
  seq : Z
}.

Record Store : Type := mkStore {
  users : Table User.t;
  user_settings : Table UserSettings.t;
  automation_tasks : Table AutomationTask.t
}.

(** The handle behind [*gorm.DB]. Each statement sent to the driver takes
    the head of [faults]: [Some msg] makes that statement fail with
    [msg] and leaves the store as it is; [None], or an exhausted
    schedule, lets it run. *)
Record Conn : Type := mkConn {
  store : Store;
  faults : list (option string)
}.

(** gorm models: primary key, autoUpdateTime, unique columns, table.
    [table_name] is [TableName()] and [unique_column] the column tagged
    [unique] (empty when the model has none, and [clashes] is then
    constantly false); the driver names both in its error. *)
Class Model (R : Type) : Type := {
  pk : R -> Z;
  with_pk : Z -> R -> R;
  touch : Time -> R -> R;
  clashes : R -> R -> bool;
  table : Store -> Table R;
  with_table : Table R -> Store -> Store;
  table_name : string;
  unique_column : string
}.

#[global] Instance User_Model : Model User.t := {
  pk := User.ID;
  with_pk i u :=
    User.mk i (User.Username u) (User.HashedPassword u) (User.IsActive u)
            (User.IsAdmin u) (User.CreatedAt u) (User.UpdatedAt u)
            (User.LastLoginAt u);
  touch now u :=
    User.mk (User.ID u) (User.Username u) (User.HashedPassword u)
            (User.IsActive u) (User.IsAdmin u) (User.CreatedAt u) now
            (User.LastLoginAt u);
  clashes a b := String.eqb (User.Username a) (User.Username b);
  table := users;
  with_table t s := mkStore t (user_settings s) (automation_tasks s);
  table_name := "users";
  unique_column := "username"
}.

#[global] Instance UserSettings_Model : Model UserSettings.t := {
  pk := UserSettings.ID;
  with_pk i s :=
    UserSettings.mk i (UserSettings.UserID s) (UserSettings.WebsiteURL s)
                    (UserSettings.APIKey s) (UserSettings.AuthUser s)
                    (UserSettings.CreatedAt s) (UserSettings.UpdatedAt s);
  touch now s :=
    UserSettings.mk (UserSettings.ID s) (UserSettings.UserID s)
                    (UserSettings.WebsiteURL s) (UserSettings.APIKey s)
                    (UserSettings.AuthUser s) (UserSettings.CreatedAt s) now;
  clashes a b := UserSettings.UserID a =? UserSettings.UserID b;
  table := user_settings;
  with_table t s := mkStore (users s) t (automation_tasks s);
  table_name := "user_settings";
  unique_column := "user_id"
}.

#[global] Instance AutomationTask_Model : Model AutomationTask.t := {
  pk := AutomationTask.ID;
  with_pk i t :=
    AutomationTask.mk i (AutomationTask.UserID t) (AutomationTask.Name t)
      (AutomationTask.TargetWebsite t) (AutomationTask.Status t)
      (AutomationTask.Result t) (AutomationTask.CreatedAt t)
      (AutomationTask.UpdatedAt t) (AutomationTask.CompletedAt t);
  touch now t :=
    AutomationTask.mk (AutomationTask.ID t) (AutomationTask.UserID t)
      (AutomationTask.Name t) (AutomationTask.TargetWebsite t)
      (AutomationTask.Status t) (AutomationTask.Result t)
      (AutomationTask.CreatedAt t) now (AutomationTask.CompletedAt t);
  clashes _ _ := false;
  table := automation_tasks;
  with_table t s := mkStore (users s) (user_settings s) t;
  table_name := "automation_tasks";
  unique_column := ""
}.

Module gorm.
Section Statements.
Context {R : Type} `{Model R}.

(** The row [ORDER BY id LIMIT 1] keeps: the one with the least key. *)
Definition least (l : list R) : option R :=
  fold_left (fun acc r =>
               match acc with
               | None => Some r
               | Some a => if pk r <? pk a then Some r else Some a
               end) l None.

(** The next AUTOINCREMENT key: above the counter and above every key
    in the table. *)
Definition next_pk (t : Table R) : Z :=
  1 + fold_right Z.max (seq t) (map pk (rows t)).

Definition has_pk (i : Z) (l : list R) : bool :=
  existsb (fun r => pk r =? i) l.

(** The error of the SQLite driver for a uniqueness violation: it
    names the table and the column. *)
Definition unique_failed (column : string) : DbError :=
  DriverError ("UNIQUE constraint failed: " ++ table_name ++ "." ++ column).

(** [INSERT]: a zero key asks the table for the next one; a unique
    column or a key already present makes the insert fail (the key,
    column [id], is checked first). *)
Definition insert (r : R) (s : Store) : (DbError + R) * Store :=
  let t := table s in
  let r' := if pk r =? 0 then with_pk (next_pk t) r else r in
  if has_pk (pk r') (rows t) || existsb (clashes r') (rows t)
  then (inl (unique_failed (if has_pk (pk r') (rows t) then "id"
                            else unique_column)), s)
  else (inr r', with_table (mkTable (rows t ++ [r']) (Z.max (seq t) (pk r'))) s).

(** [UPDATE ... SET <all columns> WHERE id = ?]. *)
Definition update (r : R) (s : Store) : (DbError + R) * Store :=
  let t := table s in
  if existsb (fun x => negb (pk x =? pk r) && clashes r x) (rows t)
  then (inl (unique_failed unique_column), s)
  else (inr r,
        with_table
          (mkTable (map (fun x => if pk x =? pk r then r else x) (rows t))
                   (seq t)) s).

(** One statement against the driver, subject to the fault schedule. *)
Definition statement {A : Type} (f : Store -> (DbError + A) * Store)
  (c : Conn) : (DbError + A) * Conn :=
  match faults c with
  | Some msg :: rest => (inl (DriverError msg), mkConn (store c) rest)
  | None :: rest => let (r, s') := f (store c) in (r, mkConn s' rest)
  | [] => let (r, s') := f (store c) in (r, mkConn s' [])
  end.

(** [db.Where(cond).First(&dest)] and [db.First(&dest, id)]. *)
Definition First (cond : R -> bool) : Conn -> (DbError + R) * Conn :=
  statement (fun s =>
    match least (filter cond (rows (table s))) with
    | Some r => (inr r, s)
    | None => (inl ErrRecordNotFound, s)
    end).

(** [db.Where(cond).Find(&dest)]. *)
Definition Find (cond : R -> bool) : Conn -> (DbError + list R) * Conn :=
  statement (fun s => (inr (filter cond (rows (table s))), s)).

(** [db.Create(&value)]. *)
Definition Create (r : R) : Conn -> (DbError + R) * Conn :=
  statement (insert r).

(** [db.Save(&value)]: insert when the key is zero, otherwise update all
    columns (stamping [UpdatedAt]) and insert when no row had the key. *)
Definition Save (now : Time) (r : R) : Conn -> (DbError + R) * Conn :=
  statement (fun s =>
    if pk r =? 0 then insert r s
    else if has_pk (pk r) (rows (table s)) then update (touch now r) s
    else insert (touch now r) s).

(** [db.Delete(&value)] by primary key. *)
Definition Delete (r : R) : Conn -> (DbError + unit) * Conn :=
  statement (fun s =>
    let t := table s in
    (inr tt,
     with_table (mkTable (filter (fun x => negb (pk x =? pk r)) (rows t))
                         (seq t)) s)).

End Statements.
End gorm.

(* ================================================================== *)
(** ** Types of the panel API client and of the automation handlers     *)
(* ================================================================== *)

Record APIClient : Type := mkAPIClient {
  BaseURL : string;
  APIKey : string;
  AuthUser : string
}.

Record CreateAccountRequest : Type := mkCreateAccountRequest {
  car_Username : string;
  car_Password : string;
  car_Package : Z;
  car_ResellerNotes : string;
  car_Bouquets : list Z;
  car_RID : string
}.

Record CreateAccountResponse : Type := mkCreateAccountResponse {
  cres_LineID : string;
  cres_ExpireAt : Time;
  cres_TransactionAmount : Q;
  cres_RID : string
}.

Record ExtendPackageRequest : Type := mkExtendPackageRequest {
  epr_Package : Z;
  epr_RID : string
}.

Record ExtendPackageResponse : Type := mkExtendPackageResponse {
  eres_LineID : string;
  eres_ExpireAt : Time;
  eres_TransactionAmount : Q;
  eres_RID : string
}.

Record Line : Type := mkLine {
  LineID : string;
  line_Username : string;
  line_Password : string;
  MacAddr : string;
  Owner : string;
  line_Type : string;
  line_ExpireAt : Time;
  IsEnabled : bool;
  IsRestreamer : bool;
  IsTrial : bool;
  PackageID : Z;
  Bouquets : list Z;
  MaxConnections : Z;
  line_ResellerNotes : string
}.

Record TaskRequest : Type := mkTaskRequest {
  req_Name : string;
  req_TargetWebsite : string;
  req_Username : string;
  req_Password : string;
  req_Package : Z
}.

Record SettingsRequest : Type := mkSettingsRequest {
  sreq_WebsiteURL : string;
  sreq_APIKey : string;
  sreq_AuthUser : string
}.

Record HttpRequest : Type := mkHttpRequest {
  Method : string;
  URL : string;
  Header : list (string * string);
  Body : option JValue
}.

(** What [HTTPClient.Do] hands back: the status code and what
    [io.ReadAll(resp.Body)] will yield. *)
Record HttpResponse : Type := mkHttpResponse {
  StatusCode : Z;
  ReadAll : Result string
}.

(** A unit of work started with [go executeTask(id, req, client)]. *)
Record Goroutine : Type := mkGoroutine {
  g_taskID : Z;
  g_req : TaskRequest;
  g_client : APIClient
}.

(** The places of [executeTask] at which a run-time panic is injected:
    each names the call that is about to be made. Nothing is injected
    after the final [db.Save]: only [log.Printf] and [return] follow. *)
Inductive Site : Type :=
| AtGetDB | AtFirst | AtUUID | AtFindCall | AtMainCall | AtMarshal | AtSave.

Definition Site_eqb (a b : Site) : bool :=
  match a, b with
  | AtGetDB, AtGetDB | AtFirst, AtFirst | AtUUID, AtUUID
  | AtFindCall, AtFindCall | AtMainCall, AtMainCall
  | AtMarshal, AtMarshal | AtSave, AtSave => true
  | _, _ => false
  end.

(* ================================================================== *)
(** ** The environment and the state of the process                     *)
(* ================================================================== *)

(** Everything the process calls but does not define. *)
Record Env : Type := mkEnv {
  (* golang.org/x/crypto/bcrypt: [CompareHashAndPassword hash pw = nil] *)
  bcrypt_matches : string -> string -> bool;
  bcrypt_GenerateFromPassword : string -> Result string;
  (* golang-jwt: [token.SignedString(SecretKey)] for a username at a time *)
  jwt_SignedString : string -> Time -> Result string;
  (* time *)
  AddDate : Time -> Z -> Z -> Z -> Time;
  time_MarshalJSON_ok : Time -> bool;
  (* math/rand and google/uuid: the n-th draw *)
  rand_source : nat -> Z;
  uuid_source : nat -> string;
  (* net/url and net/http: the n-th round trip *)
  url_Parse_error : string -> option string;
  RoundTrip : nat -> HttpRequest -> Result HttpResponse;
  (* encoding/json on upstream bodies *)
  decode_error_envelope : string -> Result (string * string);
  decode_CreateAccountResponse : string -> Result CreateAccountResponse;
  decode_Lines : string -> Result (list Line);
  decode_ExtendPackageResponse : string -> Result ExtendPackageResponse;
  (* SQLite comparing a text parameter with an INTEGER column *)
  sql_text_eq_int : string -> Z -> bool
}.

(** The mutable state: the global [database.DB] ([None] is nil), the
    clock, the requests that left through the HTTP client, the number
    of random and UUID draws made, the goroutines started and not yet
    run, and the site at which the next [executeTask] panics, if any. *)
Record World : Type := mkWorld {
  DB : option Conn;
  clock : Time;
  http_log : list HttpRequest;
  rand_calls : nat;
  uuid_calls : nat;
  goroutines : list Goroutine;
  panic_at : option Site
}.

Definition with_DB (d : option Conn) (w : World) : World :=
  mkWorld d (clock w) (http_log w) (rand_calls w) (uuid_calls w)
          (goroutines w) (panic_at w).

Definition with_goroutines (gs : list Goroutine) (w : World) : World :=
  mkWorld (DB w) (clock w) (http_log w) (rand_calls w) (uuid_calls w)
          gs (panic_at w).

(** A computation either returns or panics, and changes the world. *)
Inductive Outcome (A : Type) : Type :=
| Done (a : A)
| Panicked (v : string).
Arguments Panicked {A} v.

Definition M (A : Type) : Type := World -> Outcome A * World.

Definition ret {A : Type} (a : A) : M A := fun w => (Done a, w).

Definition bind {A B : Type} (m : M A) (k : A -> M B) : M B :=
  fun w => match m w with
           | (Done a, w') => k a w'
           | (Panicked v, w') => (Panicked v, w')
           end.

Definition panic {A : Type} (v : string) : M A := fun w => (Panicked v, w).

(** [defer func() { if r := recover(); r != nil { handler(r) } }()]. *)
Definition defer_recover (body : M unit) (handler : string -> M unit) : M unit :=
  fun w => match body w with
           | (Done tt, w') => (Done tt, w')
           | (Panicked v, w') => handler v w'
           end.

Declare Scope go_scope.
Delimit Scope go_scope with go.
Notation "x <- m ;; k" := (bind m (fun x => k))
  (at level 61, m at next level, right associativity) : go_scope.
Notation "m ;; k" := (bind m (fun _ => k))
  (at level 61, right associativity) : go_scope.
Local Open Scope go_scope.

Definition nil_dereference : string :=
  "runtime error: invalid memory address or nil pointer dereference".

(** [database.GetDB() != nil]. *)
Definition GetDB_is_live : M bool :=
  fun w => (Done (match DB w with Some _ => true | None => false end), w).

(** A gorm statement on the global handle; a nil handle panics. *)
Definition db {A : Type} (q : Conn -> (DbError + A) * Conn) : M (DbError + A) :=
  fun w => match DB w with
           | None => (Panicked nil_dereference, w)
           | Some c => let (r, c') := q c in (Done r, with_DB (Some c') w)
           end.

(** [time.Now()]. *)
Definition time_Now : M Time := fun w => (Done (clock w), w).

(** [go f(...)]. *)
Definition go (g : Goroutine) : M unit :=
  fun w => (Done tt, with_goroutines (goroutines w ++ [g]) w).

(** A panic injected at [site] when the world says so. *)
Definition may_panic (site : Site) : M unit :=
  fun w => match panic_at w with
           | Some s => if Site_eqb s site
                       then (Panicked "injected", w) else (Done tt, w)
           | None => (Done tt, w)
           end.

(* ================================================================== *)
(** ** [gin]: contexts, bodies and responses                            *)
(* ================================================================== *)

(** The value stored under the context key "user". *)
Inductive CtxValue : Type :=
| CtxUser (u : User.t)
| CtxOther.

(** A request body: bytes the JSON decoder rejects with [err], or the
    struct it decodes to (absent members left at their zero value). *)
Inductive RawBody (A : Type) : Type :=
| Undecodable (err : string)
| Decoded (v : A).
Arguments Undecodable {A} err.

Inductive Payload : Type :=
| ErrorJSON (msg : string)                              (* gin.H{"error": msg} *)
| MessageJSON (msg : string)                            (* gin.H{"message": msg} *)
| TokenJSON (AccessToken TokenType Username : string)   (* TokenResponse *)
| TaskJSON (t : AutomationTask.t)
| TasksJSON (ts : list AutomationTask.t)
| ValueJSON (v : JValue)                                (* any other gin.H *)
| NoBody.

Record Response : Type := JSON {
  code : Z;
  payload : Payload
}.

Definition StatusOK := 200.
Definition StatusCreated := 201.
Definition StatusBadRequest := 400.
Definition StatusUnauthorized := 401.
Definition StatusNotFound := 404.
Definition StatusInternalServerError := 500.

Definition newline : string := String (ascii_of_nat 10) EmptyString.

(** The message go-playground/validator prints for a failed [required]. *)
Definition required_failure (strct field : string) : string :=
  "Key: '" ++ strct ++ "." ++ field ++ "' Error:Field validation for '"
  ++ field ++ "' failed on the 'required' tag".

(** [binding:"required"] on string fields: the fields that are empty,
    reported in declaration order, one line each. *)
Definition validate_required (strct : string) (fields : list (string * string))
  : option string :=
  match filter (fun f => String.eqb (snd f) "") fields with
  | [] => None
  | bad => Some (String.concat newline
                   (map (fun f => required_failure strct (fst f)) bad))
  end.

(** The token response carries an access token; nothing else does. *)
Definition access_token (r : Response) : option string :=
  match payload r with
  | TokenJSON tok _ _ => Some tok
  | _ => None
  end.

Definition error_message (r : Response) : option string :=
  match payload r with
  | ErrorJSON msg => Some msg
  | _ => None
  end.

(* ================================================================== *)
(** ** [strconv]                                                        *)
(* ================================================================== *)

Module strconv.

Definition digit (c : ascii) : option Z :=
  let n := Z.of_nat (nat_of_ascii c) in
  if (48 <=? n) && (n <=? 57) then Some (n - 48) else None.

Fixpoint digits (s : string) (acc : Z) : option Z :=
  match s with
  | EmptyString => Some acc
  | String c rest =>
      match digit c with
      | Some v => digits rest (10 * acc + v)
      | None => None
      end
  end.

Definition magnitude (sign : Z) (s : string) : option Z :=
  match s with
  | EmptyString => None
  | _ =>
      match digits s 0 with
      | Some n =>
          let v := sign * n in
          if (- 2 ^ 63 <=? v) && (v <=? 2 ^ 63 - 1) then Some v else None
      | None => None
      end
  end.

(** [strconv.Atoi]: an optional sign and decimal digits, within int64;
    [None] stands for a non-nil error. *)
Definition Atoi (s : string) : option Z :=
  match s with
  | String "+" rest => magnitude 1 rest
  | String "-" rest => magnitude (-1) rest
  | _ => magnitude 1 s
  end.

End strconv.

(* ================================================================== *)
(** ** [pkg/utils/auth.go]                                              *)
(* ================================================================== *)

Module utils.
Section WithEnv.
Variable E : Env.

Definition HashPassword (password : string) : Result string :=
  bcrypt_GenerateFromPassword E password.

Definition CheckPasswordHash (password hash : string) : bool :=
  bcrypt_matches E hash password.

Definition CreateAccessToken (username : string) : M (Result string) :=
  now <- time_Now ;;
  ret (jwt_SignedString E username now).

Definition AuthenticateUser (username password : string) : M (Result User.t) :=
  r <- db (gorm.First (fun u => String.eqb (User.Username u) username)) ;;
  match r with
  | inl err => ret (inl (DbError_Error err))
  | inr user =>
      if negb (CheckPasswordHash password (User.HashedPassword user))
      then ret (inl "invalid password")
      else if negb (User.IsActive user)
      then ret (inl "user is not active")
      else ret (inr user)
  end.

End WithEnv.
End utils.

(* ================================================================== *)
(** ** [internal/auth/handler.go]                                       *)
(* ================================================================== *)

Module auth.

Record LoginRequest : Type := mkLoginRequest {
  Username : string;
  Password : string
}.

Record CreateUserRequest : Type := mkCreateUserRequest {
  cu_Username : string;
  cu_Password : string;
  cu_IsAdmin : bool
}.

Record UpdateUserRequest : Type := mkUpdateUserRequest {
  uu_Password : string;
  uu_IsAdmin : bool;
  uu_IsActive : bool
}.

Definition ShouldBindJSON_CreateUserRequest (body : RawBody CreateUserRequest)
  : Result CreateUserRequest :=
  match body with
  | Undecodable err => inl err
  | Decoded req =>
      match validate_required "CreateUserRequest"
              [("Username", cu_Username req); ("Password", cu_Password req)] with
      | Some err => inl err
      | None => inr req
      end
  end.

Definition ShouldBindJSON (body : RawBody LoginRequest) : Result LoginRequest :=
  match body with
  | Undecodable err => inl err
  | Decoded req =>
      match validate_required "LoginRequest"
              [("Username", Username req); ("Password", Password req)] with
      | Some err => inl err
      | None => inr req
      end
  end.

Definition set_LastLoginAt (t : option Time) (u : User.t) : User.t :=
  User.mk (User.ID u) (User.Username u) (User.HashedPassword u)
          (User.IsActive u) (User.IsAdmin u) (User.CreatedAt u)
          (User.UpdatedAt u) t.

Section WithEnv.
Variable E : Env.

(** [Login]: authenticates a user and returns a JWT token. *)
Definition Login (body : RawBody LoginRequest) : M Response :=
  match ShouldBindJSON body with
  | inl err => ret (JSON StatusBadRequest (ErrorJSON err))
  | inr req =>
      r <- utils.AuthenticateUser E (Username req) (Password req) ;;
      match r with
      | inl _ =>
          ret (JSON StatusUnauthorized (ErrorJSON "Invalid username or password"))
      | inr user =>
          if negb (User.IsActive user)
          then ret (JSON StatusUnauthorized
                      (ErrorJSON "Account is inactive. Please contact administrator."))
          else
            now <- time_Now ;;
            let user := set_LastLoginAt (Some now) user in
            _ <- db (gorm.Save now user) ;;   (* a failure is only printed *)
            tok <- utils.CreateAccessToken E (User.Username user) ;;
            match tok with
            | inl _ =>
                ret (JSON StatusInternalServerError
                       (ErrorJSON "Failed to create token"))
            | inr token =>
                ret (JSON StatusOK
                       (TokenJSON token "bearer" (User.Username user)))
            end
      end
  end.

(** [GetUserStatus] returns the status of the currently authenticated
    user. *)
Definition GetUserStatus (user : option CtxValue) : M Response :=
  match user with
  | None => ret (JSON StatusUnauthorized (ErrorJSON "User not authenticated"))
  | Some CtxOther =>
      ret (JSON StatusInternalServerError (ErrorJSON "Invalid user data"))
  | Some (CtxUser u) =>
      ret (JSON StatusOK
             (ValueJSON (JObject [("created_at", JTime (User.CreatedAt u));
                                  ("is_active", JBool (User.IsActive u));
                                  ("is_admin", JBool (User.IsAdmin u))])))
  end.

(** [CreateUser] creates a new user (admin only). The column default
    makes the new user active. *)
Definition CreateUser (body : RawBody CreateUserRequest) : M Response :=
  match ShouldBindJSON_CreateUserRequest body with
  | inl err => ret (JSON StatusBadRequest (ErrorJSON err))
  | inr req =>
      existing <- db (gorm.First
                        (fun u => String.eqb (User.Username u)
                                             (cu_Username req))) ;;
      match existing with
      | inr _ =>
          ret (JSON StatusBadRequest (ErrorJSON "Username already registered"))
      | inl (DriverError _) =>
          ret (JSON StatusInternalServerError (ErrorJSON "Database error"))
      | inl ErrRecordNotFound =>
          match utils.HashPassword E (cu_Password req) with
          | inl _ =>
              ret (JSON StatusInternalServerError
                     (ErrorJSON "Failed to hash password"))
          | inr hashedPassword =>
              now <- time_Now ;;
              created <- db (gorm.Create
                               (User.mk 0 (cu_Username req) hashedPassword
                                        true (cu_IsAdmin req) now now None)) ;;
              match created with
              | inl _ =>
                  ret (JSON StatusInternalServerError
                         (ErrorJSON "Failed to create user"))
              | inr user =>
                  ret (JSON StatusCreated
                         (ValueJSON
                            (JObject
                               [("id", JInt (User.ID user));
                                ("is_admin", JBool (User.IsAdmin user));
                                ("message", JString "User created successfully");
                                ("username", JString (User.Username user))])))
              end
          end
      end
  end.

Definition user_summary (u : User.t) : JValue :=
  JObject [("created_at", JTime (User.CreatedAt u));
           ("id", JInt (User.ID u));
           ("is_active", JBool (User.IsActive u));
           ("is_admin", JBool (User.IsAdmin u));
           ("last_login_at",
            match User.LastLoginAt u with
            | Some t => JTime t
            | None => JNull
            end);
           ("username", JString (User.Username u))].

(** A [[]gin.H] that starts as nil and grows by [append], as [c.JSON]
    writes it: nothing appended, the slice is still nil, and a nil
    slice is written as [null]. *)
Definition appended (items : list JValue) : JValue :=
  match items with
  | [] => JNull
  | _ :: _ => JArray items
  end.

(** [GetUsers] lists all users (admin only). *)
Definition GetUsers : M Response :=
  found <- db (gorm.Find (fun _ : User.t => true)) ;;
  match found with
  | inl _ =>
      ret (JSON StatusInternalServerError (ErrorJSON "Failed to retrieve users"))
  | inr users =>
      ret (JSON StatusOK (ValueJSON (appended (map user_summary users))))
  end.

Definition set_flags (hash : string) (isAdmin isActive : bool) (u : User.t)
  : User.t :=
  User.mk (User.ID u) (User.Username u) hash isActive isAdmin
          (User.CreatedAt u) (User.UpdatedAt u) (User.LastLoginAt u).

(** [UpdateUser] updates a user (admin only). *)
Definition UpdateUser (id : string) (body : RawBody UpdateUserRequest)
  : M Response :=
  match strconv.Atoi id with
  | None => ret (JSON StatusBadRequest (ErrorJSON "Invalid user ID"))
  | Some userID =>
      match body with
      | Undecodable err => ret (JSON StatusBadRequest (ErrorJSON err))
      | Decoded req =>
          found <- db (gorm.First (fun u => User.ID u =? userID)) ;;
          match found with
          | inl ErrRecordNotFound =>
              ret (JSON StatusNotFound (ErrorJSON "User not found"))
          | inl (DriverError _) =>
              ret (JSON StatusInternalServerError (ErrorJSON "Database error"))
          | inr user =>
              match (if negb (String.eqb (uu_Password req) "")
                     then utils.HashPassword E (uu_Password req)
                     else inr (User.HashedPassword user)) with
              | inl _ =>
                  ret (JSON StatusInternalServerError
                         (ErrorJSON "Failed to hash password"))
              | inr hash =>
                  let user :=
                    set_flags hash (uu_IsAdmin req) (uu_IsActive req) user in
                  now <- time_Now ;;
                  saved <- db (gorm.Save now user) ;;
                  match saved with
                  | inl _ =>
                      ret (JSON StatusInternalServerError
                             (ErrorJSON "Failed to update user"))
                  | inr _ =>
                      ret (JSON StatusOK
                             (ValueJSON
                                (JObject
                                   [("id", JInt (User.ID user));
                                    ("is_active", JBool (User.IsActive user));
                                    ("is_admin", JBool (User.IsAdmin user));
                                    ("message",
                                     JString "User updated successfully");
                                    ("username",
                                     JString (User.Username user))])))
                  end
              end
          end
      end
  end.

(** [DeleteUser] deletes a user (admin only). *)
Definition DeleteUser (id : string) : M Response :=
  match strconv.Atoi id with
  | None => ret (JSON StatusBadRequest (ErrorJSON "Invalid user ID"))
  | Some userID =>
      found <- db (gorm.First (fun u => User.ID u =? userID)) ;;
      match found with
      | inl ErrRecordNotFound =>
          ret (JSON StatusNotFound (ErrorJSON "User not found"))
      | inl (DriverError _) =>
          ret (JSON StatusInternalServerError (ErrorJSON "Database error"))
      | inr user =>
          deleted <- db (gorm.Delete user) ;;
          match deleted with
          | inl _ =>
              ret (JSON StatusInternalServerError
                     (ErrorJSON "Failed to delete user"))
          | inr _ =>
              ret (JSON StatusOK (MessageJSON "User deleted successfully"))
          end
      end
  end.

End WithEnv.
End auth.

(* ================================================================== *)
(** ** [fmt] and [encoding/json] as the client uses them               *)
(* ================================================================== *)

Module fmt.

(** The verb [%d]. *)
Definition d (n : Z) : string := NilZero.string_of_int (Z.to_int n).

(** The verb [%04d] on a non-negative number: zero-padded to width 4. *)
Definition d04 (n : Z) : string :=
  let s := d n in
  String.concat "" (repeat "0" (4 - String.length s)%nat) ++ s.

End fmt.

Module json.
Section WithEnv.
Variable E : Env.

(** Whether every [time.Time] in the document can be written: its
    [MarshalJSON] fails for a year outside [0,9999]. *)
Fixpoint marshalable (v : JValue) : bool :=
  match v with
  | JTime t => time_MarshalJSON_ok E t
  | JArray items => forallb marshalable items
  | JObject members => forallb (fun m => marshalable (snd m)) members
  | _ => true
  end.

(** [json.Marshal]: the document written, or the error. *)
Definition Marshal (v : JValue) : Result JValue :=
  if marshalable v then inr v
  else inl "json: error calling MarshalJSON for type time.Time: Time.MarshalJSON: year outside of range [0,9999]".

End WithEnv.

(** [json.Unmarshal] into an [interface{}] or a [json.RawMessage]. *)
Definition Unmarshal (raw : RawMessage) : Result JValue :=
  match raw with
  | Encoded v => inr v
  | Garbage _ => inl "invalid character looking for beginning of value"
  end.

(** A member tagged [omitempty]. *)
Definition omitempty_string (key value : string) : list (string * JValue) :=
  if String.eqb value "" then [] else [(key, JString value)].

Definition omitempty_int (key : string) (value : Z) : list (string * JValue) :=
  if value =? 0 then [] else [(key, JInt value)].

(** A slice of ints. (A nil slice, which Go writes as [null], is not
    told apart from an empty one in this model.) *)
Definition ints (l : list Z) : JValue := JArray (map JInt l).

Definition of_CreateAccountRequest (r : CreateAccountRequest) : JValue :=
  JObject (omitempty_string "username" (car_Username r)
           ++ omitempty_string "password" (car_Password r)
           ++ [("package", JInt (car_Package r))]
           ++ omitempty_string "reseller_notes" (car_ResellerNotes r)
           ++ match car_Bouquets r with
              | [] => []
              | b => [("bouquets", ints b)]
              end
           ++ [("rid", JString (car_RID r))]).

Definition of_ExtendPackageRequest (r : ExtendPackageRequest) : JValue :=
  JObject [("package", JInt (epr_Package r)); ("rid", JString (epr_RID r))].

Definition of_Line (l : Line) : JValue :=
  JObject ([("line_id", JString (LineID l));
            ("username", JString (line_Username l));
            ("password", JString (line_Password l))]
           ++ omitempty_string "mac_addr" (MacAddr l)
           ++ [("owner", JString (Owner l));
               ("type", JString (line_Type l));
               ("expire_at", JTime (line_ExpireAt l));
               ("is_enabled", JBool (IsEnabled l));
               ("is_restreamer", JBool (IsRestreamer l));
               ("is_trial", JBool (IsTrial l))]
           ++ omitempty_int "package_id" (PackageID l)
           ++ [("bouquets", ints (Bouquets l));
               ("max_connections", JInt (MaxConnections l))]
           ++ omitempty_string "reseller_notes" (line_ResellerNotes l)).

End json.

(* ================================================================== *)
(** ** [internal/automation]: the panel API client                      *)
(* ================================================================== *)

Module automation.
Section WithEnv.
Variable E : Env.

Definition NewAPIClient (baseURL apiKey authUser : string) : APIClient :=
  mkAPIClient baseURL apiKey authUser.

(** [isHTMLResponse] checks if the response body contains HTML content. *)
Definition isHTMLResponse (body : string) : bool :=
  strings.Contains body "<!DOCTYPE" ||
  strings.Contains body "<html" ||
  strings.Contains body "<body" ||
  strings.Contains body "<head" ||
  strings.Contains body "<title".

Definition formatConnectionError (url : string) (status : Z) : string :=
  if status =? 404 then
    "The panel URL is incorrect or the service could not be found. Please check your settings."
  else if status >=? 500 then
    "The external service is currently unavailable. Please try again later."
  else
    "Could not connect to the panel. Please verify your panel URL and try again.".

(** [http.NewRequest]: fails when the URL does not parse. *)
Definition http_NewRequest (method url : string) (body : option JValue)
  : Result HttpRequest :=
  match url_Parse_error E url with
  | Some err => inl err
  | None => inr (mkHttpRequest method url [] body)
  end.

Definition Header_Set (key value : string) (r : HttpRequest) : HttpRequest :=
  mkHttpRequest (Method r) (URL r)
    (filter (fun h => negb (String.eqb (fst h) key)) (Header r) ++ [(key, value)])
    (Body r).

(** [c.HTTPClient.Do(req)]: the one place where a request leaves the
    process; it is recorded in [http_log]. *)
Definition HTTPClient_Do (r : HttpRequest) : M (Result HttpResponse) :=
  fun w =>
    (Done (RoundTrip E (List.length (http_log w)) r),
     mkWorld (DB w) (clock w) (http_log w ++ [r]) (rand_calls w)
             (uuid_calls w) (goroutines w) (panic_at w)).

(** The block [if resp.StatusCode != http.StatusOK { ... }], which the
    three methods repeat word for word: the error it returns. *)
Definition error_of_response (c : APIClient) (resp : HttpResponse) : string :=
  match ReadAll resp with
  | inl readErr => "error reading error response: " ++ readErr
  | inr bodyBytes =>
      if isHTMLResponse bodyBytes then
        "connection error: " ++ formatConnectionError (BaseURL c) (StatusCode resp)
      else
        match bodyBytes with
        | String "{" _ =>
            match decode_error_envelope E bodyBytes with
            | inl _ =>
                "error response (status " ++ fmt.d (StatusCode resp) ++ "): "
                ++ bodyBytes
            | inr (err, rid) => "API error: " ++ err ++ " (RID: " ++ rid ++ ")"
            end
        | _ =>
            "unexpected response (status " ++ fmt.d (StatusCode resp) ++ "): "
            ++ bodyBytes
        end
  end.

(** [json.NewDecoder(resp.Body).Decode(&v)]. *)
Definition Decode {A : Type} (dec : string -> Result A) (resp : HttpResponse)
  : Result A :=
  match ReadAll resp with
  | inl err => inl ("error decoding response: " ++ err)
  | inr body =>
      match dec body with
      | inl err => inl ("error decoding response: " ++ err)
      | inr v => inr v
      end
  end.

Definition CreateAccount (c : APIClient) (req : CreateAccountRequest)
  : M (Result CreateAccountResponse) :=
  match json.Marshal E (json.of_CreateAccountRequest req) with
  | inl err => ret (inl ("error marshaling request: " ++ err))
  | inr jsonData =>
      match http_NewRequest "POST" (BaseURL c ++ "/ext/line/create")
              (Some jsonData) with
      | inl err => ret (inl ("error creating request: " ++ err))
      | inr httpReq =>
          let httpReq := Header_Set "Content-Type" "application/json" httpReq in
          let httpReq := Header_Set "X-Api-Key" (APIKey c) httpReq in
          let httpReq := Header_Set "X-Auth-User" (AuthUser c) httpReq in
          r <- HTTPClient_Do httpReq ;;
          match r with
          | inl err => ret (inl ("error making request: " ++ err))
          | inr resp =>
              if negb (StatusCode resp =? StatusOK)
              then ret (inl (error_of_response c resp))
              else ret (Decode (decode_CreateAccountResponse E) resp)
          end
      end
  end.

Definition FindAccount (c : APIClient) (username : string)
  : M (Result (list Line)) :=
  match http_NewRequest "GET"
          (BaseURL c ++ "/ext/lines?username=" ++ username) None with
  | inl err => ret (inl ("error creating request: " ++ err))
  | inr httpReq =>
      let httpReq := Header_Set "X-Api-Key" (APIKey c) httpReq in
      let httpReq := Header_Set "X-Auth-User" (AuthUser c) httpReq in
      r <- HTTPClient_Do httpReq ;;
      match r with
      | inl err => ret (inl ("error making request: " ++ err))
      | inr resp =>
          if negb (StatusCode resp =? StatusOK)
          then ret (inl (error_of_response c resp))
          else ret (Decode (decode_Lines E) resp)
      end
  end.

Definition ExtendPackage (c : APIClient) (lineID : string)
  (req : ExtendPackageRequest) : M (Result ExtendPackageResponse) :=
  match json.Marshal E (json.of_ExtendPackageRequest req) with
  | inl err => ret (inl ("error marshaling request: " ++ err))
  | inr jsonData =>
      match http_NewRequest "POST"
              (BaseURL c ++ "/ext/line/" ++ lineID ++ "/renew")
              (Some jsonData) with
      | inl err => ret (inl ("error creating request: " ++ err))
      | inr httpReq =>
          let httpReq := Header_Set "Content-Type" "application/json" httpReq in
          let httpReq := Header_Set "X-Api-Key" (APIKey c) httpReq in
          let httpReq := Header_Set "X-Auth-User" (AuthUser c) httpReq in
          r <- HTTPClient_Do httpReq ;;
          match r with
          | inl err => ret (inl ("error making request: " ++ err))
          | inr resp =>
              if negb (StatusCode resp =? StatusOK)
              then ret (inl (error_of_response c resp))
              else ret (Decode (decode_ExtendPackageResponse E) resp)
          end
      end
  end.

(** [IsSimulationMode] checks if the API client is in simulation mode
    (test credentials). *)
Definition IsSimulationMode (c : APIClient) : bool :=
  String.eqb (APIKey c) "test" && String.eqb (AuthUser c) "test".

(** [uuid.New().String()]: the next UUID of the source. *)
Definition uuid_New : M string :=
  fun w =>
    (Done (uuid_source E (uuid_calls w)),
     mkWorld (DB w) (clock w) (http_log w) (rand_calls w)
             (S (uuid_calls w)) (goroutines w) (panic_at w)).

(** [rand.Intn(n)]: the next draw reduced into [0, n); panics for
    [n <= 0]. *)
Definition rand_Intn (n : Z) : M Z :=
  fun w =>
    if n <=? 0 then (Panicked "invalid argument to Intn", w)
    else
      (Done (rand_source E (rand_calls w) mod n),
       mkWorld (DB w) (clock w) (http_log w) (S (rand_calls w))
               (uuid_calls w) (goroutines w) (panic_at w)).

(** The [switch req.Package] of both simulations. *)
Definition mock_transaction_amount (package : Z) : Q :=
  if package =? 101 then 100
  else if package =? 103 then 270
  else if package =? 106 then 500
  else if package =? 112 then 950
  else if package =? 124 then 1800
  else 100.

(** [SimulateCreateAccount] returns mock data for a create account
    request. Go's integer division truncates: [Z.quot]. *)
Definition SimulateCreateAccount (c : APIClient) (req : CreateAccountRequest)
  : M (Result CreateAccountResponse) :=
  u <- uuid_New ;;
  let lineID := "sim-" ++ u in
  now <- time_Now ;;
  let expireAt := AddDate E now 0 (Z.quot (car_Package req) 100) 0 in
  let transactionAmount := mock_transaction_amount (car_Package req) in
  ret (inr (mkCreateAccountResponse lineID expireAt transactionAmount
              (car_RID req))).

(** One turn of the loop of [SimulateFindAccount]. *)
Definition simulated_line (username : string) : M Line :=
  simUsername <-
    (if String.eqb username "" then
       n <- rand_Intn 10000 ;; ret ("test_user_" ++ fmt.d04 n)
     else ret username) ;;
  p <- rand_Intn 10000 ;;
  let simPassword := "TestPass" ++ fmt.d04 p ++ "!" in
  now <- time_Now ;;
  months <- rand_Intn 12 ;;
  days <- rand_Intn 30 ;;
  let simExpireAt := AddDate E now 0 months days in
  u <- uuid_New ;;
  ret (mkLine ("sim-" ++ u) simUsername simPassword "" "" "" simExpireAt
              false false false 0 [] 0 "").

Fixpoint simulated_lines (username : string) (count : nat) : M (list Line) :=
  match count with
  | O => ret []
  | S count' =>
      l <- simulated_line username ;;
      ls <- simulated_lines username count' ;;
      ret (l :: ls)
  end.

(** [SimulateFindAccount] returns mock data for a find account request:
    1-3 mock accounts, or just one when a username is provided. *)
Definition SimulateFindAccount (c : APIClient) (username : string)
  : M (Result (list Line)) :=
  r <- rand_Intn 3 ;;
  let count := 1 + r in
  let count := if negb (String.eqb username "") then 1 else count in
  lines <- simulated_lines username (Z.to_nat count) ;;
  ret (inr lines).

(** [SimulateExtendPackage] returns mock data for an extend package
    request. *)
Definition SimulateExtendPackage (c : APIClient) (lineID : string)
  (req : ExtendPackageRequest) : M (Result ExtendPackageResponse) :=
  now <- time_Now ;;
  let expireAt := AddDate E now 0 (Z.quot (epr_Package req) 100) 0 in
  let transactionAmount := mock_transaction_amount (epr_Package req) in
  ret (inr (mkExtendPackageResponse lineID expireAt transactionAmount
              (epr_RID req))).

(* ------------------------------------------------------------------ *)
(** *** [internal/automation/handler.go]: helpers                      *)
(* ------------------------------------------------------------------ *)

(** Helper function to check if a string contains HTML. *)
Definition containsHTML (str : string) : bool :=
  strings.Contains str "<!DOCTYPE" ||
  strings.Contains str "<html" ||
  strings.Contains str "<body" ||
  strings.Contains str "<head" ||
  strings.Contains str "<title".

Definition connection_error_message : string :=
  "Connection error: The external service URL appears to be incorrect or not responding properly.".

(** Helper to sanitize error messages that might contain HTML. *)
Definition sanitizeErrorMessage (errMsg : string) : string :=
  if containsHTML errMsg then connection_error_message else errMsg.

Definition set_outcome (status : string) (result : option RawMessage)
  (completedAt : option Time) (t : AutomationTask.t) : AutomationTask.t :=
  AutomationTask.mk (AutomationTask.ID t) (AutomationTask.UserID t)
    (AutomationTask.Name t) (AutomationTask.TargetWebsite t) status result
    (AutomationTask.CreatedAt t) (AutomationTask.UpdatedAt t) completedAt.

(** [map[string]interface{}{"success": false, "error": msg}], keys in the
    order [json.Marshal] writes a map. *)
Definition errorData (msg : string) : JValue :=
  JObject [("error", JString msg); ("success", JBool false)].

(** [models.JSON(resultJSON)] of a byte slice that may be nil. *)
Definition JSON_of (r : Result JValue) : option RawMessage :=
  match r with
  | inr v => Some (Encoded v)
  | inl _ => None
  end.

(** [db.Save(&task)] as [executeTask] calls it: the error is only
    logged. gorm stamps [UpdatedAt] with the time of the call. *)
Definition save_task (task : AutomationTask.t) : M unit :=
  may_panic AtSave ;;
  t <- time_Now ;;
  _ <- db (gorm.Save t task) ;;
  ret tt.

(** The block every [if err != nil] of [executeTask] repeats: mark the
    task failed with the sanitized message and save it. *)
Definition fail_with (task : AutomationTask.t) (now : Time) (errText : string)
  : M unit :=
  let errorMessage := sanitizeErrorMessage errText in
  may_panic AtMarshal ;;
  let resultJSON :=
    match json.Marshal E (errorData errorMessage) with
    | inr v => v
    | inl _ => JObject [("success", JBool false);
                        ("error", JString "Failed to serialize error message")]
    end in
  save_task (set_outcome "failed" (Some (Encoded resultJSON)) (Some now) task).

(** The tail of every successful branch: marshal the result, fall back
    to a failure when that is not possible, and save. *)
Definition complete_with (task : AutomationTask.t) (now : Time)
  (result : JValue) : M unit :=
  may_panic AtMarshal ;;
  match json.Marshal E result with
  | inr resultJSON =>
      save_task (set_outcome "completed" (Some (Encoded resultJSON))
                   (Some now) task)
  | inl _ =>
      save_task (set_outcome "failed"
                   (JSON_of (json.Marshal E
                               (errorData "Failed to serialize result data")))
                   (Some now) task)
  end.

Definition account_data (lineID username password : string) (expireAt : Time)
  (amount : Q) (rid : string) : JValue :=
  JObject [("data",
            JObject [("expire_at", JTime expireAt);
                     ("line_id", JString lineID);
                     ("password", JString password);
                     ("rid", JString rid);
                     ("transaction_amount", JFloat amount);
                     ("username", JString username)]);
           ("success", JBool true)].

(** (As for [json.ints], a nil slice of lines is written here as an
    empty array.) *)
Definition lines_data (lines : list Line) : JValue :=
  JObject [("data", JArray (map json.of_Line lines)); ("success", JBool true)].

(* ------------------------------------------------------------------ *)
(** *** [executeTask]                                                  *)
(* ------------------------------------------------------------------ *)

(** The body of [executeTask], without its deferred function. *)
Definition executeTask_body (taskID : Z) (req : TaskRequest)
  (apiClient : APIClient) : M unit :=
  may_panic AtGetDB ;;
  live <- GetDB_is_live ;;
  if negb live then ret tt
  else
    may_panic AtFirst ;;
    found <- db (gorm.First (fun t => AutomationTask.ID t =? taskID)) ;;
    match found with
    | inl _ => ret tt
    | inr task =>
        may_panic AtUUID ;;
        rid <- uuid_New ;;
        let isSimulation := IsSimulationMode apiClient in
        now <- time_Now ;;
        if String.eqb (AutomationTask.Name task) "create_account" then
          let apiReq :=
            mkCreateAccountRequest (req_Username req) (req_Password req)
                                   (req_Package req) "" [] rid in
          may_panic AtMainCall ;;
          r <- (if isSimulation then SimulateCreateAccount apiClient apiReq
                else CreateAccount apiClient apiReq) ;;
          match r with
          | inl err => fail_with task now err
          | inr response =>
              complete_with task now
                (account_data (cres_LineID response) (req_Username req)
                   (req_Password req) (cres_ExpireAt response)
                   (cres_TransactionAmount response) (cres_RID response))
          end
        else if String.eqb (AutomationTask.Name task) "find_account" then
          may_panic AtFindCall ;;
          r <- (if isSimulation
                then SimulateFindAccount apiClient (req_Username req)
                else FindAccount apiClient (req_Username req)) ;;
          match r with
          | inl err => fail_with task now err
          | inr lines => complete_with task now (lines_data lines)
          end
        else if String.eqb (AutomationTask.Name task) "extend_package" then
          may_panic AtFindCall ;;
          r <- (if isSimulation
                then SimulateFindAccount apiClient (req_Username req)
                else FindAccount apiClient (req_Username req)) ;;
          match r with
          | inl err => fail_with task now err
          | inr [] =>
              let errorMessage :=
                sanitizeErrorMessage "No accounts found with the provided username" in
              may_panic AtMarshal ;;
              save_task (set_outcome "failed"
                           (JSON_of (json.Marshal E (errorData errorMessage)))
                           (Some now) task)
          | inr (line :: _) =>
              let extendReq := mkExtendPackageRequest (req_Package req) rid in
              may_panic AtMainCall ;;
              r <- (if isSimulation
                    then SimulateExtendPackage apiClient (LineID line) extendReq
                    else ExtendPackage apiClient (LineID line) extendReq) ;;
              match r with
              | inl err => fail_with task now err
              | inr response =>
                  complete_with task now
                    (account_data (eres_LineID response) (line_Username line)
                       (line_Password line) (eres_ExpireAt response)
                       (eres_TransactionAmount response) (eres_RID response))
              end
          end
        else ret tt   (* the switch has no default case *)
    end.

(** The deferred function of [executeTask]: what runs after
    [recover()] returned a non-nil value. *)
Definition executeTask_recovered (taskID : Z) (r : string) : M unit :=
  live <- GetDB_is_live ;;
  if live then
    found <- db (gorm.First (fun t => AutomationTask.ID t =? taskID)) ;;
    match found with
    | inr task =>
        let resultJSON :=
          json.Marshal E
            (errorData "Internal server error: task execution panicked") in
        now <- time_Now ;;
        _ <- db (gorm.Save now
                   (set_outcome "failed" (JSON_of resultJSON) (Some now) task)) ;;
        ret tt
    | inl _ => ret tt
    end
  else ret tt.

(** [executeTask] executes the automation task. *)
Definition executeTask (taskID : Z) (req : TaskRequest) (apiClient : APIClient)
  : M unit :=
  defer_recover (executeTask_body taskID req apiClient)
                (executeTask_recovered taskID).

(* ------------------------------------------------------------------ *)
(** *** The HTTP handlers                                              *)
(* ------------------------------------------------------------------ *)

Definition ShouldBindJSON_TaskRequest (body : RawBody TaskRequest)
  : Result TaskRequest :=
  match body with
  | Undecodable err => inl err
  | Decoded req =>
      match validate_required "TaskRequest"
              [("Name", req_Name req);
               ("TargetWebsite", req_TargetWebsite req)] with
      | Some err => inl err
      | None => inr req
      end
  end.

Definition ShouldBindJSON_SettingsRequest (body : RawBody SettingsRequest)
  : Result SettingsRequest :=
  match body with
  | Undecodable err => inl err
  | Decoded req =>
      match validate_required "SettingsRequest"
              [("WebsiteURL", sreq_WebsiteURL req);
               ("APIKey", sreq_APIKey req);
               ("AuthUser", sreq_AuthUser req)] with
      | Some err => inl err
      | None => inr req
      end
  end.

Definition CreateTask (user : option CtxValue) (body : RawBody TaskRequest)
  : M Response :=
  match user with
  | None => ret (JSON StatusUnauthorized (ErrorJSON "User not authenticated"))
  | Some user =>
      match ShouldBindJSON_TaskRequest body with
      | inl err =>
          let errorMsg :=
            if strings.Contains err "TargetWebsite"
               && strings.Contains err "required"
            then "Panel URL is not configured. Please go to Settings and configure your Panel URL first."
            else "Invalid request format" in
          ret (JSON StatusBadRequest (ErrorJSON errorMsg))
      | inr req =>
          match user with
          | CtxOther =>
              ret (JSON StatusInternalServerError (ErrorJSON "Invalid user data"))
          | CtxUser u =>
              found <- db (gorm.First
                             (fun s => UserSettings.UserID s =? User.ID u)) ;;
              match found with
              | inl ErrRecordNotFound =>
                  ret (JSON StatusNotFound (ErrorJSON "Settings not found"))
              | inl (DriverError _) =>
                  ret (JSON StatusInternalServerError (ErrorJSON "Database error"))
              | inr settings =>
                  let apiClient :=
                    NewAPIClient (UserSettings.WebsiteURL settings)
                                 (UserSettings.APIKey settings)
                                 (UserSettings.AuthUser settings) in
                  createdAt <- time_Now ;;
                  updatedAt <- time_Now ;;
                  let task :=
                    AutomationTask.mk 0 (User.ID u) (req_Name req)
                      (req_TargetWebsite req) "pending" None createdAt
                      updatedAt None in
                  created <- db (gorm.Create task) ;;
                  match created with
                  | inl _ =>
                      ret (JSON StatusInternalServerError
                             (ErrorJSON "Failed to create task"))
                  | inr task =>
                      go (mkGoroutine (AutomationTask.ID task) req apiClient) ;;
                      ret (JSON StatusCreated (TaskJSON task))
                  end
              end
          end
      end
  end.

(** [GetUserTasks] returns all tasks for the current user. *)
Definition GetUserTasks (user : option CtxValue) : M Response :=
  match user with
  | None => ret (JSON StatusUnauthorized (ErrorJSON "User not authenticated"))
  | Some CtxOther =>
      ret (JSON StatusInternalServerError (ErrorJSON "Invalid user data"))
  | Some (CtxUser u) =>
      found <- db (gorm.Find
                     (fun t => AutomationTask.UserID t =? User.ID u)) ;;
      match found with
      | inl _ =>
          ret (JSON StatusInternalServerError
                 (ErrorJSON "Failed to retrieve tasks"))
      | inr tasks => ret (JSON StatusOK (TasksJSON tasks))
      end
  end.

(** [WHERE id = ? AND user_id = ?] with the path parameter and the id of
    the authenticated user. *)
Definition owned_by (id : string) (u : User.t) (t : AutomationTask.t) : bool :=
  sql_text_eq_int E id (AutomationTask.ID t)
  && (AutomationTask.UserID t =? User.ID u).

Definition JTime_opt (t : option Time) : JValue :=
  match t with
  | Some t => JTime t
  | None => JNull
  end.

Definition len_positive (raw : RawMessage) : bool :=
  match raw with
  | Encoded _ => true
  | Garbage bytes => negb (String.eqb bytes "")
  end.

(** [GetTask] returns a specific task. Its deferred [recover] answers a
    panic with a 500. *)
Definition GetTask (id : string) (user : option CtxValue) : M Response :=
  fun w0 =>
  match
    (if String.eqb id "" then
       ret (JSON StatusBadRequest (ErrorJSON "Task ID is required"))
     else
       match user with
       | None =>
           ret (JSON StatusUnauthorized (ErrorJSON "User not authenticated"))
       | Some CtxOther =>
           ret (JSON StatusInternalServerError (ErrorJSON "Invalid user data"))
       | Some (CtxUser u) =>
           live <- GetDB_is_live ;;
           if negb live then
             ret (JSON StatusInternalServerError
                    (ErrorJSON "Database connection error"))
           else
             (* the raw query whose outcome is only logged *)
             _ <- db (gorm.Find (owned_by id u)) ;;
             rows <- db (gorm.Find (owned_by id u)) ;;
             match rows with
             | inl err =>
                 ret (JSON StatusInternalServerError
                        (ErrorJSON ("Database error: " ++ DbError_Error err)))
             | inr [] =>
                 ret (JSON StatusNotFound (ErrorJSON "Task not found"))
             | inr (row :: _) =>
                 scanned <- db (gorm.statement (fun s => (inr row, s))) ;;
                 match scanned with
                 | inl scanErr =>
                     ret (JSON StatusInternalServerError
                            (ErrorJSON ("Error reading task data: "
                                        ++ DbError_Error scanErr)))
                 | inr task =>
                     resultRows <- db (gorm.Find (owned_by id u)) ;;
                     let result : RawMessage :=
                       match resultRows with
                       | inl _ =>
                           Encoded (JObject
                             [("success", JBool false);
                              ("error", JString "Unable to read result data")])
                       | inr (r :: _) =>
                           match AutomationTask.Result r with
                           | Some raw =>
                               match json.Unmarshal raw with
                               | inr js => Encoded js
                               | inl _ =>
                                   Encoded (JObject
                                     [("success", JBool false);
                                      ("error",
                                       JString "Invalid result data format")])
                               end
                           | None =>
                               Encoded (JObject [("success", JBool false);
                                                 ("data", JObject [])])
                           end
                       | inr [] =>
                           Encoded (JObject [("success", JBool false);
                                             ("data", JObject [])])
                       end in
                     let resultData :=
                       if len_positive result then
                         match json.Unmarshal result with
                         | inr v => v
                         | inl _ =>
                             JObject
                               [("error",
                                 JString "Failed to parse task result data");
                                ("success", JBool false)]
                         end
                       else JObject [("data", JObject []);
                                     ("success", JBool false)] in
                     ret (JSON StatusOK
                            (ValueJSON
                               (JObject
                                  [("completed_at",
                                    JTime_opt (AutomationTask.CompletedAt task));
                                   ("created_at",
                                    JTime (AutomationTask.CreatedAt task));
                                   ("id", JInt (AutomationTask.ID task));
                                   ("name", JString (AutomationTask.Name task));
                                   ("result", resultData);
                                   ("status",
                                    JString (AutomationTask.Status task));
                                   ("target_website",
                                    JString (AutomationTask.TargetWebsite task));
                                   ("updated_at",
                                    JTime (AutomationTask.UpdatedAt task));
                                   ("user_id",
                                    JInt (AutomationTask.UserID task))])))
                 end
             end
       end) w0
  with
  | (Done r, w) => (Done r, w)
  | (Panicked _, w) =>
      (Done (JSON StatusInternalServerError (ErrorJSON "Internal server error")), w)
  end.

Definition interface_conversion : string :=
  "interface conversion: interface {} is nil, not models.User".

Definition set_credentials (req : SettingsRequest) (s : UserSettings.t)
  : UserSettings.t :=
  UserSettings.mk (UserSettings.ID s) (UserSettings.UserID s)
    (sreq_WebsiteURL req) (sreq_APIKey req) (sreq_AuthUser req)
    (UserSettings.CreatedAt s) (UserSettings.UpdatedAt s).

(** [UpdateSettings] updates the user's automation settings. *)
Definition UpdateSettings (user : option CtxValue)
  (body : RawBody SettingsRequest) : M Response :=
  match ShouldBindJSON_SettingsRequest body with
  | inl err => ret (JSON StatusBadRequest (ErrorJSON err))
  | inr req =>
      match user with
      | Some (CtxUser u) =>
          found <- db (gorm.First
                         (fun s => UserSettings.UserID s =? User.ID u)) ;;
          match found with
          | inl _ =>
              now <- time_Now ;;
              created <- db (gorm.Create
                               (UserSettings.mk 0 (User.ID u)
                                  (sreq_WebsiteURL req) (sreq_APIKey req)
                                  (sreq_AuthUser req) now now)) ;;
              match created with
              | inl _ =>
                  ret (JSON StatusInternalServerError
                         (ErrorJSON "Failed to create settings"))
              | inr _ =>
                  ret (JSON StatusOK (MessageJSON "Settings updated successfully"))
              end
          | inr settings =>
              now <- time_Now ;;
              saved <- db (gorm.Save now (set_credentials req settings)) ;;
              match saved with
              | inl _ =>
                  ret (JSON StatusInternalServerError
                         (ErrorJSON "Failed to update settings"))
              | inr _ =>
                  ret (JSON StatusOK (MessageJSON "Settings updated successfully"))
              end
          end
      | _ => panic interface_conversion
      end
  end.

(** [GetSettings] returns the user's automation settings. *)
Definition GetSettings (user : option CtxValue) : M Response :=
  match user with
  | Some (CtxUser u) =>
      found <- db (gorm.First (fun s => UserSettings.UserID s =? User.ID u)) ;;
      match found with
      | inl _ =>
          ret (JSON StatusOK
                 (ValueJSON (JObject [("api_key", JString "");
                                      ("auth_user", JString "");
                                      ("website_url", JString "")])))
      | inr settings =>
          ret (JSON StatusOK
                 (ValueJSON
                    (JObject
                       [("api_key", JString (UserSettings.APIKey settings));
                        ("auth_user", JString (UserSettings.AuthUser settings));
                        ("created_at", JTime (UserSettings.CreatedAt settings));
                        ("updated_at", JTime (UserSettings.UpdatedAt settings));
                        ("website_url",
                         JString (UserSettings.WebsiteURL settings))])))
      end
  | _ => panic interface_conversion
  end.

End WithEnv.
End automation.

(** [gin.Default()] installs [Recovery]: a handler that panics answers
    with a bare 500. *)
Definition gin_Recovery (h : M Response) : M Response :=
  fun w => match h w with
           | (Done r, w') => (Done r, w')
           | (Panicked _, w') => (Done (JSON StatusInternalServerError NoBody), w')
           end.

(* ================================================================== *)
(** ** The running server                                               *)
(* ================================================================== *)

Module server.

(** A request on one of the routes of [main.go]; the context value
    under "user" is whatever the middleware left there. *)
Inductive Request : Type :=
| POST_auth_token (body : RawBody auth.LoginRequest)
| GET_auth_status (user : option CtxValue)
| POST_admin_users (body : RawBody auth.CreateUserRequest)
| GET_admin_users
| PUT_admin_users (id : string) (body : RawBody auth.UpdateUserRequest)
| DELETE_admin_users (id : string)
| POST_automation_tasks (user : option CtxValue) (body : RawBody TaskRequest)
| GET_automation_tasks (user : option CtxValue)
| GET_automation_task (id : string) (user : option CtxValue)
| PUT_automation_settings (user : option CtxValue)
                          (body : RawBody SettingsRequest)
| GET_automation_settings (user : option CtxValue).

(** What can happen to the process: a request is served, the scheduler
    runs a started goroutine to its end, or the environment moves
    (driver faults to come, a panic to inject, the clock). A goroutine
    is run in one step: between its [db.First] and its [db.Save] it only
    talks to the panel, its one write is that [Save] of its own row, by
    primary key, and no handler writes a task row that exists. *)
Inductive Event : Type :=
| Serve (r : Request)
| Run (n : nat)
| Environment (fs : list (option string)) (p : option Site) (now : Time).

Definition handler (E : Env) (r : Request) : M Response :=
  match r with
  | POST_auth_token body => auth.Login E body
  | GET_auth_status user => auth.GetUserStatus user
  | POST_admin_users body => auth.CreateUser E body
  | GET_admin_users => auth.GetUsers
  | PUT_admin_users id body => auth.UpdateUser E id body
  | DELETE_admin_users id => auth.DeleteUser id
  | POST_automation_tasks user body => automation.CreateTask user body
  | GET_automation_tasks user => automation.GetUserTasks user
  | GET_automation_task id user => automation.GetTask E id user
  | PUT_automation_settings user body => automation.UpdateSettings user body
  | GET_automation_settings user => automation.GetSettings user
  end.

Fixpoint remove_nth {A : Type} (n : nat) (l : list A) : list A :=
  match n, l with
  | _, [] => []
  | O, _ :: rest => rest
  | S n', x :: rest => x :: remove_nth n' rest
  end.

Definition set_environment (fs : list (option string)) (p : option Site)
  (now : Time) (w : World) : World :=
  mkWorld (match DB w with
           | Some c => Some (mkConn (store c) fs)
           | None => None
           end)
          now (http_log w) (rand_calls w) (uuid_calls w) (goroutines w) p.

Definition step (E : Env) (e : Event) (w : World) : World :=
  match e with
  | Run n =>
      match nth_error (goroutines w) n with
      | Some g =>
          snd (automation.executeTask E (g_taskID g) (g_req g) (g_client g)
                 (with_goroutines (remove_nth n (goroutines w)) w))
      | None => w
      end
  | Environment fs p now => set_environment fs p now w
  | Serve r => snd (gin_Recovery (handler E r) w)
  end.

(** The rows of [automation_tasks], none when the handle is nil. *)
Definition tasks (w : World) : list AutomationTask.t :=
  match DB w with
  | Some c => rows (automation_tasks (store c))
  | None => []
  end.

Definition known_status (s : string) : Prop :=
  s = "pending" \/ s = "completed" \/ s = "failed".

(** The process starts with no goroutine, on a database whose task rows
    have distinct positive keys, as AUTOINCREMENT hands them out, and a
    status this program writes (in particular on the empty table that
    [AutoMigrate] creates). *)
Definition started (w : World) : Prop :=
  goroutines w = []
  /\ NoDup (map AutomationTask.ID (tasks w))
  /\ Forall (fun t => known_status (AutomationTask.Status t)
                      /\ 0 < AutomationTask.ID t) (tasks w)
  /\ match DB w with
     | Some c => 0 <= seq (automation_tasks (store c))
     | None => True
     end.

Inductive reachable (E : Env) : World -> Prop :=
| reachable_start : forall w, started w -> reachable E w
| reachable_step : forall w e, reachable E w -> reachable E (step E e w).

End server.

(* ================================================================== *)
(** ** [frontend/src/pages/Action.tsx]: polling for completion          *)
(* ================================================================== *)

Module frontend.

(** The two closures [pollTaskCompletion] hands to the browser; both
    capture the handle [pollInterval]. *)
Inductive Callback : Type :=
| PollTick (pollInterval : nat)
| GiveUp (pollInterval : nat).

(** A pending browser timer, times in milliseconds. [every] is the
    period of a [setInterval] timer, [None] for [setTimeout]. *)
Record Timer : Type := mkTimer {
  handle : nat;
  due : Z;
  every : option Z;
  callback : Callback
}.

(** The React state the polling writes. *)
Record UI : Type := mkUI {
  error : string;
  outputText : string;
  successMessage : string
}.

(** What [safeParseJSON] and [formatOutput] make of a task's result:
    reading it throws, or it is an object with a [success] flag, an
    [error] text if any, and [formatOutput(response.data)], which may
    throw too. *)
Inductive Parsed : Type :=
| Unreadable (exn : string)
| Readable (success : bool) (formatted : Result string) (err : option string).

(** How one call of [automation.getTask] ends: the promise rejects
    (with an [Error] carrying a message, or with something else), or it
    resolves with the row. *)
Inductive Answer : Type :=
| Rejected (message : option string)
| Resolved (status : string) (response : Parsed).

(** The page: the clock, the pending timers, the next timer handle, the
    React state, and the instants at which [getTask] was called. *)
Record Page : Type := mkPage {
  now : Z;
  timers : list Timer;
  next_handle : nat;
  ui : UI;
  polled : list Z
}.

Definition setError (msg : string) (u : UI) : UI :=
  mkUI msg (outputText u) (successMessage u).

Definition setOutputText (text : string) (u : UI) : UI :=
  mkUI (error u) text (successMessage u).

Definition setSuccessMessage (msg : string) (u : UI) : UI :=
  mkUI (error u) (outputText u) msg.

Definition with_ui (u : UI) (p : Page) : Page :=
  mkPage (now p) (timers p) (next_handle p) u (polled p).

(** [setInterval(cb, ms)] and [setTimeout(cb, ms)]. *)
Definition setInterval (cb : nat -> Callback) (ms : Z) (p : Page) : nat * Page :=
  let h := next_handle p in
  (h, mkPage (now p)
             (timers p ++ [mkTimer h (now p + ms) (Some ms) (cb h)])
             (S h) (ui p) (polled p)).

Definition setTimeout (cb : Callback) (ms : Z) (p : Page) : Page :=
  let h := next_handle p in
  mkPage (now p) (timers p ++ [mkTimer h (now p + ms) None cb])
         (S h) (ui p) (polled p).

Definition clearInterval (h : nat) (p : Page) : Page :=
  mkPage (now p) (filter (fun t => negb (Nat.eqb (handle t) h)) (timers p))
         (next_handle p) (ui p) (polled p).

(** [errorMsg.includes('<!DOCTYPE') || errorMsg.includes('<html') ||
    errorMsg.includes('non-JSON error response')]. *)
Definition looks_misconfigured (errorMsg : string) : bool :=
  strings.Contains errorMsg "<!DOCTYPE" ||
  strings.Contains errorMsg "<html" ||
  strings.Contains errorMsg "non-JSON error response".

Definition panel_url_message : string :=
  "The panel URL appears to be incorrect. Please check your settings.".

(** [response.error || fallback]. *)
Definition error_or (err : option string) (fallback : string) : string :=
  match err with
  | Some msg => if String.eqb msg "" then fallback else msg
  | None => fallback
  end.

Section Polling.
(** The arguments of [pollTaskCompletion] other than the task id, and
    the answers [getTask] will get, call after call. *)
Variable errorMessage : string.
Variable successMessageText : string.
Variable answers : nat -> Answer.

(** The body of the interval callback once [getTask] has answered. *)
Definition on_answer (pollInterval : nat) (a : Answer) (p : Page) : Page :=
  match a with
  | Resolved status response =>
      if String.eqb status "completed" then
        let p := clearInterval pollInterval p in
        match response with
        | Unreadable exn =>
            with_ui (setError ("Error processing result: " ++ exn) (ui p)) p
        | Readable true (inr output) _ =>
            with_ui (setSuccessMessage successMessageText
                       (setError "" (setOutputText output (ui p)))) p
        | Readable true (inl exn) _ =>
            with_ui (setError ("Error processing result: " ++ exn) (ui p)) p
        | Readable false _ err =>
            let errorMsg := error_or err errorMessage in
            if looks_misconfigured errorMsg
            then with_ui (setError panel_url_message (ui p)) p
            else with_ui (setError errorMsg (ui p)) p
        end
      else if String.eqb status "failed" then
        let p := clearInterval pollInterval p in
        match response with
        | Unreadable _ =>
            with_ui (setError "Task failed with invalid result format" (ui p)) p
        | Readable _ _ err =>
            let errorMsg := error_or err "Task failed" in
            if looks_misconfigured errorMsg
            then with_ui (setError panel_url_message (ui p)) p
            else with_ui (setError errorMsg (ui p)) p
        end
      else p
  | Rejected (Some errorMsg) =>
      let p :=
        if looks_misconfigured errorMsg
        then with_ui (setError panel_url_message (ui p)) p
        else with_ui (setError ("Error checking task status: " ++ errorMsg)
                               (ui p)) p in
      clearInterval pollInterval p
  | Rejected None =>
      clearInterval pollInterval
        (with_ui (setError "Error checking task status" (ui p)) p)
  end.

(** Running a callback. The interval callback calls [getTask] (the
    instant is recorded) and handles the answer; answers are taken to
    arrive before the next timer fires. *)
Definition invoke (cb : Callback) (p : Page) : Page :=
  match cb with
  | PollTick pollInterval =>
      let a := answers (List.length (polled p)) in
      on_answer pollInterval a
        (mkPage (now p) (timers p) (next_handle p) (ui p)
                (polled p ++ [now p]))
  | GiveUp pollInterval =>
      let p := clearInterval pollInterval p in
      with_ui (setError "Task timed out" (ui p)) p
  end.

(** Which of two timers fires first: the earlier one, and at the same
    instant the one [older_first] says (browsers differ). *)
Variable older_first : bool.

Definition before (a b : Timer) : bool :=
  (due a <? due b)
  || ((due a =? due b)
      && (if older_first then Nat.leb (handle a) (handle b)
          else Nat.leb (handle b) (handle a))).

Fixpoint earliest (ts : list Timer) : option Timer :=
  match ts with
  | [] => None
  | t :: rest =>
      match earliest rest with
      | Some t' => if before t t' then Some t else Some t'
      | None => Some t
      end
  end.

(** One turn of the event loop: the earliest timer fires. The clock
    moves to its due time, an interval timer is re-armed one period
    later, a timeout is dropped, and the callback runs. *)
Definition turn (p : Page) : option Page :=
  match earliest (timers p) with
  | None => None
  | Some t =>
      let others := filter (fun x => negb (Nat.eqb (handle x) (handle t)))
                           (timers p) in
      let rearmed :=
        match every t with
        | Some ms => (others ++ [mkTimer (handle t) (due t + ms) (Some ms)
                                         (callback t)])%list
        | None => others
        end in
      Some (invoke (callback t)
              (mkPage (due t) rearmed (next_handle p) (ui p) (polled p)))
  end.

(** The event loop, for at most [fuel] turns. *)
Fixpoint run (fuel : nat) (p : Page) : Page :=
  match fuel with
  | O => p
  | S fuel' =>
      match turn p with
      | Some p' => run fuel' p'
      | None => p
      end
  end.

(** Polls every 2 seconds from server to see if the task is finished.
    [taskId] is [None] for [undefined]; zero is falsy. *)
Definition pollTaskCompletion (taskId : option Z) (p : Page) : Page :=
  match taskId with
  | None => with_ui (setError "Invalid task ID: undefined" (ui p)) p
  | Some 0 => with_ui (setError "Invalid task ID: 0" (ui p)) p
  | Some _ =>
      let (pollInterval, p) := setInterval PollTick 2000 p in
      setTimeout (GiveUp pollInterval) 300000 p
  end.

End Polling.

(** The page when the form is submitted: no timer, nothing shown. *)
Definition fresh_page : Page := mkPage 0 [] 0 (mkUI "" "" "") [].

End frontend.

(* ================================================================== *)
(** ** [internal/middleware]: who reaches a handler                     *)
(* ================================================================== *)

(** What golang-jwt makes of a token string at an instant:
    [jwt.ParseWithClaims] with the server's key fails with an error,
    or hands back the token's [Valid] flag and its [Username] claim. *)
Record TokenEnv : Type := mkTokenEnv {
  jwt_ParseWithClaims : string -> Time -> Result (bool * string)
}.

Definition StatusForbidden := 403.

Module middleware.

(** [strings.Split(s, sep)] for a separator of one byte: the pieces
    between the separators, in order; there is always one piece. *)
Fixpoint strings_Split (sep : ascii) (s : string) : list string :=
  match s with
  | EmptyString => [EmptyString]
  | String c rest =>
      if Ascii.eqb c sep then EmptyString :: strings_Split sep rest
      else match strings_Split sep rest with
           | piece :: pieces => String c piece :: pieces
           | [] => [String c EmptyString]
           end
  end.

(** [strings.ToLower] on the letters of ASCII. (Go also maps letters
    outside ASCII, none of them to a letter of "bearer", the one string
    the result is compared with.) *)
Definition lower (c : ascii) : ascii :=
  let n := nat_of_ascii c in
  if Nat.leb 65 n && Nat.leb n 90 then ascii_of_nat (n + 32) else c.

Fixpoint strings_ToLower (s : string) : string :=
  match s with
  | EmptyString => EmptyString
  | String c rest => String (lower c) (strings_ToLower rest)
  end.

(** The keys of the [gin.Context] that the middleware sets and the
    handlers read. *)
Record Keys : Type := mkKeys {
  key_username : option string;
  key_user : option CtxValue
}.

(** A middleware either aborts with a response ([AbortWithStatusJSON],
    [inl]) or calls [c.Next()] on the context it leaves ([inr]). *)
Definition Middleware : Type := Keys -> M (Response + Keys).

Definition abort (status : Z) (msg : string) : M (Response + Keys) :=
  ret (inl (JSON status (ErrorJSON msg))).

Section WithTokens.
Variable T : TokenEnv.

(** [utils.VerifyToken] validates a JWT token. *)
Definition VerifyToken (tokenString : string) : M (Result string) :=
  now <- time_Now ;;
  match jwt_ParseWithClaims T tokenString now with
  | inl err => ret (inl err)
  | inr (valid, username) =>
      if negb valid then ret (inl "invalid token") else ret (inr username)
  end.

(** [AuthRequired] checks if the request has a valid JWT token.
    [authHeader] is [c.GetHeader("Authorization")], empty when the
    header is absent. *)
Definition AuthRequired (authHeader : string) : Middleware :=
  fun k =>
    if String.eqb authHeader "" then
      abort StatusUnauthorized "Authorization header is required"
    else
      let parts := strings_Split " " authHeader in
      if negb (Nat.eqb (List.length parts) 2)
         || negb (String.eqb (strings_ToLower (nth 0 parts "")) "bearer")
      then abort StatusUnauthorized
                 "Authorization header format must be Bearer {token}"
      else
        let tokenString := nth 1 parts "" in
        claims <- VerifyToken tokenString ;;
        match claims with
        | inl _ => abort StatusUnauthorized "Invalid or expired token"
        | inr username => ret (inr (mkKeys (Some username) (key_user k)))
        end.

End WithTokens.

(** [GetCurrentUser] retrieves the current user from the database based
    on the username in the token. *)
Definition GetCurrentUser : Middleware :=
  fun k =>
    match key_username k with
    | None => abort StatusUnauthorized "User not authenticated"
    | Some username =>
        found <- db (gorm.First
                       (fun u => String.eqb (User.Username u) username)) ;;
        match found with
        | inl _ => abort StatusUnauthorized "User not found"
        | inr user =>
            if negb (User.IsActive user)
            then abort StatusUnauthorized "User is inactive"
            else ret (inr (mkKeys (key_username k) (Some (CtxUser user))))
        end
    end.

(** [AdminRequired] checks if the user is an admin. *)
Definition AdminRequired : Middleware :=
  fun k =>
    match key_user k with
    | None => abort StatusUnauthorized "User not authenticated"
    | Some CtxOther => abort StatusInternalServerError "Internal server error"
    | Some (CtxUser u) =>
        if negb (User.IsAdmin u)
        then abort StatusForbidden "Admin access required"
        else ret (inr k)
    end.

Definition allowedHosts : list string := ["localhost"; "127.0.0.1"].

(** The loop of [TrustedHosts] over the allowed hosts. *)
Fixpoint host_allowed (host : string) (hosts : list string) : bool :=
  match hosts with
  | [] => false
  | allowedHost :: rest =>
      if String.eqb host allowedHost
         || (String.eqb allowedHost "localhost"
             && (String.eqb host "localhost:8080"
                 || String.eqb host "localhost:5173"))
      then true
      else host_allowed host rest
  end.

(** [TrustedHosts] implements the trusted hosts middleware; [host] is
    [c.Request.Host]. [AbortWithStatus(403)] writes no body. *)
Definition TrustedHosts (host : string) : Middleware :=
  fun k =>
    if negb (host_allowed host allowedHosts)
    then ret (inl (JSON StatusForbidden NoBody))
    else ret (inr k).

(** A chain of gin handlers: each middleware runs on the context the
    one before it left, and the chain stops at the first that aborts. *)
Fixpoint chain (ms : list Middleware) (h : Keys -> M Response) (k : Keys)
  : M Response :=
  match ms with
  | [] => h k
  | m :: rest =>
      r <- m k ;;
      match r with
      | inl response => ret response
      | inr k' => chain rest h k'
      end
  end.

End middleware.

(* ================================================================== *)
(** ** [cmd/main.go]: the default administrator and the route groups    *)
(* ================================================================== *)

Module main.

(** [db.Model(&models.User{}).Count(&count)]. *)
Definition Count : Conn -> (DbError + Z) * Conn :=
  gorm.statement
    (fun s => (inr (Z.of_nat (List.length (rows (users s)))), s)).

Section WithEnv.
Variable E : Env.

(** [createDefaultAdminUser] creates a default admin user if no users
    exist in the database. The error of the count is not looked at:
    [count] keeps its zero value when the statement fails. [log.Fatal]
    ends the process: that is the answer [inl], with the text logged. *)
Definition createDefaultAdminUser : M (Result unit) :=
  counted <- db Count ;;
  let count := match counted with
               | inr n => n
               | inl _ => 0
               end in
  if count =? 0 then
    match utils.HashPassword E "admin" with
    | inl err => ret (inl ("Failed to hash admin password:" ++ err))
    | inr hashedPassword =>
        now <- time_Now ;;
        created <- db (gorm.Create
                         (User.mk 0 "admin" hashedPassword true true now now
                                  None)) ;;
        match created with
        | inl err =>
            ret (inl ("Failed to create default admin user:"
                      ++ DbError_Error err))
        | inr _ => ret (inr tt)
        end
    end
  else ret (inr tt).

Variable T : TokenEnv.

(** The requests the router knows, by route; the user comes from the
    [Authorization] header, through the middleware of the group. *)
Inductive Route : Type :=
| POST_auth_token (body : RawBody auth.LoginRequest)
| GET_auth_status
| POST_admin_users (body : RawBody auth.CreateUserRequest)
| GET_admin_users
| PUT_admin_users (id : string) (body : RawBody auth.UpdateUserRequest)
| DELETE_admin_users (id : string)
| POST_automation_tasks (body : RawBody TaskRequest)
| GET_automation_tasks
| GET_automation_task (id : string)
| PUT_automation_settings (body : RawBody SettingsRequest)
| GET_automation_settings.

(** The middleware of the group a route is registered in. *)
Definition group (authHeader : string) (r : Route) : list middleware.Middleware :=
  match r with
  | POST_auth_token _ => []
  | POST_admin_users _ | GET_admin_users | PUT_admin_users _ _
  | DELETE_admin_users _ =>
      [middleware.AuthRequired T authHeader; middleware.GetCurrentUser;
       middleware.AdminRequired]
  | _ => [middleware.AuthRequired T authHeader; middleware.GetCurrentUser]
  end.

(** The handler of a route, on the context the middleware left. *)
Definition handle (r : Route) (k : middleware.Keys) : M Response :=
  server.handler E
    (match r with
     | POST_auth_token body => server.POST_auth_token body
    | GET_auth_status => server.GET_auth_status (middleware.key_user k)
    | POST_admin_users body => server.POST_admin_users body
    | GET_admin_users => server.GET_admin_users
    | PUT_admin_users id body => server.PUT_admin_users id body
    | DELETE_admin_users id => server.DELETE_admin_users id
    | POST_automation_tasks body =>
        server.POST_automation_tasks (middleware.key_user k) body
    | GET_automation_tasks =>
        server.GET_automation_tasks (middleware.key_user k)
    | GET_automation_task id =>
        server.GET_automation_task id (middleware.key_user k)
    | PUT_automation_settings body =>
        server.PUT_automation_settings (middleware.key_user k) body
    | GET_automation_settings =>
        server.GET_automation_settings (middleware.key_user k)
    end).

(** One request through the router of [main]: [gin.Default]'s recovery
    around the middleware of the group and the handler. (The security
    headers, the rate limiter and CORS, which run before the groups, are
    not part of this model.) *)
Definition serve (authHeader : string) (r : Route) : M Response :=
  gin_Recovery
    (middleware.chain (group authHeader r) (handle r)
                      (middleware.mkKeys None None)).

End WithEnv.
End main.

(* ================================================================== *)
(** ** [go-backend/internal/models]: [JSON] as a database value         *)
(* ================================================================== *)

Module models.

(** [database/sql/driver.Value]; a byte slice is told apart by whether
    it encodes a JSON document, as [RawMessage] does. *)
Inductive driver_Value : Type :=
| VNil
| VInt64 (n : Z)
| VFloat64 (q : Q)
| VBool (b : bool)
| VBytes (raw : RawMessage)
| VString (s : string)
| VTime (t : Time).

(** [func (j *JSON) Scan(value interface{}) error]: the new [*j] and
    the error. [json.Unmarshal] leaves its target, the empty
    [json.RawMessage{}], alone when the bytes are not valid JSON. *)
Definition Scan (j : option RawMessage) (value : driver_Value)
  : option RawMessage * option string :=
  match value with
  | VBytes bytes =>
      match json.Unmarshal bytes with
      | inr _ => (Some bytes, None)
      | inl err => (None, Some err)
      end
  | _ => (j, Some "type assertion to []byte failed")
  end.

(** [func (j JSON) Value() (driver.Value, error)]. *)
Definition Value (j : option RawMessage) : driver_Value * option string :=
  match j with
  | None => (VNil, None)
  | Some raw =>
      if automation.len_positive raw then (VBytes raw, None)
      else (VNil, None)
  end.

End models.

(* ================================================================== *)
(** ** [frontend/src/pages/Action.tsx]: what the forms send             *)
(* ================================================================== *)

Module action.

Definition packageDurations : list Z := [1; 3; 6; 12; 24].

(** Package duration to package number mapping; [None] is the
    [undefined] of a key the object does not have. *)
Definition packageMapping (duration : Z) : option Z :=
  if duration =? 1 then Some 101
  else if duration =? 3 then Some 103
  else if duration =? 6 then Some 106
  else if duration =? 12 then Some 112
  else if duration =? 24 then Some 124
  else None.

End action.

(* ================================================================== *)
(** ** A concrete environment, for running the model                    *)
(* ================================================================== *)

Module demo.

(** A toy environment: passwords are "hashed" by a prefix, the panel is
    unreachable, time is counted in days. *)
Definition env : Env :=
  mkEnv
    (fun hash pw => String.eqb hash ("bcrypt:" ++ pw))
    (fun pw => inr ("bcrypt:" ++ pw))
    (fun username _ => inr ("jwt." ++ username))
    (fun t years months days => t + 365 * years + 30 * months + days)
    (fun t => (0 <=? t) && (t <? 3650000))
    (fun n => 7919 * Z.of_nat n + 13)
    (fun n => "6ba7b810-9dad-11d1-80b4-00c04fd4" ++ fmt.d04 (Z.of_nat n))
    (fun _ => None)
    (fun _ _ => inl "dial tcp 203.0.113.7:443: connect: connection refused")
    (fun _ => inl "unexpected end of JSON input")
    (fun _ => inl "unexpected end of JSON input")
    (fun _ => inl "unexpected end of JSON input")
    (fun _ => inl "unexpected end of JSON input")
    (fun s n => match strconv.Atoi s with
                | Some m => m =? n
                | None => false
                end).

Definition alice : User.t :=
  User.mk 1 "alice" "bcrypt:wonderland" true false 100 100 None.

(** An account an administrator has deactivated. *)
Definition bob : User.t :=
  User.mk 2 "bob" "bcrypt:builder" false false 100 120 None.

(** Alice runs against the simulated panel. *)
Definition alice_settings : UserSettings.t :=
  UserSettings.mk 1 1 "https://panel.example" "test" "test" 100 100.

Definition store0 : Store :=
  mkStore (mkTable [alice; bob] 2) (mkTable [alice_settings] 1) (mkTable [] 0).

Definition world0 : World :=
  mkWorld (Some (mkConn store0 [])) 200 [] 0 0 [] None.

End demo.

(* ================================================================== *)
(** * Properties                                                        *)
(* ================================================================== *)

Local Open Scope go_scope.

(** ** Substring search *)

Lemma prefix_decomposes (p s : string) :
  String.prefix p s = true <-> exists rest, s = p ++ rest.
Proof.
  revert s. induction p as [|a p IH]; intros s.
  - split; [intros _; now exists s | now destruct s].
  - destruct s as [|b s]; simpl.
    + split; [discriminate | intros [r Hr]; discriminate].
    + destruct (Ascii.ascii_dec a b) as [->|Hne].
      * rewrite IH. split; intros [r Hr].
        -- exists r. now rewrite Hr.
        -- exists r. now inversion Hr.
      * split; [discriminate | intros [r Hr]; simpl in Hr; congruence].
Qed.

Lemma Contains_unfold (s substr : string) :
  strings.Contains s substr =
  if String.prefix substr s then true
  else match s with
       | EmptyString => false
       | String _ rest => strings.Contains rest substr
       end.
Proof. destruct s; reflexivity. Qed.

Lemma Contains_occurs (s substr : string) :
  strings.Contains s substr = true <-> occurs_in substr s.
Proof.
  unfold occurs_in. induction s as [|a s IH]; rewrite Contains_unfold.
  - destruct (String.prefix substr "") eqn:P.
    + split; [intros _ | reflexivity].
      apply prefix_decomposes in P. destruct P as [r Hr].
      exists "", r. exact Hr.
    + split; [discriminate|]. intros [b [c Hbc]].
      destruct b; [|discriminate]. simpl in Hbc.
      assert (String.prefix substr "" = true)
        by (apply prefix_decomposes; now exists c).
      congruence.
  - destruct (String.prefix substr (String a s)) eqn:P.
    + split; [intros _ | reflexivity].
      apply prefix_decomposes in P. destruct P as [r Hr].
      exists "", r. exact Hr.
    + rewrite IH. split.
      * intros [b [c Hbc]]. exists (String a b), c. simpl. now rewrite Hbc.
      * intros [b [c Hbc]]. destruct b as [|a' b]; simpl in Hbc.
        -- assert (String.prefix substr (String a s) = true)
             by (apply prefix_decomposes; now exists c).
           congruence.
        -- inversion Hbc. now exists b, c.
Qed.

(** ** The error-message sanitizer *)

Definition html_markers : list string :=
  ["<!DOCTYPE"; "<html"; "<body"; "<head"; "<title"].

(** The message carries one of the HTML markers. *)
Definition looks_like_html (msg : string) : Prop :=
  exists marker, In marker html_markers /\ occurs_in marker msg.

Lemma containsHTML_iff (msg : string) :
  automation.containsHTML msg = true <-> looks_like_html msg.
Proof.
  unfold automation.containsHTML, looks_like_html, html_markers.
  rewrite !orb_true_iff, !Contains_occurs. simpl. split.
  - intros [[[[H|H]|H]|H]|H]; eexists; (split; [|exact H]); tauto.
  - intros [m [[<-|[<-|[<-|[<-|[<-|[]]]]]] H]]; tauto.
Qed.

Lemma isHTMLResponse_containsHTML (body : string) :
  automation.isHTMLResponse body = automation.containsHTML body.
Proof. reflexivity. Qed.

(** C7. Every upstream error message is classified by its HTML markers:
    a message in which "<!DOCTYPE", "<html", "<body", "<head" or
    "<title" occurs is replaced by the fixed connection-error message,
    and every other message is returned unchanged. *)
Theorem sanitizeErrorMessage_classifies (errMsg : string) :
  (looks_like_html errMsg /\
   automation.sanitizeErrorMessage errMsg = automation.connection_error_message)
  \/
  (~ looks_like_html errMsg /\ automation.sanitizeErrorMessage errMsg = errMsg).
Proof.
  unfold automation.sanitizeErrorMessage.
  destruct (automation.containsHTML errMsg) eqn:C.
  - left. split; [now apply containsHTML_iff | reflexivity].
  - right. split; [|reflexivity].
    intros H. apply containsHTML_iff in H. congruence.
Qed.

Example sanitize_html_page :
  automation.sanitizeErrorMessage
    "unexpected response (status 502): <html><body>Bad Gateway</body></html>"
  = automation.connection_error_message.
Proof. reflexivity. Qed.

Example sanitize_plain_message :
  automation.sanitizeErrorMessage "API error: insufficient credits (RID: 7)"
  = "API error: insufficient credits (RID: 7)".
Proof. reflexivity. Qed.

(** ** The gorm layer *)

Section GormFacts.
Context {R : Type} `{Model R}.

Lemma least_fold_some (l : list R) (a : R) :
  exists r,
    fold_left (fun acc r =>
                 match acc with
                 | None => Some r
                 | Some a => if pk r <? pk a then Some r else Some a
                 end) l (Some a) = Some r
    /\ (r = a \/ In r l).
Proof.
  revert a. induction l as [|x l IH]; intros a; simpl.
  - exists a. auto.
  - destruct (pk x <? pk a).
    + destruct (IH x) as [r [Hr Hin]]. exists r. split; [exact Hr|].
      right. destruct Hin; [left; congruence | now right].
    + destruct (IH a) as [r [Hr Hin]]. exists r. split; [exact Hr|].
      destruct Hin; [now left | right; now right].
Qed.

Lemma least_nil_iff (l : list R) : gorm.least l = None <-> l = [].
Proof.
  unfold gorm.least. destruct l as [|x l]; simpl.
  - tauto.
  - destruct (least_fold_some l x) as [r [Hr _]]. rewrite Hr.
    split; discriminate.
Qed.

Lemma least_In (l : list R) (r : R) : gorm.least l = Some r -> In r l.
Proof.
  unfold gorm.least. destruct l as [|x l]; simpl; [discriminate|].
  destruct (least_fold_some l x) as [r' [Hr Hin]]. rewrite Hr.
  intros [= <-]. destruct Hin; [left; congruence | now right].
Qed.

Lemma fold_max_bounds (l : list R) (z : Z) (r : R) :
  In r l -> pk r <= fold_right Z.max z (map pk l).
Proof.
  induction l as [|x l IH]; simpl; intros Hin; [contradiction|].
  destruct Hin as [->|Hin]; [lia|]. specialize (IH Hin). lia.
Qed.

Lemma next_pk_above (t : Table R) (r : R) :
  In r (rows t) -> pk r < gorm.next_pk t.
Proof.
  intros Hin. unfold gorm.next_pk.
  pose proof (fold_max_bounds (rows t) (seq t) r Hin). lia.
Qed.

Lemma has_pk_true_iff (i : Z) (l : list R) :
  gorm.has_pk i l = true <-> exists r, In r l /\ pk r = i.
Proof.
  unfold gorm.has_pk. rewrite existsb_exists.
  split; intros [r [Hin Hr]]; exists r; (split; [exact Hin|]);
    [now apply Z.eqb_eq | now apply Z.eqb_eq].
Qed.

Lemma has_pk_next_pk (t : Table R) : gorm.has_pk (gorm.next_pk t) (rows t) = false.
Proof.
  destruct (gorm.has_pk (gorm.next_pk t) (rows t)) eqn:Hp; [|reflexivity].
  apply has_pk_true_iff in Hp. destruct Hp as [r [Hin Hr]].
  apply next_pk_above in Hin. lia.
Qed.

End GormFacts.

(** No driver fault is scheduled. *)
Definition reliable (c : Conn) : Prop := Forall (fun f => f = None) (faults c).

Lemma statement_reliable {A : Type} (f : Store -> (DbError + A) * Store)
  (c : Conn) :
  reliable c ->
  exists c', gorm.statement f c = (fst (f (store c)), c')
             /\ store c' = snd (f (store c)) /\ reliable c'.
Proof.
  unfold reliable, gorm.statement. intros Hr.
  destruct (faults c) as [|[msg|] rest] eqn:Hf.
  - destruct (f (store c)) as [r s']. eexists. split; [reflexivity|].
    split; [reflexivity | constructor].
  - inversion Hr; discriminate.
  - destruct (f (store c)) as [r s']. eexists. split; [reflexivity|].
    split; [reflexivity | now inversion Hr].
Qed.

(** A statement fails with its scheduled fault or runs on the store. *)
Lemma statement_cases {A : Type} (f : Store -> (DbError + A) * Store)
  (c : Conn) :
  (exists msg rest, gorm.statement f c = (inl (DriverError msg), mkConn (store c) rest))
  \/ (exists rest, gorm.statement f c
                   = (fst (f (store c)), mkConn (snd (f (store c))) rest)).
Proof.
  unfold gorm.statement. destruct (faults c) as [|[msg|] rest].
  - right. exists []. now destruct (f (store c)).
  - left. now exists msg, rest.
  - right. exists rest. now destruct (f (store c)).
Qed.

(** A statement on the live handle returns; it either fails with the
    scheduled fault, leaving the store alone, or runs on the store. *)
Lemma db_statement_spec {A : Type} (f : Store -> (DbError + A) * Store)
  (w : World) (c : Conn) :
  DB w = Some c ->
  exists r s' rest,
    db (gorm.statement f) w = (Done r, with_DB (Some (mkConn s' rest)) w)
    /\ (((exists msg, r = inl (DriverError msg)) /\ s' = store c)
        \/ (r, s') = f (store c))
    /\ (reliable c -> (r, s') = f (store c) /\ reliable (mkConn s' rest)).
Proof.
  intros Hdb. unfold db. rewrite Hdb. unfold gorm.statement, reliable.
  destruct (faults c) as [|[msg|] rest] eqn:Hf.
  - destruct (f (store c)) as [r s']. exists r, s', []. simpl.
    repeat split; auto.
  - exists (inl (DriverError msg)), (store c), rest. simpl.
    split; [reflexivity|]. split; [left; eauto|].
    intros Hr. inversion Hr; discriminate.
  - destruct (f (store c)) as [r s']. exists r, s', rest. simpl.
    repeat split; auto. now inversion H.
Qed.

(** ** Login *)

(** The row the lookup by username selects, if any. *)
Definition stored_user (c : Conn) (name : string) : option User.t :=
  gorm.least (filter (fun u => String.eqb (User.Username u) name)
                     (rows (users (store c)))).

Definition no_such_user (c : Conn) (name : string) : Prop :=
  forall u, In u (rows (users (store c))) -> User.Username u <> name.

(** The username does not exist, or the password does not match the
    stored hash. *)
Definition wrong_credentials (E : Env) (c : Conn) (req : auth.LoginRequest)
  : Prop :=
  no_such_user c (auth.Username req)
  \/ exists u, stored_user c (auth.Username req) = Some u
               /\ bcrypt_matches E (User.HashedPassword u) (auth.Password req)
                  = false.

Lemma no_such_user_stored (c : Conn) (name : string) :
  no_such_user c name -> stored_user c name = None.
Proof.
  unfold no_such_user, stored_user. intros Hno. apply least_nil_iff.
  induction (rows (users (store c))) as [|x xs IH]; [reflexivity|].
  simpl. destruct (String.eqb (User.Username x) name) eqn:Heq.
  - apply String.eqb_eq in Heq. exfalso. apply (Hno x); [now left | exact Heq].
  - apply IH. intros y Hy. apply Hno. now right.
Qed.

(** What [AuthenticateUser] answers once the handle is live. *)
Lemma AuthenticateUser_cases (E : Env) (w : World) (c : Conn)
  (username password : string) :
  DB w = Some c ->
  exists r rest,
    utils.AuthenticateUser E username password w
    = (Done r, with_DB (Some (mkConn (store c) rest)) w)
    /\ match r with
       | inl _ => True
       | inr u => stored_user c username = Some u
                  /\ bcrypt_matches E (User.HashedPassword u) password = true
                  /\ User.IsActive u = true
       end.
Proof.
  intros Hdb. unfold utils.AuthenticateUser, bind, gorm.First.
  match goal with
  | |- context [db (gorm.statement ?f) w] =>
      destruct (db_statement_spec f w Hdb) as [r [s' [rest [Hrun [Hr _]]]]]
  end.
  rewrite Hrun. clear Hrun.
  destruct Hr as [[[msg ->] ->]|Hr].
  - exists (inl msg), rest. split; [reflexivity | exact I].
  - simpl in Hr.
    change (gorm.least
              (filter (fun u => String.eqb (User.Username u) username)
                      (rows (users (store c))))) with (stored_user c username)
      in Hr.
    destruct (stored_user c username) as [u|] eqn:Hu;
      injection Hr as -> ->.
    + unfold utils.CheckPasswordHash.
      destruct (bcrypt_matches E (User.HashedPassword u) password) eqn:Hm; simpl.
      * destruct (User.IsActive u) eqn:Ha; simpl;
          do 2 eexists; (split; [reflexivity|]); simpl; auto.
      * do 2 eexists. split; [reflexivity|]. exact I.
    + do 2 eexists. split; [reflexivity|]. exact I.
Qed.

Lemma AuthenticateUser_rejects (E : Env) (w : World) (c : Conn)
  (req : auth.LoginRequest) :
  DB w = Some c -> wrong_credentials E c req ->
  exists msg w',
    utils.AuthenticateUser E (auth.Username req) (auth.Password req) w
    = (Done (inl msg), w').
Proof.
  intros Hdb Hwrong.
  destruct (AuthenticateUser_cases E w (auth.Username req) (auth.Password req) Hdb)
    as [r [rest [Hrun Hr]]].
  destruct r as [msg|u]; [eauto|].
  destruct Hr as [Hu [Hm _]]. exfalso.
  destruct Hwrong as [Hno|[u' [Hu' Hm']]].
  - apply no_such_user_stored in Hno. congruence.
  - congruence.
Qed.

(** The request passes [binding:"required"]. *)
Definition binds (req : auth.LoginRequest) : bool :=
  negb (String.eqb (auth.Username req) "")
  && negb (String.eqb (auth.Password req) "").

Lemma ShouldBindJSON_binds (req : auth.LoginRequest) :
  if binds req then auth.ShouldBindJSON (Decoded req) = inr req
  else exists err, auth.ShouldBindJSON (Decoded req) = inl err.
Proof.
  unfold binds, auth.ShouldBindJSON, validate_required. simpl.
  destruct (String.eqb (auth.Username req) "");
    destruct (String.eqb (auth.Password req) ""); simpl; eauto.
Qed.

Definition invalid_credentials : Response :=
  JSON StatusUnauthorized (ErrorJSON "Invalid username or password").

Definition account_inactive : Response :=
  JSON StatusUnauthorized
       (ErrorJSON "Account is inactive. Please contact administrator.").

(** [Login] returns once the handle is live, and its dedicated answer
    for inactive accounts is dead code: [AuthenticateUser] never hands
    back an inactive user. *)
Lemma Login_never_reports_inactive (E : Env) (body : RawBody auth.LoginRequest)
  (w : World) (c : Conn) :
  DB w = Some c ->
  exists r w', auth.Login E body w = (Done r, w') /\ r <> account_inactive.
Proof.
  intros Hdb. unfold auth.Login.
  destruct (auth.ShouldBindJSON body) as [err|req].
  - do 2 eexists. split; [reflexivity|]. discriminate.
  - unfold bind at 1.
    destruct (AuthenticateUser_cases E w (auth.Username req) (auth.Password req) Hdb)
      as [r [rest [Hrun Hr]]].
    rewrite Hrun. destruct r as [msg|u].
    + do 2 eexists. split; [reflexivity|]. discriminate.
    + destruct Hr as [_ [_ Ha]]. rewrite Ha. simpl.
      unfold bind, time_Now, gorm.Save.
      match goal with
      | |- context [db (gorm.statement ?f) ?w1] =>
          destruct (@db_statement_spec _ f w1 (mkConn (store c) rest) eq_refl)
            as [r1 [s1 [rest1 [Hsave _]]]]
      end.
      rewrite Hsave. unfold utils.CreateAccessToken, bind, time_Now, ret.
      destruct (jwt_SignedString E _ _);
        do 2 eexists; (split; [reflexivity|]); discriminate.
Qed.

Lemma Login_unbound (E : Env) (req : auth.LoginRequest) (w : World) :
  binds req = false ->
  exists err, auth.Login E (Decoded req) w
              = (Done (JSON StatusBadRequest (ErrorJSON err)), w).
Proof.
  intros Hb. pose proof (ShouldBindJSON_binds req) as Hs. rewrite Hb in Hs.
  destruct Hs as [err Herr]. exists err. unfold auth.Login. now rewrite Herr.
Qed.

Lemma Login_rejected (E : Env) (req : auth.LoginRequest) (w : World) (c : Conn) :
  DB w = Some c -> binds req = true ->
  (forall u, stored_user c (auth.Username req) = Some u ->
             bcrypt_matches E (User.HashedPassword u) (auth.Password req) = true ->
             User.IsActive u = false) ->
  exists w', auth.Login E (Decoded req) w = (Done invalid_credentials, w').
Proof.
  intros Hdb Hb Hrej. pose proof (ShouldBindJSON_binds req) as Hs.
  rewrite Hb in Hs. unfold auth.Login. rewrite Hs. unfold bind at 1.
  destruct (AuthenticateUser_cases E w (auth.Username req) (auth.Password req) Hdb)
    as [r [rest [Hrun Hr]]].
  rewrite Hrun. destruct r as [msg|u].
  - eexists. reflexivity.
  - destruct Hr as [Hu [Hm Ha]]. specialize (Hrej u Hu Hm). congruence.
Qed.

(** C4, amended. A login request whose username does not exist, or
    whose password does not match the stored bcrypt hash, never obtains
    an access token: when it passes request binding (username and
    password both non-empty) the handler answers 401, and when it does
    not the handler answers 400. This holds whatever the database
    driver does. *)
Theorem Login_wrong_credentials (E : Env) (w : World) (c : Conn)
  (req : auth.LoginRequest) :
  DB w = Some c ->
  wrong_credentials E c req ->
  exists r w',
    auth.Login E (Decoded req) w = (Done r, w')
    /\ access_token r = None
    /\ code r = if binds req then StatusUnauthorized else StatusBadRequest.
Proof.
  intros Hdb Hwrong. destruct (binds req) eqn:Hb.
  - destruct (@Login_rejected E req w c Hdb Hb) as [w' Hrun].
    + intros u Hu Hm. exfalso. destruct Hwrong as [Hno|[u' [Hu' Hm']]].
      * apply no_such_user_stored in Hno. congruence.
      * congruence.
    + exists invalid_credentials, w'. auto.
  - destruct (Login_unbound E req w Hb) as [err Hrun].
    eexists _, w. split; [exact Hrun|]. auto.
Qed.

(** C9, amended. A login attempt against an existing user whose active
    flag is false never reaches the dedicated "Account is inactive"
    answer of [Login] and never obtains a token: when the attempt passes
    request binding it is answered with 401 and the generic "Invalid
    username or password", and when it does not it is answered with
    400. *)
Theorem Login_inactive_user (E : Env) (w : World) (c : Conn)
  (req : auth.LoginRequest) (u : User.t) :
  DB w = Some c ->
  stored_user c (auth.Username req) = Some u ->
  User.IsActive u = false ->
  exists r w',
    auth.Login E (Decoded req) w = (Done r, w')
    /\ r <> account_inactive
    /\ access_token r = None
    /\ if binds req then r = invalid_credentials
       else code r = StatusBadRequest.
Proof.
  intros Hdb Hu Ha. destruct (binds req) eqn:Hb.
  - destruct (@Login_rejected E req w c Hdb Hb) as [w' Hrun].
    + intros u' Hu' _. congruence.
    + exists invalid_credentials, w'. repeat split; auto. discriminate.
  - destruct (Login_unbound E req w Hb) as [err Hrun].
    eexists _, w. split; [exact Hrun|]. repeat split; auto. discriminate.
Qed.

(** *** Concrete runs *)

Definition conn0 : Conn := mkConn demo.store0 [].

(** A username nobody has, sent without a password. *)
Definition ghost_login : auth.LoginRequest := auth.mkLoginRequest "ghost" "".

(** C4 as stated fails: the username does not exist, yet the answer is
    400, not 401. *)
Lemma Login_unknown_user_empty_password_is_400 :
  wrong_credentials demo.env conn0 ghost_login
  /\ exists r w',
       auth.Login demo.env (Decoded ghost_login) demo.world0 = (Done r, w')
       /\ code r = StatusBadRequest
       /\ code r <> StatusUnauthorized.
Proof.
  split.
  - left. intros u [<-|[<-|[]]]; discriminate.
  - do 2 eexists. split; [reflexivity|]. split; [reflexivity | discriminate].
Qed.

Definition alice_guess : auth.LoginRequest :=
  auth.mkLoginRequest "alice" "looking-glass".

Lemma Login_wrong_credentials_witness :
  exists r w',
    auth.Login demo.env (Decoded alice_guess) demo.world0 = (Done r, w')
    /\ access_token r = None
    /\ code r = StatusUnauthorized.
Proof.
  apply (@Login_wrong_credentials demo.env demo.world0 conn0 alice_guess).
  - reflexivity.
  - right. exists demo.alice. split; reflexivity.
Defined.

(** The deactivated account, addressed without a password. *)
Definition bob_blank : auth.LoginRequest := auth.mkLoginRequest "bob" "".

(** C9 as stated fails: the user exists and is inactive, yet the answer
    is a 400 carrying the validator's text, not the generic 401. *)
Lemma Login_inactive_user_empty_password_is_400 :
  stored_user conn0 (auth.Username bob_blank) = Some demo.bob
  /\ User.IsActive demo.bob = false
  /\ exists r w',
       auth.Login demo.env (Decoded bob_blank) demo.world0 = (Done r, w')
       /\ code r = StatusBadRequest
       /\ r <> invalid_credentials.
Proof.
  split; [reflexivity|]. split; [reflexivity|].
  do 2 eexists. split; [reflexivity|]. split; [reflexivity | discriminate].
Qed.

Definition bob_login : auth.LoginRequest := auth.mkLoginRequest "bob" "builder".

Lemma Login_inactive_user_witness :
  exists r w',
    auth.Login demo.env (Decoded bob_login) demo.world0 = (Done r, w')
    /\ r <> account_inactive
    /\ access_token r = None
    /\ r = invalid_credentials.
Proof.
  apply (@Login_inactive_user demo.env demo.world0 conn0 bob_login demo.bob);
    reflexivity.
Defined.

Example Login_alice_succeeds :
  fst (auth.Login demo.env
         (Decoded (auth.mkLoginRequest "alice" "wonderland")) demo.world0)
  = Done (JSON StatusOK (TokenJSON "jwt.alice" "bearer" "alice")).
Proof. reflexivity. Qed.

(** ** Creating a task *)

(** Steps over the next gorm statement of the goal, on the handle [Hdb]
    speaks about. *)
Ltac db_step Hdb r s rest Hcases Hrel :=
  match goal with
  | |- context [db (gorm.statement ?f) ?w1] =>
      let Hrun := fresh "Hrun" in
      destruct (@db_statement_spec _ f w1 _ Hdb)
        as [r [s [rest [Hrun [Hcases Hrel]]]]];
      rewrite Hrun; clear Hrun
  end.

Lemma filter_nonempty {A : Type} (p : A -> bool) (l : list A) (x : A) :
  In x l -> p x = true -> filter p l <> [].
Proof.
  intros Hin Hp Hnil.
  assert (Hx : In x (filter p l)) by (apply filter_In; auto).
  rewrite Hnil in Hx. contradiction.
Qed.

Lemma TaskRequest_binds (req : TaskRequest) :
  req_Name req <> "" -> req_TargetWebsite req <> "" ->
  automation.ShouldBindJSON_TaskRequest (Decoded req) = inr req.
Proof.
  intros Hn Ht. unfold automation.ShouldBindJSON_TaskRequest, validate_required.
  simpl. apply String.eqb_neq in Hn, Ht. now rewrite Hn, Ht.
Qed.

(** Inserting a fresh task row always succeeds: the key is new and the
    table has no unique column. *)
Lemma insert_task_fresh (t : AutomationTask.t) (s : Store) :
  AutomationTask.ID t = 0 ->
  gorm.insert t s
  = (inr (with_pk (gorm.next_pk (automation_tasks s)) t),
     mkStore (users s) (user_settings s)
       (mkTable (rows (automation_tasks s)
                 ++ [with_pk (gorm.next_pk (automation_tasks s)) t])
                (Z.max (seq (automation_tasks s))
                       (gorm.next_pk (automation_tasks s))))).
Proof.
  intros Hz. unfold gorm.insert. simpl. rewrite Hz. simpl.
  rewrite (has_pk_next_pk (automation_tasks s)).
  assert (Hc : existsb (fun _ : AutomationTask.t => false)
                       (rows (automation_tasks s)) = false)
    by (induction (rows (automation_tasks s)); auto).
  rewrite Hc. reflexivity.
Qed.

(** C3. A successful [CreateTask] request (an authenticated user who has
    settings, a body with a name and a target website, a database that
    answers) is answered with 201 and the created task: its status is
    "pending", it has no result blob and no completed-at timestamp. The
    row is stored and one goroutine is started for it. *)
Theorem CreateTask_answers_pending (w : World) (c : Conn) (u : User.t)
  (req : TaskRequest) :
  DB w = Some c ->
  reliable c ->
  req_Name req <> "" ->
  req_TargetWebsite req <> "" ->
  (exists s, In s (rows (user_settings (store c)))
             /\ UserSettings.UserID s = User.ID u) ->
  exists task w',
    automation.CreateTask (Some (CtxUser u)) (Decoded req) w
    = (Done (JSON StatusCreated (TaskJSON task)), w')
    /\ AutomationTask.Status task = "pending"
    /\ AutomationTask.Result task = None
    /\ AutomationTask.CompletedAt task = None
    /\ AutomationTask.UserID task = User.ID u
    /\ AutomationTask.Name task = req_Name req
    /\ In task (server.tasks w')
    /\ exists client,
         goroutines w'
         = (goroutines w ++ [mkGoroutine (AutomationTask.ID task) req client])%list.
Proof.
  intros Hdb Hrel Hn Ht [st [Hin Hst]].
  unfold automation.CreateTask. rewrite (TaskRequest_binds req Hn Ht).
  unfold bind at 1. unfold gorm.First.
  db_step Hdb r1 s1 rest1 Hc1 Hr1.
  destruct (Hr1 Hrel) as [Hf1 Hrel1]. clear Hc1 Hr1. simpl in Hf1.
  destruct (gorm.least
              (filter (fun s => UserSettings.UserID s =? User.ID u)
                      (rows (user_settings (store c))))) as [settings|] eqn:Hl.
  2:{ exfalso. apply least_nil_iff in Hl.
      apply (filter_nonempty (fun s => UserSettings.UserID s =? User.ID u)
               _ st Hin); [now apply Z.eqb_eq | exact Hl]. }
  injection Hf1 as -> ->.
  unfold bind, time_Now, gorm.Create. simpl.
  db_step (eq_refl (Some (mkConn (store c) rest1))) r2 s2 rest2 Hc2 Hr2.
  destruct (Hr2 Hrel1) as [Hf2 _]. clear Hc2 Hr2.
  cbn [store] in Hf2. rewrite insert_task_fresh in Hf2 by reflexivity.
  injection Hf2 as -> ->.
  unfold go, ret. simpl.
  do 2 eexists. split; [reflexivity|]. simpl.
  repeat split; try reflexivity.
  - unfold server.tasks. simpl. apply in_or_app. right. now left.
  - eexists. reflexivity.
Qed.

Definition create_request : TaskRequest :=
  mkTaskRequest "create_account" "https://panel.example" "carol" "s3cret" 103.

Lemma CreateTask_answers_pending_witness :
  exists task w',
    automation.CreateTask (Some (CtxUser demo.alice)) (Decoded create_request)
                          demo.world0
    = (Done (JSON StatusCreated (TaskJSON task)), w')
    /\ AutomationTask.Status task = "pending"
    /\ AutomationTask.Result task = None
    /\ AutomationTask.CompletedAt task = None
    /\ AutomationTask.UserID task = User.ID demo.alice
    /\ AutomationTask.Name task = req_Name create_request
    /\ In task (server.tasks w')
    /\ exists client,
         goroutines w'
         = (goroutines demo.world0
            ++ [mkGoroutine (AutomationTask.ID task) create_request client])%list.
Proof.
  apply (@CreateTask_answers_pending demo.world0 conn0 demo.alice create_request).
  - reflexivity.
  - constructor.
  - discriminate.
  - discriminate.
  - exists demo.alice_settings. split; [now left | reflexivity].
Defined.

Example CreateTask_run :
  fst (automation.CreateTask (Some (CtxUser demo.alice)) (Decoded create_request)
         demo.world0)
  = Done (JSON StatusCreated
            (TaskJSON (AutomationTask.mk 1 1 "create_account"
                         "https://panel.example" "pending" None 200 200 None))).
Proof. reflexivity. Qed.

Example CreateTask_without_target_website :
  fst (automation.CreateTask (Some (CtxUser demo.alice))
         (Decoded (mkTaskRequest "find_account" "" "carol" "" 0)) demo.world0)
  = Done (JSON StatusBadRequest
            (ErrorJSON "Panel URL is not configured. Please go to Settings and configure your Panel URL first.")).
Proof. reflexivity. Qed.

(** ** Reading tasks *)


(** What a read-only statement answers under a fault schedule. *)
Definition answer {A : Type} (fs : list (option string)) (v : DbError + A)
  : DbError + A :=
  match fs with
  | Some msg :: _ => inl (DriverError msg)
  | _ => v
  end.

Lemma db_query {A : Type} (q : Store -> DbError + A) (w : World) (c : Conn) :
  DB w = Some c ->
  db (gorm.statement (fun s => (q s, s))) w
  = (Done (answer (faults c) (q (store c))),
     with_DB (Some (mkConn (store c) (tl (faults c)))) w).
Proof.
  intros Hdb. unfold db, gorm.statement, answer. rewrite Hdb.
  destruct (faults c) as [|[msg|] rest]; reflexivity.
Qed.





Lemma answer_reliable {A : Type} (fs : list (option string)) (v : DbError + A) :
  Forall (fun f => f = None) fs -> answer fs v = v.
Proof.
  intros Hr. destruct fs as [|[msg|] rest]; try reflexivity.
  inversion Hr; discriminate.
Qed.





(** *** Concrete run: Alice and Carol *)

Definition carol : User.t :=
  User.mk 3 "carol" "bcrypt:queen" true false 100 100 None.

Definition alice_task : AutomationTask.t :=
  AutomationTask.mk 1 1 "find_account" "https://panel.example" "completed"
    (Some (Encoded (automation.lines_data []))) 200 230 (Some 230).

Definition carol_task : AutomationTask.t :=
  AutomationTask.mk 2 3 "create_account" "https://panel.example" "pending"
    None 210 210 None.

Definition conn1 : Conn :=
  mkConn (mkStore (mkTable [demo.alice; demo.bob; carol] 3)
                  (mkTable [demo.alice_settings] 1)
                  (mkTable [alice_task; carol_task] 2)) [].

Definition world1 : World := mkWorld (Some conn1) 300 [] 0 0 [] None.


Example GetTask_own_row :
  fst (automation.GetTask demo.env "2" (Some (CtxUser carol)) world1)
  = Done (JSON StatusOK
            (ValueJSON
               (JObject
                  [("completed_at", JNull); ("created_at", JTime 210);
                   ("id", JInt 2); ("name", JString "create_account");
                   ("result", JObject [("success", JBool false);
                                       ("data", JObject [])]);
                   ("status", JString "pending");
                   ("target_website", JString "https://panel.example");
                   ("updated_at", JTime 210); ("user_id", JInt 3)]))).
Proof. reflexivity. Qed.

(** ** Effects of the panel client *)

(** A computation is tame when it always returns and leaves the
    database handle, the clock, the goroutines and the panic switch
    alone; with [net = false] it also sends nothing through the HTTP
    client. *)
Definition tame (net : bool) {A : Type} (m : M A) : Prop :=
  forall w, exists a w',
    m w = (Done a, w')
    /\ DB w' = DB w /\ clock w' = clock w
    /\ goroutines w' = goroutines w /\ panic_at w' = panic_at w
    /\ (net = false -> http_log w' = http_log w).

Lemma tame_ret (net : bool) {A : Type} (a : A) : tame net (ret a).
Proof. intros w. exists a, w. repeat split; reflexivity. Qed.

Lemma tame_bind (net : bool) {A B : Type} (m : M A) (k : A -> M B) :
  tame net m -> (forall a, tame net (k a)) -> tame net (bind m k).
Proof.
  intros Hm Hk w. destruct (Hm w) as [a [w1 [Hrun [H1 [H2 [H3 [H4 H5]]]]]]].
  destruct (Hk a w1) as [b [w2 [Hrun2 [G1 [G2 [G3 [G4 G5]]]]]]].
  exists b, w2. unfold bind. rewrite Hrun, Hrun2.
  repeat split; try congruence.
  intros Hn. rewrite (G5 Hn). auto.
Qed.

Lemma tame_online {A : Type} (m : M A) : tame false m -> tame true m.
Proof.
  intros Hm w. destruct (Hm w) as [a [w' [Hrun [H1 [H2 [H3 [H4 _]]]]]]].
  exists a, w'. repeat split; auto. discriminate.
Qed.

Lemma tame_time_Now (net : bool) : tame net time_Now.
Proof. intros w. exists (clock w), w. repeat split; reflexivity. Qed.

Lemma tame_uuid_New (E : Env) (net : bool) : tame net (automation.uuid_New E).
Proof. intros w. do 2 eexists. split; [reflexivity|]. repeat split. Qed.

Lemma tame_rand_Intn (E : Env) (net : bool) (n : Z) :
  0 < n -> tame net (automation.rand_Intn E n).
Proof.
  intros Hn w. unfold automation.rand_Intn.
  destruct (n <=? 0) eqn:Hle; [apply Z.leb_le in Hle; lia|].
  do 2 eexists. split; [reflexivity|]. repeat split.
Qed.

Lemma tame_HTTPClient_Do (E : Env) (r : HttpRequest) :
  tame true (automation.HTTPClient_Do E r).
Proof.
  intros w. do 2 eexists. split; [reflexivity|]. repeat split. discriminate.
Qed.

Create HintDb tame.
#[local] Hint Resolve tame_ret tame_time_Now tame_uuid_New tame_HTTPClient_Do
  : tame.

(** Splits a computation along its binds and pure case distinctions. *)
Ltac tame_tac :=
  repeat first
    [ apply tame_ret
    | apply tame_time_Now
    | apply tame_uuid_New
    | apply tame_HTTPClient_Do
    | apply tame_rand_Intn; lia
    | apply tame_bind; [|intros ?]
    | match goal with
      | |- tame _ (match ?x with _ => _ end) => destruct x
      | |- tame _ (if ?x then _ else _) => destruct x
      end ].

Lemma tame_CreateAccount (E : Env) (c : APIClient) (req : CreateAccountRequest) :
  tame true (automation.CreateAccount E c req).
Proof. unfold automation.CreateAccount. tame_tac. Qed.

Lemma tame_FindAccount (E : Env) (c : APIClient) (username : string) :
  tame true (automation.FindAccount E c username).
Proof. unfold automation.FindAccount. tame_tac. Qed.

Lemma tame_ExtendPackage (E : Env) (c : APIClient) (lineID : string)
  (req : ExtendPackageRequest) :
  tame true (automation.ExtendPackage E c lineID req).
Proof. unfold automation.ExtendPackage. tame_tac. Qed.

Lemma tame_SimulateCreateAccount (E : Env) (c : APIClient)
  (req : CreateAccountRequest) :
  tame false (automation.SimulateCreateAccount E c req).
Proof. unfold automation.SimulateCreateAccount. tame_tac. Qed.

Lemma tame_simulated_line (E : Env) (username : string) :
  tame false (automation.simulated_line E username).
Proof. unfold automation.simulated_line. tame_tac. Qed.

Lemma tame_simulated_lines (E : Env) (username : string) (count : nat) :
  tame false (automation.simulated_lines E username count).
Proof.
  induction count as [|n IH]; simpl.
  - apply tame_ret.
  - apply tame_bind; [apply tame_simulated_line|]. intros l.
    apply tame_bind; [exact IH|]. intros ls. apply tame_ret.
Qed.

Lemma tame_SimulateFindAccount (E : Env) (c : APIClient) (username : string) :
  tame false (automation.SimulateFindAccount E c username).
Proof.
  unfold automation.SimulateFindAccount.
  apply tame_bind; [apply tame_rand_Intn; lia|]. intros r.
  apply tame_bind; [apply tame_simulated_lines|]. intros ls. apply tame_ret.
Qed.

Lemma tame_SimulateExtendPackage (E : Env) (c : APIClient) (lineID : string)
  (req : ExtendPackageRequest) :
  tame false (automation.SimulateExtendPackage E c lineID req).
Proof. unfold automation.SimulateExtendPackage. tame_tac. Qed.

(** The three calls of [executeTask], real or simulated: online only
    when the client is not in simulation mode. *)
Lemma tame_call {A : Type} (sim : bool) (simulated real : M A) :
  tame false simulated -> tame true real ->
  tame (negb sim) (if sim then simulated else real).
Proof. destruct sim; simpl; auto. Qed.

(** ** A small program logic for [M] *)

(** [wp m w Q]: running [m] in [w] ends in an outcome and a world that
    satisfy [Q]. Computations of [M] are total functions, so this is a
    statement about the one run there is. *)
Definition wp {A : Type} (m : M A) (w : World)
  (Q : Outcome A -> World -> Prop) : Prop :=
  Q (fst (m w)) (snd (m w)).

Lemma wp_ret {A : Type} (a : A) (w : World) (Q : Outcome A -> World -> Prop) :
  Q (Done a) w -> wp (ret a) w Q.
Proof. exact (fun H => H). Qed.

Lemma wp_bind {A B : Type} (m : M A) (k : A -> M B) (w : World)
  (Q : Outcome B -> World -> Prop) :
  wp m w (fun o w1 => match o with
                      | Done a => wp (k a) w1 Q
                      | Panicked v => Q (Panicked v) w1
                      end) ->
  wp (bind m k) w Q.
Proof.
  unfold wp, bind. destruct (m w) as [[a|v] w1]; simpl; auto.
Qed.

Lemma wp_may_panic (site : Site) (w : World)
  (Q : Outcome unit -> World -> Prop) :
  (panic_at w <> None -> Q (Panicked "injected") w) ->
  Q (Done tt) w ->
  wp (may_panic site) w Q.
Proof.
  intros Hp Hd. unfold wp, may_panic. destruct (panic_at w) as [s|]; [|exact Hd].
  destruct (Site_eqb s site); simpl; [apply Hp; discriminate | exact Hd].
Qed.

Lemma wp_GetDB_is_live (w : World) (Q : Outcome bool -> World -> Prop) :
  Q (Done (match DB w with Some _ => true | None => false end)) w ->
  wp GetDB_is_live w Q.
Proof. exact (fun H => H). Qed.

Lemma wp_time_Now (w : World) (Q : Outcome Time -> World -> Prop) :
  Q (Done (clock w)) w -> wp time_Now w Q.
Proof. exact (fun H => H). Qed.

Lemma wp_tame (net : bool) {A : Type} (m : M A) (w : World)
  (Q : Outcome A -> World -> Prop) :
  tame net m ->
  (forall a w',
      DB w' = DB w -> clock w' = clock w -> goroutines w' = goroutines w ->
      panic_at w' = panic_at w ->
      (net = false -> http_log w' = http_log w) ->
      Q (Done a) w') ->
  wp m w Q.
Proof.
  intros Hm HQ. destruct (Hm w) as [a [w' [Hrun [H1 [H2 [H3 [H4 H5]]]]]]].
  unfold wp. rewrite Hrun. simpl. now apply HQ.
Qed.

Lemma wp_db {A : Type} (f : Store -> (DbError + A) * Store) (w : World)
  (c : Conn) (Q : Outcome (DbError + A) -> World -> Prop) :
  DB w = Some c ->
  (forall r s' rest,
      (((exists msg, r = inl (DriverError msg)) /\ s' = store c)
       \/ (r, s') = f (store c)) ->
      (reliable c -> (r, s') = f (store c) /\ reliable (mkConn s' rest)) ->
      Q (Done r) (with_DB (Some (mkConn s' rest)) w)) ->
  wp (db (gorm.statement f)) w Q.
Proof.
  intros Hdb HQ.
  destruct (db_statement_spec f w Hdb) as [r [s' [rest [Hrun [Hc Hr]]]]].
  unfold wp. rewrite Hrun. simpl. now apply HQ.
Qed.

(** ** What one run of [executeTask] does to the database *)

Definition terminal (status : string) : Prop :=
  status = "completed" \/ status = "failed".

Definition known_name (name : string) : Prop :=
  name = "create_account" \/ name = "find_account" \/ name = "extend_package".

(** The row [db.First(&task, id)] selects. *)
Definition task_lookup (s : Store) (id : Z) : option AutomationTask.t :=
  gorm.least (filter (fun t => AutomationTask.ID t =? id)
                     (rows (automation_tasks s))).

(** The row [t] as [executeTask] saves it at time [now]. *)
Definition finished (t : AutomationTask.t) (status : string)
  (result : option RawMessage) (now : Time) : AutomationTask.t :=
  AutomationTask.mk (AutomationTask.ID t) (AutomationTask.UserID t)
    (AutomationTask.Name t) (AutomationTask.TargetWebsite t) status result
    (AutomationTask.CreatedAt t) now (Some now).

(** The store after the row [id] was saved once with a terminal status:
    nothing else moved. *)
Definition task_saved (id : Z) (now : Time) (status : string)
  (result : option RawMessage) (s s' : Store) : Prop :=
  exists t,
    task_lookup s id = Some t
    /\ s' = mkStore (users s) (user_settings s)
              (mkTable (map (fun x => if AutomationTask.ID x =? id
                                      then finished t status result now
                                      else x)
                            (rows (automation_tasks s)))
                       (seq (automation_tasks s))).

Lemma task_lookup_In (s : Store) (id : Z) (t : AutomationTask.t) :
  task_lookup s id = Some t ->
  In t (rows (automation_tasks s)) /\ AutomationTask.ID t = id.
Proof.
  intros Hl. apply least_In in Hl. apply filter_In in Hl.
  destruct Hl as [Hin Hid]. split; [exact Hin | now apply Z.eqb_eq].
Qed.

Lemma existsb_and_false {A : Type} (g : A -> bool) (l : list A) :
  existsb (fun x => g x && false) l = false.
Proof.
  induction l as [|x l IH]; simpl; [reflexivity|].
  rewrite andb_false_r. exact IH.
Qed.

(** [db.Save] of a row that is in the table, on the store. *)
Lemma Save_existing_task (now : Time) (t task : AutomationTask.t) (s : Store) :
  In t (rows (automation_tasks s)) ->
  AutomationTask.ID t = AutomationTask.ID task ->
  AutomationTask.ID task <> 0 ->
  (if pk task =? 0 then gorm.insert task s
   else if gorm.has_pk (pk task) (rows (table s))
        then gorm.update (touch now task) s
        else gorm.insert (touch now task) s)
  = (inr (touch now task),
     mkStore (users s) (user_settings s)
       (mkTable (map (fun x => if AutomationTask.ID x =? AutomationTask.ID task
                               then touch now task else x)
                     (rows (automation_tasks s)))
                (seq (automation_tasks s)))).
Proof.
  intros Hin Hid Hnz. simpl pk.
  apply Z.eqb_neq in Hnz. rewrite Hnz.
  assert (Hhas : gorm.has_pk (AutomationTask.ID task) (rows (table s)) = true).
  { apply has_pk_true_iff. exists t. split; [exact Hin | exact Hid]. }
  rewrite Hhas. unfold gorm.update. simpl.
  rewrite existsb_and_false. reflexivity.
Qed.

Section OneRun.
Variable E : Env.
Variable apiClient : APIClient.
Variable w0 : World.
Variable c0 : Conn.
Variable id : Z.
Hypothesis id_nonzero : id <> 0.

(** A world on the way through [executeTask]: the store has not been
    written yet, and nothing was sent if the client is simulated. *)
Definition mid (w : World) : Prop :=
  exists rest,
    DB w = Some (mkConn (store c0) rest)
    /\ (reliable c0 -> Forall (fun f => f = None) rest)
    /\ clock w = clock w0 /\ goroutines w = goroutines w0
    /\ panic_at w = panic_at w0
    /\ (automation.IsSimulationMode apiClient = true ->
        http_log w = http_log w0).

(** How the body of [executeTask] can end. A panic leaves the store as
    it was. A return leaves it as it was (a driver fault, no row, or a
    name outside the switch) or has saved the row once, with a terminal
    status. *)
Definition body_post (o : Outcome unit) (w' : World) : Prop :=
  exists c',
    DB w' = Some c'
    /\ (reliable c0 -> reliable c')
    /\ clock w' = clock w0 /\ goroutines w' = goroutines w0
    /\ panic_at w' = panic_at w0
    /\ (automation.IsSimulationMode apiClient = true ->
        http_log w' = http_log w0)
    /\ match o with
       | Panicked _ => store c' = store c0 /\ panic_at w0 <> None
       | Done _ =>
           (store c' = store c0
            /\ (~ reliable c0
                \/ task_lookup (store c0) id = None
                \/ exists t, task_lookup (store c0) id = Some t
                             /\ ~ known_name (AutomationTask.Name t)))
           \/ exists status result,
                terminal status
                /\ task_saved id (clock w0) status result (store c0) (store c')
                /\ exists t, task_lookup (store c0) id = Some t
                             /\ known_name (AutomationTask.Name t)
       end.

Lemma mid_panicked (w : World) (v : string) :
  mid w -> panic_at w <> None -> body_post (Panicked v) w.
Proof.
  intros [rest [Hdb [Hrel [Hc [Hg [Hp Hh]]]]]] Hpan.
  exists (mkConn (store c0) rest). repeat split; auto. congruence.
Qed.

Lemma mid_tame (net : bool) (w w' : World) :
  mid w ->
  DB w' = DB w -> clock w' = clock w -> goroutines w' = goroutines w ->
  panic_at w' = panic_at w ->
  (net = false -> http_log w' = http_log w) ->
  net = negb (automation.IsSimulationMode apiClient) ->
  mid w'.
Proof.
  intros [rest [Hdb [Hrel [Hc [Hg [Hp Hh]]]]]] H1 H2 H3 H4 H5 Hnet.
  exists rest. split; [congruence|]. split; [exact Hrel|].
  split; [congruence|]. split; [congruence|]. split; [congruence|].
  intros Hsim. transitivity (http_log w); [|auto].
  apply H5. now rewrite Hnet, Hsim.
Qed.

Lemma wp_save_task (w : World) (t : AutomationTask.t) (status : string)
  (result : option RawMessage) :
  mid w -> task_lookup (store c0) id = Some t ->
  known_name (AutomationTask.Name t) -> terminal status ->
  wp (automation.save_task
        (automation.set_outcome status result (Some (clock w0)) t))
     w body_post.
Proof.
  intros Hmid Hlook Hname Hterm. unfold automation.save_task.
  apply wp_bind, wp_may_panic; [now apply mid_panicked|].
  apply wp_bind, wp_time_Now. apply wp_bind. unfold gorm.Save.
  destruct Hmid as [rest [Hdb [Hrel [Hc [Hg [Hp Hh]]]]]].
  destruct (task_lookup_In _ _ Hlook) as [Hin Hidt].
  eapply wp_db; [exact Hdb|]. intros r s' rest' Hcases Hr. apply wp_ret.
  cbn [store] in Hcases, Hr.
  rewrite (@Save_existing_task (clock w) t _ (store c0) Hin)
    in Hcases, Hr by (simpl; congruence).
  exists (mkConn s' rest'). cbn [DB with_DB store clock goroutines panic_at http_log].
  split; [reflexivity|]. split.
  { intros Hrc. apply Hr. exact (Hrel Hrc). }
  do 4 (split; [assumption|]).
  destruct Hcases as [[[msg ->] ->]|Hsaved].
  - left. split; [reflexivity|]. left. intros Hrc.
    destruct (Hr (Hrel Hrc)) as [Habs _]. discriminate.
  - right. exists status, result. split; [exact Hterm|].
    split; [|now exists t].
    exists t. split; [exact Hlook|].
    injection Hsaved as _ ->. unfold finished. simpl.
    rewrite Hc, <- Hidt. reflexivity.
Qed.

Lemma wp_fail_with (w : World) (t : AutomationTask.t) (errText : string) :
  mid w -> task_lookup (store c0) id = Some t ->
  known_name (AutomationTask.Name t) ->
  wp (automation.fail_with E t (clock w0) errText) w body_post.
Proof.
  intros Hmid Hlook Hname. unfold automation.fail_with.
  apply wp_bind, wp_may_panic; [now apply mid_panicked|].
  apply wp_save_task; [exact Hmid | exact Hlook | exact Hname | now right].
Qed.

Lemma wp_complete_with (w : World) (t : AutomationTask.t) (result : JValue) :
  mid w -> task_lookup (store c0) id = Some t ->
  known_name (AutomationTask.Name t) ->
  wp (automation.complete_with E t (clock w0) result) w body_post.
Proof.
  intros Hmid Hlook Hname. unfold automation.complete_with.
  apply wp_bind, wp_may_panic; [now apply mid_panicked|].
  destruct (json.Marshal E result);
    (apply wp_save_task; [exact Hmid | exact Hlook | exact Hname |]);
    [now right | now left].
Qed.

Lemma mid_start : DB w0 = Some c0 -> mid w0.
Proof.
  intros Hdb. exists (faults c0). destruct c0 as [s fs]. simpl.
  repeat split; auto.
Qed.

(** The three calls, real or simulated, keep a world on its way. *)
Lemma wp_call {A : Type} (simulated real : M A) (w : World)
  (Q : Outcome A -> World -> Prop) :
  tame false simulated -> tame true real -> mid w ->
  (forall a w', mid w' -> Q (Done a) w') ->
  wp (if automation.IsSimulationMode apiClient then simulated else real) w Q.
Proof.
  intros Hs Hr Hmid HQ.
  eapply wp_tame;
    [exact (tame_call (automation.IsSimulationMode apiClient) Hs Hr)|].
  intros a w' H1 H2 H3 H4 H5. apply HQ.
  now apply (@mid_tame (negb (automation.IsSimulationMode apiClient)) w w').
Qed.

Lemma wp_executeTask_body (req : TaskRequest) :
  DB w0 = Some c0 ->
  wp (automation.executeTask_body E id req apiClient) w0 body_post.
Proof.
  intros Hdb0. pose proof (mid_start Hdb0) as Hmid0.
  unfold automation.executeTask_body.
  apply wp_bind, wp_may_panic; [now apply mid_panicked|].
  apply wp_bind, wp_GetDB_is_live. rewrite Hdb0. cbn [negb].
  apply wp_bind, wp_may_panic; [now apply mid_panicked|].
  apply wp_bind. unfold gorm.First.
  eapply wp_db; [exact Hdb0|]. intros found s' rest Hcases Hr.
  cbn [table AutomationTask_Model] in Hcases, Hr.
  fold (task_lookup (store c0) id) in Hcases, Hr.
  assert (Hs' : s' = store c0).
  { destruct Hcases as [[_ ->]|Hf]; [reflexivity|].
    destruct (task_lookup (store c0) id); now injection Hf. }
  subst s'.
  assert (Hmid1 : mid (with_DB (Some (mkConn (store c0) rest)) w0)).
  { exists rest. cbn. repeat split; auto.
    intros Hrel. now apply Hr. }
  destruct found as [err|task].
  { (* the row could not be read *)
    apply wp_ret. exists (mkConn (store c0) rest). cbn.
    repeat split; auto.
    - intros Hrel. now apply Hr.
    - left. split; [reflexivity|].
      destruct Hcases as [[[msg Hmsg] _]|Hf].
      + left. intros Hrel. destruct (Hr Hrel) as [Hf _].
        injection Hmsg as ->.
        destruct (task_lookup (store c0) id); discriminate.
      + right. left. destruct (task_lookup (store c0) id); [discriminate|reflexivity]. }
  assert (Hlook : task_lookup (store c0) id = Some task).
  { destruct Hcases as [[[msg Hmsg] _]|Hf]; [discriminate|].
    destruct (task_lookup (store c0) id); [now inversion Hf | discriminate]. }
  clear Hcases Hr.
  remember (with_DB (Some (mkConn (store c0) rest)) w0) as w1 eqn:Hw1.
  clear Hw1.
  apply wp_bind, wp_may_panic; [now apply mid_panicked|].
  apply wp_bind.
  eapply wp_tame;
    [exact (tame_uuid_New E (negb (automation.IsSimulationMode apiClient)))|].
  intros rid w2 H1 H2 H3 H4 H5.
  assert (Hmid2 : mid w2)
    by (now apply (@mid_tame (negb (automation.IsSimulationMode apiClient)) w1 w2)).
  clear H1 H2 H3 H4 H5 Hmid1 w1.
  apply wp_bind, wp_time_Now.
  assert (Hclock : clock w2 = clock w0) by (destruct Hmid2; tauto).
  rewrite Hclock.
  destruct (String.eqb (AutomationTask.Name task) "create_account") eqn:N1.
  { assert (Hname : known_name (AutomationTask.Name task))
      by (apply String.eqb_eq in N1; unfold known_name; tauto).
    apply wp_bind, wp_may_panic; [now apply mid_panicked|].
    apply wp_bind.
    apply wp_call;
      [apply tame_SimulateCreateAccount | apply tame_CreateAccount | exact Hmid2 |].
    intros [err|response] w3 Hmid3.
    - now apply wp_fail_with.
    - now apply wp_complete_with. }
  destruct (String.eqb (AutomationTask.Name task) "find_account") eqn:N2.
  { assert (Hname : known_name (AutomationTask.Name task))
      by (apply String.eqb_eq in N2; unfold known_name; tauto).
    apply wp_bind, wp_may_panic; [now apply mid_panicked|].
    apply wp_bind.
    apply wp_call;
      [apply tame_SimulateFindAccount | apply tame_FindAccount | exact Hmid2 |].
    intros [err|lines] w3 Hmid3.
    - now apply wp_fail_with.
    - now apply wp_complete_with. }
  destruct (String.eqb (AutomationTask.Name task) "extend_package") eqn:N3.
  { assert (Hname : known_name (AutomationTask.Name task))
      by (apply String.eqb_eq in N3; unfold known_name; tauto).
    apply wp_bind, wp_may_panic; [now apply mid_panicked|].
    apply wp_bind.
    apply wp_call;
      [apply tame_SimulateFindAccount | apply tame_FindAccount | exact Hmid2 |].
    intros [err|[|line lines]] w3 Hmid3.
    - now apply wp_fail_with.
    - apply wp_bind, wp_may_panic; [now apply mid_panicked|].
      apply wp_save_task; [exact Hmid3 | exact Hlook | exact Hname | now right].
    - apply wp_bind, wp_may_panic; [now apply mid_panicked|].
      apply wp_bind.
      apply wp_call;
        [apply tame_SimulateExtendPackage | apply tame_ExtendPackage
        | exact Hmid3 |].
      intros [err|response] w4 Hmid4.
      + now apply wp_fail_with.
      + now apply wp_complete_with. }
  (* no case of the switch matches *)
  apply wp_ret. destruct Hmid2 as [rest2 [Hdb2 [Hrel2 [Hc2 [Hg2 [Hp2 Hh2]]]]]].
  exists (mkConn (store c0) rest2). repeat split; auto.
  left. split; [reflexivity|]. right. right. exists task. split; [exact Hlook|].
  apply String.eqb_neq in N1, N2, N3. unfold known_name. tauto.
Qed.

(** The error the deferred function records. *)
Definition panic_result : option RawMessage :=
  Some (Encoded (automation.errorData
                   "Internal server error: task execution panicked")).

(** How the deferred function ends once it has recovered a panic. *)
Definition recovered_post (o : Outcome unit) (w' : World) : Prop :=
  o = Done tt
  /\ exists c',
       DB w' = Some c'
       /\ (reliable c0 -> reliable c')
       /\ clock w' = clock w0 /\ goroutines w' = goroutines w0
       /\ panic_at w' = panic_at w0
       /\ (automation.IsSimulationMode apiClient = true ->
           http_log w' = http_log w0)
       /\ ((store c' = store c0
            /\ (~ reliable c0 \/ task_lookup (store c0) id = None))
           \/ task_saved id (clock w0) "failed" panic_result
                         (store c0) (store c')).

Lemma wp_executeTask_recovered (w : World) (v : string) :
  mid w -> wp (automation.executeTask_recovered E id v) w recovered_post.
Proof.
  intros Hmid. unfold automation.executeTask_recovered.
  destruct Hmid as [rest [Hdb [Hrel [Hc [Hg [Hp Hh]]]]]].
  apply wp_bind, wp_GetDB_is_live. rewrite Hdb.
  apply wp_bind. unfold gorm.First.
  eapply wp_db; [exact Hdb|]. intros found s' rest1 Hcases Hr.
  cbn [table AutomationTask_Model store] in Hcases, Hr.
  fold (task_lookup (store c0) id) in Hcases, Hr.
  assert (Hs' : s' = store c0).
  { destruct Hcases as [[_ ->]|Hf]; [reflexivity|].
    destruct (task_lookup (store c0) id); now injection Hf. }
  subst s'.
  destruct found as [err|task].
  { apply wp_ret. split; [reflexivity|].
    exists (mkConn (store c0) rest1). cbn. repeat split; auto.
    - intros Hrc. apply Hr. exact (Hrel Hrc).
    - left. split; [reflexivity|].
      destruct Hcases as [[[msg Hmsg] _]|Hf].
      + left. intros Hrc. destruct (Hr (Hrel Hrc)) as [Hf _].
        injection Hmsg as ->.
        destruct (task_lookup (store c0) id); discriminate.
      + right. destruct (task_lookup (store c0) id);
          [discriminate | reflexivity]. }
  assert (Hlook : task_lookup (store c0) id = Some task).
  { destruct Hcases as [[[msg Hmsg] _]|Hf]; [discriminate|].
    destruct (task_lookup (store c0) id); [now inversion Hf | discriminate]. }
  assert (Hrel1 : reliable c0 -> reliable (mkConn (store c0) rest1)).
  { intros Hrc. apply Hr. exact (Hrel Hrc). }
  clear Hcases Hr.
  destruct (task_lookup_In _ _ Hlook) as [Hin Hidt].
  apply wp_bind, wp_time_Now. apply wp_bind. unfold gorm.Save.
  eapply wp_db; [reflexivity|]. intros r s' rest2 Hcases Hr. apply wp_ret.
  cbn [store clock with_DB] in Hcases, Hr.
  rewrite (@Save_existing_task (clock w) task _ (store c0) Hin)
    in Hcases, Hr by (simpl; congruence).
  split; [reflexivity|].
  exists (mkConn s' rest2). cbn. split; [reflexivity|]. split.
  { intros Hrc. apply Hr. exact (Hrel1 Hrc). }
  do 4 (split; [assumption|]).
  destruct Hcases as [[[msg ->] ->]|Hsaved].
  - left. split; [reflexivity|]. left. intros Hrc.
    destruct (Hr (Hrel1 Hrc)) as [Habs _]. discriminate.
  - right. exists task. split; [exact Hlook|].
    injection Hsaved as _ ->. unfold finished. simpl.
    rewrite Hc, <- Hidt. reflexivity.
Qed.

(** One run of [executeTask], panics included: it returns, and the
    store is as it was or the row was saved once with a terminal
    status. *)
Definition run_post (o : Outcome unit) (w' : World) : Prop :=
  o = Done tt
  /\ exists c',
       DB w' = Some c'
       /\ (reliable c0 -> reliable c')
       /\ clock w' = clock w0 /\ goroutines w' = goroutines w0
       /\ panic_at w' = panic_at w0
       /\ (automation.IsSimulationMode apiClient = true ->
           http_log w' = http_log w0)
       /\ (store c' = store c0
           \/ exists status result,
                terminal status
                /\ task_saved id (clock w0) status result
                              (store c0) (store c')).

Lemma body_post_mid (v : string) (w : World) :
  body_post (Panicked v) w -> mid w.
Proof.
  intros [c' [Hdb [Hrel [Hc [Hg [Hp [Hh [Hs _]]]]]]]].
  exists (faults c'). destruct c' as [s fs]. simpl in *. subst s.
  repeat split; auto.
Qed.

Lemma wp_executeTask (req : TaskRequest) :
  DB w0 = Some c0 ->
  wp (automation.executeTask E id req apiClient) w0 run_post.
Proof.
  intros Hdb. pose proof (wp_executeTask_body req Hdb) as Hbody.
  unfold wp, automation.executeTask, defer_recover in *.
  destruct (automation.executeTask_body E id req apiClient w0) as [[[]|v] w1];
    simpl in Hbody.
  - simpl. split; [reflexivity|].
    destruct Hbody as [c' [H1 [H2 [H3 [H4 [H5 [H6 H7]]]]]]].
    exists c'. repeat split; auto.
    destruct H7 as [[Hs _]|[st [res [Ht [Hsaved _]]]]]; [now left|].
    right. now exists st, res.
  - pose proof (wp_executeTask_recovered v (body_post_mid Hbody)) as Hrec.
    unfold wp in Hrec.
    destruct (automation.executeTask_recovered E id v w1) as [o w2].
    simpl in *. destruct Hrec as [-> [c' [H1 [H2 [H3 [H4 [H5 [H6 H7]]]]]]]].
    split; [reflexivity|]. exists c'. repeat split; auto.
    destruct H7 as [[Hs _]|Hsaved]; [now left|].
    right. exists "failed", panic_result. split; [now right | exact Hsaved].
Qed.

End OneRun.

(** ** Simulation mode *)




















(** *** The shape of the mock data *)









(** *** What a simulated run stores *)










(** With real credentials the same task does go out to the panel. *)
Example real_mode_sends_a_request :
  map URL
      (http_log (snd (automation.executeTask demo.env 1 create_request
                        (mkAPIClient "https://panel.example" "key" "reseller")
                        (snd (automation.CreateTask (Some (CtxUser demo.alice))
                                (Decoded create_request) demo.world0)))))
  = ["https://panel.example/ext/line/create"].
Proof. reflexivity. Qed.

(** ** Panics during execution *)

(** What [task_saved] means row by row. *)
Lemma task_saved_rows (id : Z) (now : Time) (status : string)
  (result : option RawMessage) (s s' : Store) :
  task_saved id now status result s s' ->
  users s' = users s /\ user_settings s' = user_settings s
  /\ seq (automation_tasks s') = seq (automation_tasks s)
  /\ map AutomationTask.ID (rows (automation_tasks s'))
     = map AutomationTask.ID (rows (automation_tasks s))
  /\ (exists x, In x (rows (automation_tasks s')) /\ AutomationTask.ID x = id)
  /\ (forall x, In x (rows (automation_tasks s')) ->
        (AutomationTask.ID x = id
         /\ AutomationTask.Status x = status
         /\ AutomationTask.Result x = result
         /\ AutomationTask.CompletedAt x = Some now)
        \/ (AutomationTask.ID x <> id /\ In x (rows (automation_tasks s)))).
Proof.
  intros [t [Hlook ->]]. destruct (task_lookup_In _ _ Hlook) as [Hin Hid].
  simpl. repeat split.
  - rewrite map_map. apply map_ext_in. intros x Hx.
    destruct (AutomationTask.ID x =? id) eqn:Hx'; [|reflexivity].
    apply Z.eqb_eq in Hx'. simpl. congruence.
  - exists (finished t status result now). split; [|exact Hid].
    apply in_map_iff. exists t. split; [|exact Hin].
    apply Z.eqb_eq in Hid. now rewrite Hid.
  - intros x Hx. apply in_map_iff in Hx. destruct Hx as [y [Hy Hin']].
    destruct (AutomationTask.ID y =? id) eqn:Hy'.
    + left. subst x. simpl. auto.
    + right. subst x. apply Z.eqb_neq in Hy'. auto.
Qed.

(** C5. If the body of [executeTask] panics, at whichever call, the
    panic is caught: [executeTask] returns instead of crashing, and
    (the row being there and the database answering) the task row is
    updated to status "failed", with a completed-at timestamp and the
    JSON result {"success": false, "error": "Internal server error:
    task execution panicked"}; no other row changes. *)
Theorem executeTask_panic_is_recorded (E : Env) (taskID : Z) (req : TaskRequest)
  (apiClient : APIClient) (w : World) (c : Conn) (v : string) (w1 : World) :
  DB w = Some c ->
  reliable c ->
  taskID <> 0 ->
  (exists t, In t (rows (automation_tasks (store c)))
             /\ AutomationTask.ID t = taskID) ->
  automation.executeTask_body E taskID req apiClient w = (Panicked v, w1) ->
  exists w' c',
    automation.executeTask E taskID req apiClient w = (Done tt, w')
    /\ DB w' = Some c'
    /\ (exists x, In x (rows (automation_tasks (store c')))
                  /\ AutomationTask.ID x = taskID)
    /\ forall x, In x (rows (automation_tasks (store c'))) ->
         (AutomationTask.ID x = taskID
          /\ AutomationTask.Status x = "failed"
          /\ AutomationTask.Result x
             = Some (Encoded (JObject
                 [("error",
                   JString "Internal server error: task execution panicked");
                  ("success", JBool false)]))
          /\ AutomationTask.CompletedAt x = Some (clock w))
         \/ (AutomationTask.ID x <> taskID
             /\ In x (rows (automation_tasks (store c)))).
Proof.
  intros Hdb Hrel Hnz [t [Hin Hid]] Hbody.
  pose proof (@wp_executeTask_body E apiClient w c taskID Hnz req Hdb) as Hpost.
  unfold wp in Hpost. rewrite Hbody in Hpost. simpl in Hpost.
  pose proof (@wp_executeTask_recovered E apiClient w c taskID Hnz w1 v
                (body_post_mid Hpost)) as Hrec.
  unfold wp in Hrec. unfold automation.executeTask, defer_recover.
  rewrite Hbody.
  destruct (automation.executeTask_recovered E taskID v w1) as [o w2].
  simpl in Hrec. destruct Hrec as [-> [c' [H1 [_ [_ [_ [_ [_ H7]]]]]]]].
  exists w2, c'. split; [reflexivity|]. split; [exact H1|].
  destruct H7 as [[_ [Hnr|Hnone]]|Hsaved].
  - contradiction.
  - exfalso. unfold task_lookup in Hnone. apply least_nil_iff in Hnone.
    apply (filter_nonempty (fun x => AutomationTask.ID x =? taskID) _ t Hin);
      [now apply Z.eqb_eq | exact Hnone].
  - apply task_saved_rows in Hsaved.
    destruct Hsaved as [_ [_ [_ [_ [Hex Hrows]]]]]. split; [exact Hex|].
    exact Hrows.
Qed.

(** *** Concrete run: a panic at the call to the panel *)

Definition test_client : APIClient :=
  mkAPIClient "https://panel.example" "test" "test".

(** Alice has created a task, and the next run will panic when it
    reaches its main call. *)
Definition panicking_world : World :=
  server.set_environment [] (Some AtMainCall) 205
    (snd (automation.CreateTask (Some (CtxUser demo.alice))
            (Decoded create_request) demo.world0)).

Lemma executeTask_panic_is_recorded_witness :
  exists w' c',
    automation.executeTask demo.env 1 create_request test_client panicking_world
    = (Done tt, w')
    /\ DB w' = Some c'
    /\ (exists x, In x (rows (automation_tasks (store c')))
                  /\ AutomationTask.ID x = 1)
    /\ forall x, In x (rows (automation_tasks (store c'))) ->
         AutomationTask.ID x = 1 ->
         AutomationTask.Status x = "failed"
         /\ AutomationTask.CompletedAt x = Some 205.
Proof.
  destruct (@executeTask_panic_is_recorded demo.env 1 create_request test_client
              panicking_world
              (mkConn (mkStore (users demo.store0) (user_settings demo.store0)
                         (mkTable [AutomationTask.mk 1 1 "create_account"
                                     "https://panel.example" "pending" None
                                     200 200 None] 1)) [])
              "injected"
              (snd (automation.executeTask_body demo.env 1 create_request
                      test_client panicking_world)))
    as [w' [c' [Hrun [Hdb [Hex Hrows]]]]].
  - reflexivity.
  - constructor.
  - discriminate.
  - eexists. split; [left; reflexivity | reflexivity].
  - reflexivity.
  - exists w', c'. repeat split; auto;
      destruct (Hrows x H) as [[_ [Hs [_ Hc]]]|[Hne _]]; auto; contradiction.
Defined.

Example executeTask_panic_run :
  server.tasks
    (snd (automation.executeTask demo.env 1 create_request test_client
            panicking_world))
  = [AutomationTask.mk 1 1 "create_account" "https://panel.example" "failed"
       (Some (Encoded (automation.errorData
                         "Internal server error: task execution panicked")))
       200 205 (Some 205)].
Proof. reflexivity. Qed.

(** ** Reaching a terminal state *)

(** A task whose name is one of the three operations ends in a terminal
    state, whatever the panel answers and even if the run panics. *)
Lemma executeTask_known_name_terminates (E : Env) (taskID : Z)
  (req : TaskRequest) (apiClient : APIClient) (w : World) (c : Conn)
  (t : AutomationTask.t) :
  DB w = Some c -> reliable c -> taskID <> 0 ->
  task_lookup (store c) taskID = Some t ->
  known_name (AutomationTask.Name t) ->
  exists w' c' status result,
    automation.executeTask E taskID req apiClient w = (Done tt, w')
    /\ DB w' = Some c'
    /\ terminal status
    /\ task_saved taskID (clock w) status result (store c) (store c').
Proof.
  intros Hdb Hrel Hnz Hlook Hname.
  pose proof (@wp_executeTask_body E apiClient w c taskID Hnz req Hdb) as Hpost.
  unfold wp in Hpost. unfold automation.executeTask, defer_recover.
  destruct (automation.executeTask_body E taskID req apiClient w)
    as [[[]|v] w1] eqn:Hbody; simpl in Hpost.
  - destruct Hpost as [c' [H1 [_ [_ [_ [_ [_ H7]]]]]]].
    destruct H7 as [[_ [Hnr|[Hnone|[t' [Ht' Hunk]]]]]|[st [res [Ht [Hs _]]]]].
    + contradiction.
    + congruence.
    + exfalso. apply Hunk. congruence.
    + now exists w1, c', st, res.
  - pose proof (@wp_executeTask_recovered E apiClient w c taskID Hnz w1 v
                  (body_post_mid Hpost)) as Hrec.
    unfold wp in Hrec.
    destruct (automation.executeTask_recovered E taskID v w1) as [o w2].
    simpl in Hrec. destruct Hrec as [-> [c' [H1 [_ [_ [_ [_ [_ H7]]]]]]]].
    destruct H7 as [[_ [Hnr|Hnone]]|Hsaved]; [contradiction | congruence |].
    exists w2, c', "failed", panic_result. repeat split; auto. now right.
Qed.

(** A task whose name is none of the three operations falls through the
    switch: [executeTask] returns without touching the store. *)
Lemma executeTask_unknown_name (E : Env) (taskID : Z) (req : TaskRequest)
  (apiClient : APIClient) (w : World) (c : Conn) (t : AutomationTask.t) :
  DB w = Some c -> panic_at w = None -> taskID <> 0 ->
  task_lookup (store c) taskID = Some t ->
  ~ known_name (AutomationTask.Name t) ->
  exists w' c',
    automation.executeTask E taskID req apiClient w = (Done tt, w')
    /\ DB w' = Some c' /\ store c' = store c.
Proof.
  intros Hdb Hnp Hnz Hlook Hname.
  pose proof (@wp_executeTask_body E apiClient w c taskID Hnz req Hdb) as Hpost.
  unfold wp in Hpost. unfold automation.executeTask, defer_recover.
  destruct (automation.executeTask_body E taskID req apiClient w)
    as [[[]|v] w1] eqn:Hbody; simpl in Hpost.
  - destruct Hpost as [c' [H1 [_ [_ [_ [_ [_ H7]]]]]]].
    destruct H7 as [[Hs _]|[st [res [_ [_ [t' [Ht' Hk]]]]]]].
    + now exists w1, c'.
    + exfalso. apply Hname. congruence.
  - destruct Hpost as [c' [_ [_ [_ [_ [_ [_ [_ Hp]]]]]]]]. contradiction.
Qed.

Definition delete_request : TaskRequest :=
  mkTaskRequest "delete_account" "https://panel.example" "carol" "" 0.

(** C1 at its failing input. [CreateTask] accepts the name
    "delete_account" (any non-empty name passes binding), answers 201
    and starts the goroutine; [executeTask] then runs to completion and
    the task is still "pending", with no result and no completed-at
    timestamp. *)
Theorem executeTask_unnamed_operation_stays_pending :
  let created :=
    automation.CreateTask (Some (CtxUser demo.alice)) (Decoded delete_request)
                          demo.world0 in
  let pending_row :=
    AutomationTask.mk 1 1 "delete_account" "https://panel.example" "pending"
                      None 200 200 None in
  fst created = Done (JSON StatusCreated (TaskJSON pending_row))
  /\ goroutines (snd created) = [mkGoroutine 1 delete_request test_client]
  /\ automation.executeTask demo.env 1 delete_request test_client
       (with_goroutines [] (snd created))
     = (Done tt,
        mkWorld (Some (mkConn (mkStore (users demo.store0)
                                 (user_settings demo.store0)
                                 (mkTable [pending_row] 1)) []))
                200 [] 0 1 [] None).
Proof. repeat split. Qed.

(** ** The status of a task over the life of the server *)

(** The task table behind the handle. *)
Definition tasks_table (w : World) : option (Table AutomationTask.t) :=
  match DB w with
  | Some c => Some (automation_tasks (store c))
  | None => None
  end.

Lemma tasks_of_table (w : World) :
  server.tasks w = match tasks_table w with
                   | Some t => rows t
                   | None => []
                   end.
Proof. unfold server.tasks, tasks_table. now destruct (DB w). Qed.

(** A computation that leaves the task table and the goroutines alone,
    whether it returns or panics. *)
Definition steady {A : Type} (m : M A) : Prop :=
  forall w, tasks_table (snd (m w)) = tasks_table w
            /\ goroutines (snd (m w)) = goroutines w.

Lemma steady_ret {A : Type} (a : A) : steady (ret a).
Proof. intros w. split; reflexivity. Qed.

Lemma steady_panic {A : Type} (v : string) : steady (@panic A v).
Proof. intros w. split; reflexivity. Qed.

Lemma steady_bind {A B : Type} (m : M A) (k : A -> M B) :
  steady m -> (forall a, steady (k a)) -> steady (bind m k).
Proof.
  intros Hm Hk w. unfold bind. specialize (Hm w).
  destruct (m w) as [[a|v] w1]; simpl in *; [|exact Hm].
  destruct (Hk a w1) as [H1 H2]. split; [now rewrite H1 | now rewrite H2].
Qed.

Lemma steady_time_Now : steady time_Now.
Proof. intros w. split; reflexivity. Qed.

Lemma steady_GetDB_is_live : steady GetDB_is_live.
Proof. intros w. split; reflexivity. Qed.

(** A statement whose effect on the store spares the task table. *)
Lemma steady_db {A : Type} (f : Store -> (DbError + A) * Store) :
  (forall s, automation_tasks (snd (f s)) = automation_tasks s) ->
  steady (db (gorm.statement f)).
Proof.
  intros Hf w. unfold db, tasks_table. destruct (DB w) as [c|] eqn:Hdb.
  - unfold gorm.statement. specialize (Hf (store c)).
    destruct (faults c) as [|[msg|] rest]; try destruct (f (store c));
      simpl in *; rewrite ?Hdb; simpl; auto; now rewrite Hf.
  - simpl. rewrite Hdb. auto.
Qed.

Lemma insert_user_spares (u : User.t) (s : Store) :
  automation_tasks (snd (gorm.insert u s)) = automation_tasks s.
Proof.
  unfold gorm.insert.
  match goal with |- context [if ?b then _ else _] => destruct b end;
    reflexivity.
Qed.

Lemma update_user_spares (u : User.t) (s : Store) :
  automation_tasks (snd (gorm.update u s)) = automation_tasks s.
Proof.
  unfold gorm.update.
  match goal with |- context [if ?b then _ else _] => destruct b end;
    reflexivity.
Qed.

Lemma insert_settings_spares (u : UserSettings.t) (s : Store) :
  automation_tasks (snd (gorm.insert u s)) = automation_tasks s.
Proof.
  unfold gorm.insert.
  match goal with |- context [if ?b then _ else _] => destruct b end;
    reflexivity.
Qed.

Lemma update_settings_spares (u : UserSettings.t) (s : Store) :
  automation_tasks (snd (gorm.update u s)) = automation_tasks s.
Proof.
  unfold gorm.update.
  match goal with |- context [if ?b then _ else _] => destruct b end;
    reflexivity.
Qed.

Lemma steady_First {R : Type} `{Model R} (cond : R -> bool) :
  steady (db (gorm.First cond)).
Proof.
  apply steady_db. intros s.
  now destruct (gorm.least (filter cond (rows (table s)))).
Qed.

Lemma steady_Find {R : Type} `{Model R} (cond : R -> bool) :
  steady (db (gorm.Find cond)).
Proof. apply steady_db. reflexivity. Qed.

Lemma steady_Create_user (u : User.t) : steady (db (gorm.Create u)).
Proof. apply steady_db. apply insert_user_spares. Qed.

Lemma steady_Create_settings (u : UserSettings.t) : steady (db (gorm.Create u)).
Proof. apply steady_db. apply insert_settings_spares. Qed.

Lemma steady_Save_user (now : Time) (u : User.t) : steady (db (gorm.Save now u)).
Proof.
  apply steady_db. intros s.
  destruct (pk u =? 0); [apply insert_user_spares|].
  destruct (gorm.has_pk (pk u) (rows (table s)));
    [apply update_user_spares | apply insert_user_spares].
Qed.

Lemma steady_Save_settings (now : Time) (u : UserSettings.t) :
  steady (db (gorm.Save now u)).
Proof.
  apply steady_db. intros s.
  destruct (pk u =? 0); [apply insert_settings_spares|].
  destruct (gorm.has_pk (pk u) (rows (table s)));
    [apply update_settings_spares | apply insert_settings_spares].
Qed.

Lemma steady_Delete_user (u : User.t) : steady (db (gorm.Delete u)).
Proof. apply steady_db. reflexivity. Qed.

Ltac steady_tac :=
  repeat first
    [ apply steady_ret
    | apply steady_panic
    | apply steady_time_Now
    | apply steady_GetDB_is_live
    | apply steady_First
    | apply steady_Find
    | apply steady_Create_user
    | apply steady_Create_settings
    | apply steady_Save_user
    | apply steady_Save_settings
    | apply steady_Delete_user
    | apply steady_db; reflexivity
    | apply steady_bind; [|intros ?]
    | match goal with
      | |- steady (match ?x with _ => _ end) => destruct x
      | |- steady (if ?x then _ else _) => destruct x
      end ].

Lemma steady_Login (E : Env) (body : RawBody auth.LoginRequest) :
  steady (auth.Login E body).
Proof.
  unfold auth.Login, utils.AuthenticateUser, utils.CreateAccessToken.
  steady_tac.
Qed.

Lemma steady_GetUserStatus (user : option CtxValue) :
  steady (auth.GetUserStatus user).
Proof. unfold auth.GetUserStatus. steady_tac. Qed.

Lemma steady_CreateUser (E : Env) (body : RawBody auth.CreateUserRequest) :
  steady (auth.CreateUser E body).
Proof. unfold auth.CreateUser. steady_tac. Qed.

Lemma steady_GetUsers : steady auth.GetUsers.
Proof. unfold auth.GetUsers. steady_tac. Qed.

Lemma steady_UpdateUser (E : Env) (id : string)
  (body : RawBody auth.UpdateUserRequest) :
  steady (auth.UpdateUser E id body).
Proof. unfold auth.UpdateUser. steady_tac. Qed.

Lemma steady_DeleteUser (id : string) : steady (auth.DeleteUser id).
Proof. unfold auth.DeleteUser. steady_tac. Qed.

Lemma steady_GetUserTasks (user : option CtxValue) :
  steady (automation.GetUserTasks user).
Proof. unfold automation.GetUserTasks. steady_tac. Qed.

Lemma steady_UpdateSettings (user : option CtxValue)
  (body : RawBody SettingsRequest) :
  steady (automation.UpdateSettings user body).
Proof. unfold automation.UpdateSettings. steady_tac. Qed.

Lemma steady_GetSettings (user : option CtxValue) :
  steady (automation.GetSettings user).
Proof. unfold automation.GetSettings. steady_tac. Qed.

Lemma steady_GetTask (E : Env) (id : string) (user : option CtxValue) :
  steady (automation.GetTask E id user).
Proof.
  intros w. unfold automation.GetTask.
  match goal with
  | |- context [match ?m w with _ => _ end] =>
      assert (Hm : steady m)
  end.
  { steady_tac. }
  specialize (Hm w).
  match goal with
  | |- context [match ?m w with _ => _ end] => destruct (m w) as [[r|v] w']
  end; exact Hm.
Qed.

Lemma steady_gin_Recovery (h : M Response) : steady h -> steady (gin_Recovery h).
Proof.
  intros Hh w. unfold gin_Recovery. specialize (Hh w).
  destruct (h w) as [[r|v] w']; exact Hh.
Qed.

(** What [CreateTask] does to the task table: nothing, or one new row
    with the next key and status "pending", and one goroutine for it. *)
Lemma CreateTask_effect (user : option CtxValue) (body : RawBody TaskRequest)
  (w : World) :
  let w' := snd (automation.CreateTask user body w) in
  (tasks_table w' = tasks_table w /\ goroutines w' = goroutines w)
  \/ exists tbl t req client,
       tasks_table w = Some tbl
       /\ AutomationTask.ID t = gorm.next_pk tbl
       /\ AutomationTask.Status t = "pending"
       /\ tasks_table w'
          = Some (mkTable (rows tbl ++ [t]) (Z.max (seq tbl) (AutomationTask.ID t)))
       /\ goroutines w'
          = (goroutines w ++ [mkGoroutine (AutomationTask.ID t) req client])%list.
Proof.
  cbv zeta.
  enough (Hgen : forall o w',
             automation.CreateTask user body w = (o, w') ->
             (tasks_table w' = tasks_table w /\ goroutines w' = goroutines w)
             \/ exists tbl t req client,
                  tasks_table w = Some tbl
                  /\ AutomationTask.ID t = gorm.next_pk tbl
                  /\ AutomationTask.Status t = "pending"
                  /\ tasks_table w'
                     = Some (mkTable (rows tbl ++ [t])
                                     (Z.max (seq tbl) (AutomationTask.ID t)))
                  /\ goroutines w'
                     = (goroutines w
                        ++ [mkGoroutine (AutomationTask.ID t) req client])%list).
  { destruct (automation.CreateTask user body w) as [o w'] eqn:Hrun.
    exact (Hgen o w' eq_refl). }
  intros o w'. unfold automation.CreateTask.
  destruct user as [[u|]|]; try (intros [= <- <-]; left; split; reflexivity);
    destruct (automation.ShouldBindJSON_TaskRequest body) as [err|req];
    try (intros [= <- <-]; left; split; reflexivity).
  destruct (DB w) as [c|] eqn:Hdb.
  2:{ unfold bind, db. rewrite Hdb. intros [= <- <-]. left. split; reflexivity. }
  unfold bind at 1. unfold gorm.First.
  db_step Hdb r1 s1 rest1 Hc1 Hr1. clear Hr1.
  assert (Hs1 : s1 = store c).
  { destruct Hc1 as [[_ ->]|Hf]; [reflexivity|]. simpl in Hf.
    match type of Hf with
    | context [match ?x with _ => _ end] => destruct x
    end; now injection Hf. }
  subst s1. clear Hc1.
  destruct r1 as [[|msg]|settings];
    try (intros [= <- <-]; left; unfold tasks_table; simpl; rewrite Hdb;
         split; reflexivity).
  unfold bind, time_Now, gorm.Create. simpl.
  db_step (eq_refl (Some (mkConn (store c) rest1))) r2 s2 rest2 Hc2 Hr2.
  clear Hr2. cbn [store] in Hc2.
  rewrite insert_task_fresh in Hc2 by reflexivity.
  destruct Hc2 as [[[msg ->] ->]|Hins].
  - intros [= <- <-]. left. unfold tasks_table. simpl. rewrite Hdb.
    split; reflexivity.
  - injection Hins as -> ->. intros [= <- <-]. right.
    exists (automation_tasks (store c)),
      (with_pk (gorm.next_pk (automation_tasks (store c)))
         (AutomationTask.mk 0 (User.ID u) (req_Name req)
            (req_TargetWebsite req) "pending" None (clock w) (clock w) None)),
      req,
      (automation.NewAPIClient (UserSettings.WebsiteURL settings)
         (UserSettings.APIKey settings) (UserSettings.AuthUser settings)).
    unfold tasks_table. rewrite Hdb. repeat split; reflexivity.
Qed.

(** *** Lists *)

Lemma remove_nth_In {A : Type} (n : nat) (l : list A) (x : A) :
  In x (server.remove_nth n l) -> In x l.
Proof.
  revert n. induction l as [|a l IH]; intros [|n]; simpl; auto.
  intros [->|H]; [now left | right; eauto].
Qed.

Lemma remove_nth_NoDup {A B : Type} (f : A -> B) (n : nat) (l : list A) :
  NoDup (map f l) -> NoDup (map f (server.remove_nth n l)).
Proof.
  revert n. induction l as [|a l IH]; intros [|n] Hnd; simpl; auto.
  - now inversion Hnd.
  - inversion Hnd as [|? ? Hnotin Hnd']; subst. constructor; [|now apply IH].
    intros Hin. apply Hnotin. apply in_map_iff in Hin.
    destruct Hin as [x [Hx Hin]]. apply in_map_iff. exists x.
    split; [exact Hx | now apply remove_nth_In in Hin].
Qed.

Lemma remove_nth_other {A B : Type} (f : A -> B) (n : nat) (l : list A)
  (g x : A) :
  NoDup (map f l) -> nth_error l n = Some g ->
  In x (server.remove_nth n l) -> f x <> f g.
Proof.
  revert n. induction l as [|a l IH]; intros [|n] Hnd Hnth Hin; simpl in *;
    try discriminate.
  - injection Hnth as ->. inversion Hnd as [|? ? Hnotin _]; subst.
    intros Heq. apply Hnotin. rewrite <- Heq. now apply in_map.
  - inversion Hnd as [|? ? Hnotin Hnd']; subst.
    destruct Hin as [->|Hin]; [|now apply (IH n)].
    intros Heq. apply Hnotin. rewrite Heq. apply in_map.
    now apply nth_error_In in Hnth.
Qed.

Lemma NoDup_map_inj {A B : Type} (f : A -> B) (l : list A) (a b : A) :
  NoDup (map f l) -> In a l -> In b l -> f a = f b -> a = b.
Proof.
  induction l as [|x l IH]; simpl; intros Hnd Ha Hb Heq; [contradiction|].
  inversion Hnd as [|? ? Hnotin Hnd']; subst.
  destruct Ha as [->|Ha], Hb as [->|Hb]; auto.
  - exfalso. apply Hnotin. rewrite Heq. now apply in_map.
  - exfalso. apply Hnotin. rewrite <- Heq. now apply in_map.
Qed.

Lemma NoDup_snoc {A : Type} (l : list A) (a : A) :
  NoDup l -> ~ In a l -> NoDup (l ++ [a]).
Proof.
  induction l as [|x l IH]; simpl; intros Hnd Hnotin.
  - constructor; [intros []|constructor].
  - inversion Hnd as [|? ? Hx Hnd']; subst. constructor.
    + intros Hin. apply in_app_or in Hin. destruct Hin as [Hin|[<-|[]]]; auto.
    + apply IH; auto.
Qed.

Lemma fold_max_above_seq {R : Type} `{Model R} (l : list R) (z : Z) :
  z <= fold_right Z.max z (map pk l).
Proof. induction l as [|x l IH]; simpl; lia. Qed.

(** *** The invariant of the server and the effect of one event *)

(** Task keys are distinct and positive, statuses are among the three
    this program writes, and every goroutine not yet run has its own
    row, still pending. *)
Definition invariant (w : World) : Prop :=
  NoDup (map AutomationTask.ID (server.tasks w))
  /\ Forall (fun t => server.known_status (AutomationTask.Status t)
                      /\ 0 < AutomationTask.ID t) (server.tasks w)
  /\ (forall tbl, tasks_table w = Some tbl -> 0 <= seq tbl)
  /\ NoDup (map g_taskID (goroutines w))
  /\ Forall (fun g => exists t, In t (server.tasks w)
                                /\ AutomationTask.ID t = g_taskID g
                                /\ AutomationTask.Status t = "pending")
            (goroutines w).

(** The row with key [id] replaced by its finished version. *)
Definition finish_row (id : Z) (t : AutomationTask.t) (status : string)
  (result : option RawMessage) (now : Time) (l : list AutomationTask.t)
  : list AutomationTask.t :=
  map (fun x => if AutomationTask.ID x =? id
                then finished t status result now else x) l.

(** What one event does to the task table and the goroutines. *)
Inductive effect (e : server.Event) (w w' : World) : Prop :=
| effect_none :
    tasks_table w' = tasks_table w -> goroutines w' = goroutines w ->
    effect e w w'
| effect_created : forall user body tbl t req client,
    e = server.Serve (server.POST_automation_tasks user body) ->
    tasks_table w = Some tbl ->
    AutomationTask.ID t = gorm.next_pk tbl ->
    AutomationTask.Status t = "pending" ->
    tasks_table w'
    = Some (mkTable (rows tbl ++ [t]) (Z.max (seq tbl) (AutomationTask.ID t))) ->
    goroutines w'
    = (goroutines w ++ [mkGoroutine (AutomationTask.ID t) req client])%list ->
    effect e w w'
| effect_ran_idle : forall n g,
    e = server.Run n ->
    nth_error (goroutines w) n = Some g ->
    goroutines w' = server.remove_nth n (goroutines w) ->
    tasks_table w' = tasks_table w ->
    effect e w w'
| effect_ran_saved : forall n g tbl t status result now,
    e = server.Run n ->
    nth_error (goroutines w) n = Some g ->
    goroutines w' = server.remove_nth n (goroutines w) ->
    tasks_table w = Some tbl ->
    gorm.least (filter (fun x => AutomationTask.ID x =? g_taskID g) (rows tbl))
    = Some t ->
    terminal status ->
    tasks_table w'
    = Some (mkTable (finish_row (g_taskID g) t status result now (rows tbl))
                    (seq tbl)) ->
    effect e w w'.

Lemma steady_handler (E : Env) (r : server.Request) :
  (forall user body, r <> server.POST_automation_tasks user body) ->
  steady (server.handler E r).
Proof.
  intros Hr. destruct r; simpl;
    [ apply steady_Login | apply steady_GetUserStatus | apply steady_CreateUser
    | apply steady_GetUsers | apply steady_UpdateUser | apply steady_DeleteUser
    | exfalso; eapply Hr; reflexivity
    | apply steady_GetUserTasks | apply steady_GetTask
    | apply steady_UpdateSettings | apply steady_GetSettings ].
Qed.

Lemma step_effect (E : Env) (e : server.Event) (w : World) :
  invariant w -> effect e w (server.step E e w).
Proof.
  intros [Hnd [Hall [Hseq [Hgnd Hgall]]]]. destruct e as [r|n|fs p now].
  - (* a request *)
    destruct r;
      try (match goal with
           | |- effect _ _ (server.step E (server.Serve ?r) _) =>
               destruct (@steady_gin_Recovery (server.handler E r)
                           (@steady_handler E r ltac:(discriminate)) w)
                 as [Ht Hg]
           end; now apply effect_none).
    unfold server.step, gin_Recovery. simpl.
    pose proof (CreateTask_effect user body w) as Heff. cbv zeta in Heff.
    destruct (automation.CreateTask user body w) as [[resp|v] w']; simpl in *;
      (destruct Heff as [[Ht Hg]|[tbl [t [req [client [H1 [H2 [H3 [H4 H5]]]]]]]]];
       [now apply effect_none
       | eapply effect_created; [reflexivity | eassumption ..]]).
  - (* a goroutine runs *)
    unfold server.step.
    destruct (nth_error (goroutines w) n) as [g|] eqn:Hnth;
      [|now apply effect_none].
    pose proof (nth_error_In _ _ Hnth) as Hgin.
    rewrite Forall_forall in Hgall. destruct (Hgall g Hgin) as [t [Hin [Hid Hst]]].
    rewrite Forall_forall in Hall. destruct (Hall t Hin) as [_ Hpos].
    unfold server.tasks in Hin. destruct (DB w) as [c|] eqn:Hdb; [|contradiction].
    set (w1 := with_goroutines (server.remove_nth n (goroutines w)) w).
    assert (Hnz : g_taskID g <> 0) by lia.
    pose proof (@wp_executeTask E (g_client g) w1 c (g_taskID g) Hnz (g_req g) Hdb)
      as Hrun.
    unfold wp, run_post in Hrun.
    destruct (automation.executeTask E (g_taskID g) (g_req g) (g_client g) w1)
      as [o w']. simpl in *.
    destruct Hrun as [_ [c' [Hdb' [_ [_ [Hg' [_ [_ Hstore]]]]]]]].
    destruct Hstore as [Hsame|[status [result [Hterm [t0 [Hlook Hs']]]]]].
    + eapply effect_ran_idle; [reflexivity | exact Hnth | exact Hg' |].
      unfold tasks_table. now rewrite Hdb, Hdb', Hsame.
    + eapply effect_ran_saved with (tbl := automation_tasks (store c));
        [reflexivity | exact Hnth | exact Hg' | | exact Hlook | exact Hterm |].
      * unfold tasks_table. now rewrite Hdb.
      * unfold tasks_table. rewrite Hdb', Hs'. reflexivity.
  - (* the environment moves *)
    apply effect_none; [|reflexivity].
    unfold server.step, server.set_environment, tasks_table. simpl.
    now destruct (DB w).
Qed.

Lemma finish_row_ids (id : Z) (t : AutomationTask.t) (status : string)
  (result : option RawMessage) (now : Time) (l : list AutomationTask.t) :
  AutomationTask.ID t = id ->
  map AutomationTask.ID (finish_row id t status result now l)
  = map AutomationTask.ID l.
Proof.
  intros Hid. unfold finish_row. rewrite map_map. apply map_ext. intros x.
  destruct (AutomationTask.ID x =? id) eqn:Hx; [|reflexivity].
  apply Z.eqb_eq in Hx. simpl. congruence.
Qed.

Lemma finish_row_In (id : Z) (t : AutomationTask.t) (status : string)
  (result : option RawMessage) (now : Time) (l : list AutomationTask.t)
  (x' : AutomationTask.t) :
  In x' (finish_row id t status result now l) ->
  exists x, In x l
            /\ ((AutomationTask.ID x = id /\ x' = finished t status result now)
                \/ (AutomationTask.ID x <> id /\ x' = x)).
Proof.
  unfold finish_row. intros Hin. apply in_map_iff in Hin.
  destruct Hin as [x [Hx Hin]]. exists x. split; [exact Hin|].
  destruct (AutomationTask.ID x =? id) eqn:Hid.
  - left. apply Z.eqb_eq in Hid. auto.
  - right. apply Z.eqb_neq in Hid. auto.
Qed.

Lemma finish_row_keeps (id : Z) (t : AutomationTask.t) (status : string)
  (result : option RawMessage) (now : Time) (l : list AutomationTask.t)
  (x : AutomationTask.t) :
  In x l -> AutomationTask.ID x <> id ->
  In x (finish_row id t status result now l).
Proof.
  intros Hin Hne. unfold finish_row. apply in_map_iff. exists x.
  apply Z.eqb_neq in Hne. now rewrite Hne.
Qed.

Lemma effect_invariant (e : server.Event) (w w' : World) :
  invariant w -> effect e w w' -> invariant w'.
Proof.
  intros [Hnd [Hall [Hseq [Hgnd Hgall]]]] Heff.
  unfold invariant. rewrite !tasks_of_table in *.
  destruct Heff as [Ht Hg|user body tbl t req client _ Ht Hid Hst Ht' Hg
                   |n g _ Hnth Hg Ht
                   |n g tbl t status result now _ Hnth Hg Ht Hl Hterm Ht'].
  - rewrite Ht, Hg. auto.
  - rewrite Ht in *. rewrite Ht', Hg. simpl.
    assert (Hfresh : forall x, In x (rows tbl) ->
                               AutomationTask.ID x < AutomationTask.ID t).
    { intros x Hx. rewrite Hid.
      exact (@next_pk_above AutomationTask.t _ tbl x Hx). }
    assert (Hpos : 0 < AutomationTask.ID t).
    { rewrite Hid. unfold gorm.next_pk.
      pose proof (@fold_max_above_seq AutomationTask.t _ (rows tbl) (seq tbl)).
      specialize (Hseq tbl eq_refl). lia. }
    repeat split.
    + rewrite map_app. simpl. apply NoDup_snoc; [exact Hnd|].
      intros Hi. apply in_map_iff in Hi.
      destruct Hi as [x [Hx Hin]]. specialize (Hfresh x Hin). lia.
    + apply Forall_app. split; [exact Hall|].
      constructor; [|constructor]. split; [|exact Hpos].
      left. exact Hst.
    + intros tbl' [= <-]. simpl. specialize (Hseq tbl eq_refl). lia.
    + rewrite map_app. simpl. apply NoDup_snoc; [exact Hgnd|].
      intros Hi. apply in_map_iff in Hi.
      destruct Hi as [g [Hg' Hgin]]. rewrite Forall_forall in Hgall.
      destruct (Hgall g Hgin) as [x [Hx [Hxid _]]].
      specialize (Hfresh x Hx). lia.
    + apply Forall_app. split.
      * eapply Forall_impl; [|exact Hgall]. intros g [x [Hx Hrest]].
        exists x. split; [apply in_or_app; now left | exact Hrest].
      * constructor; [|constructor]. exists t. simpl.
        split; [apply in_or_app; right; now left | auto].
  - rewrite Ht, Hg. repeat split; auto.
    + now apply remove_nth_NoDup.
    + rewrite Forall_forall in *. intros x Hx. apply Hgall.
      now apply remove_nth_In in Hx.
  - rewrite Ht in *. rewrite Ht', Hg. simpl.
    apply least_In in Hl. apply filter_In in Hl. destruct Hl as [Htin Htid].
    apply Z.eqb_eq in Htid.
    repeat split.
    + now rewrite finish_row_ids.
    + rewrite Forall_forall in *. intros x' Hx'.
      apply finish_row_In in Hx'.
      destruct Hx' as [x [Hx [[Hxid ->]|[Hxid ->]]]]; [|now apply Hall].
      simpl. split; [|now apply (Hall t)].
      right. exact Hterm.
    + intros tbl' [= <-]. simpl. now apply Hseq.
    + now apply remove_nth_NoDup.
    + rewrite Forall_forall in *. intros g' Hg'.
      destruct (Hgall g' (remove_nth_In _ _ _ Hg')) as [x [Hx [Hxid Hxst]]].
      exists x. split; [|auto]. apply finish_row_keeps; [exact Hx|].
      rewrite Hxid. eapply remove_nth_other; eassumption.
Qed.

Lemma started_invariant (w : World) : server.started w -> invariant w.
Proof.
  intros [Hg [Hnd [Hall Hseq]]]. unfold invariant. rewrite Hg.
  repeat split; auto; try constructor.
  intros tbl Ht. unfold tasks_table in Ht.
  destruct (DB w); [now injection Ht as <- | discriminate].
Qed.

Lemma reachable_invariant (E : Env) (w : World) :
  server.reachable E w -> invariant w.
Proof.
  induction 1 as [w Hs|w e Hr IH].
  - now apply started_invariant.
  - apply (@effect_invariant e w _ IH). now apply step_effect.
Qed.

(** C2. Over the life of the server the status of every task is
    monotonic. After any event (a request on any route, a goroutine
    running, the environment moving), every stored row either existed
    before with the same status, or existed before as "pending" and is
    now "completed" or "failed" (and then the event was a run of
    [executeTask]), or is new with status "pending" (and then the event
    was a [CreateTask] request). No row is ever "running", and no row
    disappears. *)
Theorem task_status_monotonic (E : Env) (w : World) (e : server.Event) :
  server.reachable E w ->
  (forall t', In t' (server.tasks (server.step E e w)) ->
      AutomationTask.Status t' <> "running"
      /\ ((exists t, In t (server.tasks w)
                     /\ AutomationTask.ID t = AutomationTask.ID t'
                     /\ (AutomationTask.Status t' = AutomationTask.Status t
                         \/ (AutomationTask.Status t = "pending"
                             /\ terminal (AutomationTask.Status t')
                             /\ exists n, e = server.Run n)))
          \/ ((forall t, In t (server.tasks w) ->
                         AutomationTask.ID t <> AutomationTask.ID t')
              /\ AutomationTask.Status t' = "pending"
              /\ exists user body,
                   e = server.Serve (server.POST_automation_tasks user body))))
  /\ (forall t, In t (server.tasks w) ->
        exists t', In t' (server.tasks (server.step E e w))
                   /\ AutomationTask.ID t' = AutomationTask.ID t).
Proof.
  intros Hreach. pose proof (reachable_invariant Hreach) as Hinv.
  pose proof (step_effect E e Hinv) as Heff.
  pose proof (effect_invariant Hinv Heff) as Hinv'.
  assert (Hnotrunning : forall t', In t' (server.tasks (server.step E e w)) ->
                                   AutomationTask.Status t' <> "running").
  { destruct Hinv' as [_ [Hall' _]]. rewrite Forall_forall in Hall'.
    intros t' Ht'. destruct (Hall' t' Ht') as [[Hs|[Hs|Hs]] _];
      rewrite Hs; discriminate. }
  destruct Hinv as [Hnd [Hall [Hseq [Hgnd Hgall]]]].
  rewrite !tasks_of_table in *.
  destruct Heff as [Ht Hg|user body tbl t req client He Ht Hid Hst Ht' Hg
                   |n g He Hnth Hg Ht
                   |n g tbl t status result now He Hnth Hg Ht Hl Hterm Ht'].
  - rewrite Ht in *. split.
    + intros t' Hin. split; [now apply Hnotrunning|]. left. exists t'. auto.
    + intros t Hin. exists t. auto.
  - rewrite Ht in *. rewrite Ht' in *. simpl in *. split.
    + intros t' Hin. split; [now apply Hnotrunning|].
      apply in_app_or in Hin. destruct Hin as [Hin|[<-|[]]].
      * left. exists t'. auto.
      * right. split; [|split; [exact Hst | now exists user, body]].
        intros x Hx. rewrite Hid.
        pose proof (@next_pk_above AutomationTask.t _ tbl x Hx) as Hlt.
        simpl in Hlt. lia.
    + intros x Hx. exists x. split; [apply in_or_app; now left | reflexivity].
  - rewrite Ht in *. split.
    + intros t' Hin. split; [now apply Hnotrunning|]. left. exists t'. auto.
    + intros t Hin. exists t. auto.
  - rewrite Ht in *. rewrite Ht' in *. simpl in *.
    apply least_In in Hl. apply filter_In in Hl. destruct Hl as [Htin Htid].
    apply Z.eqb_eq in Htid.
    (* the row of the goroutine is pending, and it is the only one *)
    rewrite Forall_forall in Hgall.
    destruct (Hgall g (nth_error_In _ _ Hnth)) as [p [Hp [Hpid Hpst]]].
    assert (Hpt : p = t)
      by (apply (NoDup_map_inj AutomationTask.ID (rows tbl)); auto; congruence).
    subst p. split.
    + intros t' Hin. split; [now apply Hnotrunning|]. left.
      apply finish_row_In in Hin.
      destruct Hin as [x [Hx [[Hxid ->]|[Hxid ->]]]].
      * exists t. split; [exact Htin|]. split; [reflexivity|].
        right. simpl. split; [exact Hpst|]. split; [exact Hterm|]. now exists n.
      * exists x. auto.
    + intros x Hx.
      destruct (Z.eq_dec (AutomationTask.ID x) (g_taskID g)) as [Heq|Hne].
      * exists (finished t status result now). split; [|simpl; congruence].
        unfold finish_row. apply in_map_iff. exists x.
        apply Z.eqb_eq in Heq. now rewrite Heq.
      * exists x. split; [now apply finish_row_keeps | reflexivity].
Qed.

(** ** The polling loop of the frontend *)

Section PollingFacts.
Variable errorMessage : string.
Variable successMessageText : string.
Variable answers : nat -> frontend.Answer.
Variable older_first : bool.

Let turn := frontend.turn errorMessage successMessageText answers older_first.
Let run := frontend.run errorMessage successMessageText answers older_first.

(** The answer makes the poller stop: the row is "completed" or
    "failed", or the request itself failed. *)
Definition stops (a : frontend.Answer) : Prop :=
  match a with
  | frontend.Resolved status _ => status = "completed" \/ status = "failed"
  | frontend.Rejected _ => True
  end.

(** The first [k] polling instants: 2000, 4000, ... *)
Definition ticks (k : nat) : list Z :=
  map (fun j => 2000 * Z.of_nat j) (List.seq 1 k).

Definition interval_timer (k : nat) : frontend.Timer :=
  frontend.mkTimer 0 (2000 * Z.of_nat (S k)) (Some 2000) (frontend.PollTick 0).

Definition timeout_timer : frontend.Timer :=
  frontend.mkTimer 1 300000 None (frontend.GiveUp 0).

(** [k] polls were made, at the first [k] instants, and none but
    possibly the last made the poller stop. *)
Definition polled_so_far (k : nat) (p : frontend.Page) : Prop :=
  frontend.polled p = ticks k /\ (k <= 150)%nat
  /\ forall j, (S j < k)%nat -> ~ stops (answers j).

(** The poller is still polling, after [k] polls. *)
Definition polling (k : nat) (p : frontend.Page) : Prop :=
  (frontend.timers p = [interval_timer k; timeout_timer]
   \/ frontend.timers p = [timeout_timer; interval_timer k])
  /\ polled_so_far k p
  /\ forall j, (j < k)%nat -> ~ stops (answers j).

(** The poller has stopped at its [k]-th poll; only the timeout is
    pending. *)
Definition waiting (k : nat) (p : frontend.Page) : Prop :=
  frontend.timers p = [timeout_timer]
  /\ polled_so_far k p
  /\ exists j, k = S j /\ stops (answers j).

(** The timeout has fired: nothing is pending any more. *)
Definition over (k : nat) (p : frontend.Page) : Prop :=
  frontend.timers p = []
  /\ frontend.now p = 300000
  /\ frontend.error (frontend.ui p) = "Task timed out"
  /\ polled_so_far k p
  /\ ((149 <= k)%nat \/ exists j, k = S j /\ stops (answers j)).

Lemma ticks_snoc (k : nat) : ticks (S k) = (ticks k ++ [2000 * Z.of_nat (S k)])%list.
Proof. unfold ticks. rewrite seq_S, map_app. reflexivity. Qed.

Lemma ticks_length (k : nat) : List.length (ticks k) = k.
Proof. unfold ticks. now rewrite length_map, length_seq. Qed.

(** What handling an answer does to the page, apart from the React
    state: the interval is cleared exactly when the answer stops the
    poller. *)
Lemma on_answer_shape (a : frontend.Answer) (p : frontend.Page) :
  let q := frontend.on_answer errorMessage successMessageText 0 a p in
  frontend.polled q = frontend.polled p
  /\ frontend.now q = frontend.now p
  /\ ((~ stops a /\ q = p)
      \/ (stops a
          /\ frontend.timers q
             = filter (fun t => negb (Nat.eqb (frontend.handle t) 0))
                      (frontend.timers p))).
Proof.
  destruct a as [[msg|]|status response]; simpl.
  - destruct (frontend.looks_misconfigured msg);
      (split; [reflexivity|]; split; [reflexivity|]; right; split;
       [exact I | reflexivity]).
  - split; [reflexivity|]. split; [reflexivity|]. right. split;
      [exact I | reflexivity].
  - destruct (String.eqb status "completed") eqn:Hc.
    + apply String.eqb_eq in Hc.
      destruct response as [exn|[|] [exn|output] err]; simpl;
        try destruct (frontend.looks_misconfigured _);
        (split; [reflexivity|]; split; [reflexivity|]; right; split;
         [now left | reflexivity]).
    + destruct (String.eqb status "failed") eqn:Hf.
      * apply String.eqb_eq in Hf.
        destruct response as [exn|success formatted err]; simpl;
          try destruct (frontend.looks_misconfigured _);
          (split; [reflexivity|]; split; [reflexivity|]; right; split;
           [now right | reflexivity]).
      * apply String.eqb_neq in Hc, Hf. repeat split; auto.
        left. split; [tauto | reflexivity].
Qed.

Lemma interval_wins (k : nat) (a b : frontend.Timer) :
  (a = interval_timer k /\ b = timeout_timer
   /\ frontend.before older_first a b = true)
  \/ (a = timeout_timer /\ b = interval_timer k
      /\ frontend.before older_first a b = false) ->
  (S k <= 150)%nat.
Proof.
  unfold frontend.before, interval_timer, timeout_timer.
  intros [[-> [-> H]]|[-> [-> H]]]; cbn [frontend.due frontend.handle] in H.
  - apply orb_true_iff in H. destruct H as [H|H].
    + apply Z.ltb_lt in H. lia.
    + apply andb_true_iff in H. destruct H as [H _]. apply Z.eqb_eq in H. lia.
  - apply orb_false_iff in H. destruct H as [H _]. apply Z.ltb_ge in H. lia.
Qed.

Lemma timeout_wins (k : nat) (a b : frontend.Timer) :
  (a = interval_timer k /\ b = timeout_timer
   /\ frontend.before older_first a b = false)
  \/ (a = timeout_timer /\ b = interval_timer k
      /\ frontend.before older_first a b = true) ->
  (149 <= k)%nat.
Proof.
  unfold frontend.before, interval_timer, timeout_timer.
  intros [[-> [-> H]]|[-> [-> H]]]; cbn [frontend.due frontend.handle] in H.
  - apply orb_false_iff in H. destruct H as [H _]. apply Z.ltb_ge in H. lia.
  - apply orb_true_iff in H. destruct H as [H|H].
    + apply Z.ltb_lt in H. lia.
    + apply andb_true_iff in H. destruct H as [H _]. apply Z.eqb_eq in H. lia.
Qed.

(** The page after the interval timer fired for the [S k]-th time, and
    before the answer is handled. *)
Definition asked (k : nat) (p : frontend.Page) : frontend.Page :=
  frontend.mkPage (2000 * Z.of_nat (S k))
                  [timeout_timer; interval_timer (S k)]
                  (frontend.next_handle p) (frontend.ui p)
                  (frontend.polled p ++ [2000 * Z.of_nat (S k)]).

(** The page after the timeout fired. *)
Definition gave_up (p : frontend.Page) : frontend.Page :=
  frontend.mkPage 300000 [] (frontend.next_handle p)
                  (frontend.setError "Task timed out" (frontend.ui p))
                  (frontend.polled p).

Lemma turn_polling_cases (k : nat) (p : frontend.Page) :
  polling k p ->
  ((S k <= 150)%nat
   /\ turn p = Some (frontend.on_answer errorMessage successMessageText 0
                       (answers k) (asked k p)))
  \/ ((149 <= k)%nat /\ turn p = Some (gave_up p)).
Proof.
  intros [Htimers [[Hpolled _] _]]. unfold turn, frontend.turn.
  assert (Hnext : 2000 * Z.of_nat (S k) + 2000 = 2000 * Z.of_nat (S (S k)))
    by lia.
  assert (Hlen : List.length (frontend.polled p) = k)
    by (rewrite Hpolled; apply ticks_length).
  destruct Htimers as [Ht|Ht]; rewrite Ht; cbn [frontend.earliest].
  - destruct (frontend.before older_first (interval_timer k) timeout_timer)
      eqn:Hb.
    + left. split; [eapply interval_wins; left; eauto|].
      cbn. rewrite Hlen. unfold asked, interval_timer.
      repeat f_equal; lia.
    + right. split; [eapply timeout_wins; left; eauto|]. reflexivity.
  - destruct (frontend.before older_first timeout_timer (interval_timer k))
      eqn:Hb.
    + right. split; [eapply timeout_wins; right; eauto|]. reflexivity.
    + left. split; [eapply interval_wins; right; eauto|].
      cbn. rewrite Hlen. unfold asked, interval_timer.
      repeat f_equal; lia.
Qed.

Lemma turn_polling (k : nat) (p : frontend.Page) :
  polling k p ->
  exists p', turn p = Some p'
             /\ (polling (S k) p' \/ waiting (S k) p' \/ over k p').
Proof.
  intros Hp. pose proof Hp as [_ [[Hpolled [Hk Hearlier]] Hnone]].
  destruct (turn_polling_cases Hp) as [[Hle Hturn]|[Hge Hturn]];
    rewrite Hturn; eexists; (split; [reflexivity|]).
  - pose proof (on_answer_shape (answers k) (asked k p)) as Hshape.
    cbv zeta in Hshape. destruct Hshape as [Hq [_ Hcases]].
    assert (Hsofar : polled_so_far (S k)
                       (frontend.on_answer errorMessage successMessageText 0
                          (answers k) (asked k p))).
    { split; [|split; [exact Hle|]].
      - rewrite Hq. unfold asked. cbn [frontend.polled].
        now rewrite Hpolled, ticks_snoc.
      - intros j Hj. apply Hnone. lia. }
    destruct Hcases as [[Hgo Heq]|[Hstop Htimers]].
    + left. split; [rewrite Heq; now right|]. split; [exact Hsofar|].
      intros j Hj. destruct (Nat.eq_dec j k) as [->|Hne]; [exact Hgo|].
      apply Hnone. lia.
    + right. left. split; [exact Htimers|]. split; [exact Hsofar|].
      now exists k.
  - right. right. unfold over, gave_up. cbn.
    repeat split; auto.
Qed.

Lemma turn_waiting (k : nat) (p : frontend.Page) :
  waiting k p -> turn p = Some (gave_up p) /\ over k (gave_up p).
Proof.
  intros [Htimers [Hsofar Hstopped]]. split.
  - unfold turn, frontend.turn. rewrite Htimers. reflexivity.
  - unfold over, gave_up. cbn. repeat split; try apply Hsofar. now right.
Qed.

Lemma turn_over (k : nat) (p : frontend.Page) : over k p -> turn p = None.
Proof.
  intros [Htimers _]. unfold turn, frontend.turn. now rewrite Htimers.
Qed.

Lemma run_over (k fuel : nat) (p : frontend.Page) :
  over k p -> run fuel p = p.
Proof.
  intros Ho. destruct fuel as [|fuel]; [reflexivity|].
  unfold run. simpl. fold turn. now rewrite (turn_over Ho).
Qed.

Lemma run_waiting (k fuel : nat) (p : frontend.Page) :
  waiting k p ->
  waiting k (run fuel p) \/ over k (run fuel p).
Proof.
  intros Hw. destruct fuel as [|fuel]; [now left|].
  destruct (turn_waiting Hw) as [Hturn Ho]. right.
  unfold run. simpl. fold turn. rewrite Hturn.
  fold (run fuel (gave_up p)). now rewrite (run_over fuel Ho).
Qed.

(** Whatever the fuel, the page is in one of the three phases. *)
Lemma run_polling (fuel k : nat) (p : frontend.Page) :
  polling k p ->
  exists k', (k <= k')%nat
             /\ (polling k' (run fuel p) \/ waiting k' (run fuel p)
                 \/ over k' (run fuel p)).
Proof.
  revert k p. induction fuel as [|fuel IH]; intros k p Hp.
  - exists k. split; [lia | now left].
  - destruct (turn_polling Hp) as [p' [Hturn Hnext]].
    unfold run. simpl. fold turn. rewrite Hturn. fold (run fuel p').
    destruct Hnext as [Hp'|[Hw|Ho]].
    + destruct (IH (S k) p' Hp') as [k' [Hle H]]. exists k'. split; [lia|exact H].
    + exists (S k). split; [lia|]. right. now apply run_waiting.
    + exists k. split; [lia|]. right. right. now rewrite (run_over fuel Ho).
Qed.

(** With enough fuel the timeout has fired. *)
Lemma run_gives_up (fuel k : nat) (p : frontend.Page) :
  polling k p -> (152 <= fuel + k)%nat ->
  exists k', over k' (run fuel p).
Proof.
  revert k p. induction fuel as [|fuel IH]; intros k p Hp Hfuel.
  - destruct Hp as [_ [[_ [Hk _]] _]]. lia.
  - destruct (turn_polling Hp) as [p' [Hturn Hnext]].
    unfold run. simpl. fold turn. rewrite Hturn. fold (run fuel p').
    destruct Hnext as [Hp'|[Hw|Ho]].
    + apply (IH (S k) p' Hp'). lia.
    + exists (S k). destruct fuel as [|fuel].
      * destruct Hw as [_ [[_ [Hk _]] _]]. lia.
      * destruct (turn_waiting Hw) as [Hturn' Ho].
        unfold run. simpl. fold turn. rewrite Hturn'.
        fold (run fuel (gave_up p')). now rewrite (run_over fuel Ho).
    + exists k. now rewrite (run_over fuel Ho).
Qed.

Lemma pollTaskCompletion_starts (taskId : Z) :
  taskId <> 0 ->
  polling 0 (frontend.pollTaskCompletion (Some taskId) frontend.fresh_page).
Proof.
  intros Hid. unfold polling, polled_so_far.
  destruct taskId; [contradiction| |];
    (split; [left; reflexivity|]); repeat split; try lia; reflexivity.
Qed.

End PollingFacts.

(** C8. The frontend learns of completion by polling alone. After
    [pollTaskCompletion] on a valid task id, and for as long as the
    event loop runs: [getTask] is called at the instants 2000, 4000,
    ... ms, one every 2 seconds and never after 300000 ms; when an
    answer reports the status "completed" or "failed" that poll is the
    last one; and once the loop has run to its end the 300000 ms
    timeout has fired: no timer is pending, the clock reads 300000 and
    the error shown is "Task timed out". A task that never reaches a
    terminal status is polled at every one of these instants below
    300000 ms. *)
Theorem polling_schedule (errorMessage successMessageText : string)
  (answers : nat -> frontend.Answer) (older_first : bool) (taskId : Z)
  (fuel : nat) :
  taskId <> 0 ->
  let p :=
    frontend.run errorMessage successMessageText answers older_first fuel
      (frontend.pollTaskCompletion (Some taskId) frontend.fresh_page) in
  (exists k, (k <= 150)%nat /\ frontend.polled p = ticks k)
  /\ (forall j status response,
        (j < List.length (frontend.polled p))%nat ->
        answers j = frontend.Resolved status response ->
        status = "completed" \/ status = "failed" ->
        List.length (frontend.polled p) = S j)
  /\ ((152 <= fuel)%nat ->
      frontend.timers p = []
      /\ frontend.now p = 300000
      /\ frontend.error (frontend.ui p) = "Task timed out")
  /\ ((152 <= fuel)%nat ->
      (forall j, ~ stops (answers j)) ->
      (149 <= List.length (frontend.polled p))%nat).
Proof.
  intros Hid p.
  pose proof (@pollTaskCompletion_starts answers taskId Hid) as Hstart.
  destruct (@run_polling errorMessage successMessageText answers older_first
              fuel 0 _ Hstart) as [k [_ Hphase]].
  fold p in Hphase.
  assert (Hsofar : polled_so_far answers k p).
  { destruct Hphase as [H|[H|H]]; [apply H | apply H |].
    destruct H as [_ [_ [_ [H _]]]]. exact H. }
  destruct Hsofar as [Hpolled [Hk Hearlier]].
  split; [now exists k|]. split; [|split].
  - intros j status response Hj Ha Hterm.
    rewrite Hpolled, ticks_length in *.
    destruct (Nat.eq_dec k (S j)) as [Heq|Hne]; [exact Heq|].
    exfalso. apply (Hearlier j); [lia|]. rewrite Ha. exact Hterm.
  - intros Hfuel.
    destruct (@run_gives_up errorMessage successMessageText answers older_first
                fuel 0 _ Hstart) as [k' Ho]; [lia|].
    fold p in Ho. destruct Ho as [H1 [H2 [H3 _]]]. auto.
  - intros Hfuel Hnever.
    destruct (@run_gives_up errorMessage successMessageText answers older_first
                fuel 0 _ Hstart) as [k' Ho]; [lia|].
    fold p in Ho. destruct Ho as [_ [_ [_ [[Hp' _] Hwhy]]]].
    rewrite Hp', ticks_length.
    destruct Hwhy as [Hge|[j [_ Hstop]]]; [exact Hge|].
    exfalso. exact (Hnever j Hstop).
Qed.

(** *** Concrete runs *)

(** The task is still pending at the first two polls and completed at
    the third. *)
Definition three_polls (n : nat) : frontend.Answer :=
  match n with
  | 0%nat | 1%nat => frontend.Resolved "pending" (frontend.Readable false (inr "") None)
  | _ => frontend.Resolved "completed"
           (frontend.Readable true (inr "Username: carol") None)
  end.

Lemma polling_schedule_witness :
  let p :=
    frontend.run "Failed to create account" "Account created successfully"
      three_polls true 200
      (frontend.pollTaskCompletion (Some 7) frontend.fresh_page) in
  frontend.timers p = []
  /\ frontend.now p = 300000
  /\ frontend.error (frontend.ui p) = "Task timed out".
Proof.
  destruct (@polling_schedule "Failed to create account"
              "Account created successfully" three_polls true 7 200)
    as [_ [_ [Hend _]]].
  - discriminate.
  - apply Hend. repeat constructor.
Defined.

(** After the third poll the output is shown and polling has stopped;
    only the timeout is still pending. *)
Example polling_stops_on_completion :
  let p :=
    frontend.run "Failed to create account" "Account created successfully"
      three_polls true 3
      (frontend.pollTaskCompletion (Some 7) frontend.fresh_page) in
  frontend.polled p = [2000; 4000; 6000]
  /\ frontend.ui p
     = frontend.mkUI "" "Username: carol" "Account created successfully"
  /\ map frontend.due (frontend.timers p) = [300000].
Proof. repeat split. Qed.

(** The timeout is never cancelled: it overwrites the error of a task
    that completed long before. *)
Example timeout_fires_after_completion :
  frontend.ui
    (frontend.run "Failed to create account" "Account created successfully"
       three_polls true 4
       (frontend.pollTaskCompletion (Some 7) frontend.fresh_page))
  = frontend.mkUI "Task timed out" "Username: carol"
                  "Account created successfully".
Proof. reflexivity. Qed.

(** The world after Alice's [CreateTask] request. *)
Definition created_world : World :=
  server.step demo.env
    (server.Serve (server.POST_automation_tasks (Some (CtxUser demo.alice))
                     (Decoded create_request)))
    demo.world0.

Lemma task_status_monotonic_witness :
  (forall t',
      In t' (server.tasks (server.step demo.env (server.Run 0) created_world)) ->
      AutomationTask.Status t' <> "running"
      /\ ((exists t, In t (server.tasks created_world)
                     /\ AutomationTask.ID t = AutomationTask.ID t'
                     /\ (AutomationTask.Status t' = AutomationTask.Status t
                         \/ (AutomationTask.Status t = "pending"
                             /\ terminal (AutomationTask.Status t')
                             /\ exists n, server.Run 0 = server.Run n)))
          \/ ((forall t, In t (server.tasks created_world) ->
                         AutomationTask.ID t <> AutomationTask.ID t')
              /\ AutomationTask.Status t' = "pending"
              /\ exists user body,
                   server.Run 0
                   = server.Serve (server.POST_automation_tasks user body))))
  /\ (forall t, In t (server.tasks created_world) ->
        exists t',
          In t' (server.tasks (server.step demo.env (server.Run 0) created_world))
          /\ AutomationTask.ID t' = AutomationTask.ID t).
Proof.
  apply (@task_status_monotonic demo.env created_world (server.Run 0)).
  apply server.reachable_step, server.reachable_start.
  repeat split; try constructor. discriminate.
Defined.

Example created_task_completes :
  map AutomationTask.Status (server.tasks created_world) = ["pending"]
  /\ map AutomationTask.Status
         (server.tasks (server.step demo.env (server.Run 0) created_world))
     = ["completed"].
Proof. split; reflexivity. Qed.

(* ================================================================== *)
(** * Further properties of the code                                    *)
(* ================================================================== *)

(** ** What the sanitizer lets through *)

Lemma connection_error_message_is_clean :
  automation.containsHTML automation.connection_error_message = false.
Proof. reflexivity. Qed.

(** X1. The text [sanitizeErrorMessage] returns never carries an HTML
    marker, so sanitizing twice is sanitizing once; and the HTML test of
    the polling frontend ('<!DOCTYPE' or '<html' occurs) never fires on
    it: of the three tests the frontend makes on a task's error text,
    only the one for 'non-JSON error response' can. *)
Theorem sanitizeErrorMessage_output_is_clean (errMsg : string) :
  let shown := automation.sanitizeErrorMessage errMsg in
  automation.containsHTML shown = false
  /\ automation.sanitizeErrorMessage shown = shown
  /\ frontend.looks_misconfigured shown
     = strings.Contains shown "non-JSON error response".
Proof.
  cbv zeta.
  assert (Hclean : automation.containsHTML
                     (automation.sanitizeErrorMessage errMsg) = false).
  { unfold automation.sanitizeErrorMessage.
    destruct (automation.containsHTML errMsg) eqn:C;
      [apply connection_error_message_is_clean | exact C]. }
  split; [exact Hclean|]. split.
  - unfold automation.sanitizeErrorMessage at 1. now rewrite Hclean.
  - unfold automation.containsHTML in Hclean.
    apply orb_false_iff in Hclean. destruct Hclean as [Hclean _].
    apply orb_false_iff in Hclean. destruct Hclean as [Hclean _].
    apply orb_false_iff in Hclean. destruct Hclean as [Hclean _].
    apply orb_false_iff in Hclean. destruct Hclean as [Hd Hh].
    unfold frontend.looks_misconfigured. now rewrite Hd, Hh.
Qed.

(** ** Error pages of the panel *)

Definition connection_errors : list string :=
  ["connection error: The panel URL is incorrect or the service could not be found. Please check your settings.";
   "connection error: The external service is currently unavailable. Please try again later.";
   "connection error: Could not connect to the panel. Please verify your panel URL and try again."].

(** X2. When the panel answers with an HTML page (a body in which one of
    the five markers occurs), the error of the client is one of three
    fixed texts, chosen by the status code alone (404, 500 and above,
    anything else): nothing of the page or of the URL is in it. The
    sanitizer of the handlers lets each of the three through unchanged,
    so the generic "Connection error" text of the sanitizer is not what
    such a task ends with. *)
Theorem html_error_page_gives_fixed_message (E : Env) (c : APIClient)
  (resp : HttpResponse) (body : string) :
  ReadAll resp = inr body ->
  looks_like_html body ->
  let msg := automation.error_of_response E c resp in
  In msg connection_errors
  /\ (StatusCode resp = 404 -> msg = nth 0 connection_errors "")
  /\ (500 <= StatusCode resp -> msg = nth 1 connection_errors "")
  /\ (StatusCode resp <> 404 -> StatusCode resp < 500 ->
      msg = nth 2 connection_errors "")
  /\ automation.sanitizeErrorMessage msg = msg.
Proof.
  intros Hread Hhtml. cbv zeta. unfold automation.error_of_response.
  rewrite Hread. apply containsHTML_iff in Hhtml.
  rewrite isHTMLResponse_containsHTML, Hhtml.
  unfold automation.formatConnectionError.
  destruct (StatusCode resp =? 404) eqn:H404.
  - apply Z.eqb_eq in H404. repeat split; try reflexivity; try lia.
    simpl. tauto.
  - apply Z.eqb_neq in H404. destruct (StatusCode resp >=? 500) eqn:H500.
    + assert (500 <= StatusCode resp) by lia.
      repeat split; try reflexivity; try lia. simpl. tauto.
    + assert (StatusCode resp < 500) by lia.
      repeat split; try reflexivity; try lia. simpl. tauto.
Qed.

Lemma html_error_page_gives_fixed_message_witness :
  let resp := mkHttpResponse 502 (inr "<html><body>Bad Gateway</body></html>") in
  let msg := automation.error_of_response demo.env test_client resp in
  In msg connection_errors
  /\ (StatusCode resp = 404 -> msg = nth 0 connection_errors "")
  /\ (500 <= StatusCode resp -> msg = nth 1 connection_errors "")
  /\ (StatusCode resp <> 404 -> StatusCode resp < 500 ->
      msg = nth 2 connection_errors "")
  /\ automation.sanitizeErrorMessage msg = msg.
Proof.
  apply (@html_error_page_gives_fixed_message demo.env test_client
           (mkHttpResponse 502 (inr "<html><body>Bad Gateway</body></html>"))
           "<html><body>Bad Gateway</body></html>").
  - reflexivity.
  - exists "<html". split; [simpl; tauto|]. exists "", "><body>Bad Gateway</body></html>".
    reflexivity.
Defined.

(** ** Where the requests of a run go *)















(** ** What a run writes into a task row *)

(** A finished row: a completion time, and a result that agrees with
    the status. "completed" goes with {"data": ..., "success": true},
    "failed" with {"error": msg, "success": false} where [msg] carries
    no HTML marker. *)
Definition consistent_outcome (status : string) (result : option RawMessage)
  (completedAt : option Time) : Prop :=
  completedAt <> None
  /\ ((status = "completed"
       /\ exists data,
            result = Some (Encoded (JObject [("data", data);
                                             ("success", JBool true)])))
      \/ (status = "failed"
          /\ exists msg,
               result = Some (Encoded (automation.errorData msg))
               /\ automation.containsHTML msg = false)).

Definition consistent (t : AutomationTask.t) : Prop :=
  consistent_outcome (AutomationTask.Status t) (AutomationTask.Result t)
                     (AutomationTask.CompletedAt t).

(** A row as [CreateTask] stores it. *)
Definition pristine (t : AutomationTask.t) : Prop :=
  AutomationTask.Status t = "pending" /\ AutomationTask.Result t = None
  /\ AutomationTask.CompletedAt t = None.

(** Every task row of [w] is a row of [w0] or satisfies [P]. *)
Definition written (P : AutomationTask.t -> Prop) (w0 w : World) : Prop :=
  forall x, In x (server.tasks w) -> In x (server.tasks w0) \/ P x.

(** The computation writes only rows that satisfy [P]. *)
Definition keeps (P : AutomationTask.t -> Prop) {A : Type} (m : M A) : Prop :=
  forall w0 w, written P w0 w -> written P w0 (snd (m w)).

Lemma written_refl (P : AutomationTask.t -> Prop) (w : World) : written P w w.
Proof. intros x Hx. now left. Qed.

Lemma keeps_steady (P : AutomationTask.t -> Prop) {A : Type} (m : M A) :
  steady m -> keeps P m.
Proof.
  intros Hm w0 w Hw x Hx. apply Hw.
  rewrite tasks_of_table in *. destruct (Hm w) as [Ht _]. now rewrite <- Ht.
Qed.

Lemma keeps_bind (P : AutomationTask.t -> Prop) {A B : Type} (m : M A)
  (k : A -> M B) :
  keeps P m -> (forall a, keeps P (k a)) -> keeps P (bind m k).
Proof.
  intros Hm Hk w0 w Hw. unfold bind. specialize (Hm w0 w Hw).
  destruct (m w) as [[a|v] w1]; simpl in *; [now apply Hk | exact Hm].
Qed.

Lemma keeps_defer_recover (P : AutomationTask.t -> Prop) (body : M unit)
  (handler : string -> M unit) :
  keeps P body -> (forall v, keeps P (handler v)) ->
  keeps P (defer_recover body handler).
Proof.
  intros Hb Hh w0 w Hw. unfold defer_recover. specialize (Hb w0 w Hw).
  destruct (body w) as [[[]|v] w1]; simpl in *; [exact Hb | now apply Hh].
Qed.

Lemma steady_tame (net : bool) {A : Type} (m : M A) : tame net m -> steady m.
Proof.
  intros Hm w. destruct (Hm w) as [a [w' [Hrun [H1 [_ [H3 _]]]]]].
  rewrite Hrun. simpl. unfold tasks_table. now rewrite H1.
Qed.

Lemma steady_may_panic (site : Site) : steady (may_panic site).
Proof.
  intros w. unfold may_panic. destruct (panic_at w) as [s|]; [|now split].
  destruct (Site_eqb s site); now split.
Qed.

(** [db.Save] of a task row writes, if anything, rows with the status,
    the result and the completion time of the row saved. *)
Lemma keeps_Save (P : AutomationTask.t -> Prop) (now : Time)
  (task : AutomationTask.t) :
  (forall x, AutomationTask.Status x = AutomationTask.Status task ->
             AutomationTask.Result x = AutomationTask.Result task ->
             AutomationTask.CompletedAt x = AutomationTask.CompletedAt task ->
             P x) ->
  keeps P (db (gorm.Save now task)).
Proof.
  intros HP w0 w Hw x. unfold db, server.tasks.
  destruct (DB w) as [c|] eqn:Hdb; [|simpl; now rewrite Hdb].
  assert (Hold : forall y, In y (rows (automation_tasks (store c))) ->
                           In y (server.tasks w0) \/ P y).
  { intros y Hy. apply Hw. unfold server.tasks. now rewrite Hdb. }
  unfold gorm.Save.
  destruct (statement_cases
              (fun s => if pk task =? 0 then gorm.insert task s
                        else if gorm.has_pk (pk task) (rows (table s))
                             then gorm.update (touch now task) s
                             else gorm.insert (touch now task) s) c)
    as [[msg [rest Hst]]|[rest Hst]]; rewrite Hst; simpl; [apply Hold|].
  assert (Hins : forall r,
             AutomationTask.Status r = AutomationTask.Status task ->
             AutomationTask.Result r = AutomationTask.Result task ->
             AutomationTask.CompletedAt r = AutomationTask.CompletedAt task ->
             In x (rows (automation_tasks (snd (gorm.insert r (store c))))) ->
             In x (server.tasks w0) \/ P x).
  { intros r H1 H2 H3. unfold gorm.insert.
    match goal with |- context [if ?b then _ else _] => destruct b end;
      simpl; [apply Hold|].
    intros Hin. apply in_app_or in Hin. destruct Hin as [Hin|[<-|[]]];
      [now apply Hold|].
    right. destruct (AutomationTask.ID r =? 0); apply HP; assumption. }
  destruct (AutomationTask.ID task =? 0); [now apply Hins|].
  destruct (gorm.has_pk _ _); [|now apply Hins].
  unfold gorm.update.
  match goal with |- context [if ?b then _ else _] => destruct b end;
    simpl; [apply Hold|].
  intros Hin. apply in_map_iff in Hin. destruct Hin as [y [Hy Hin]].
  destruct (AutomationTask.ID y =? AutomationTask.ID task).
  - right. subst x. now apply HP.
  - subst x. now apply Hold.
Qed.

Lemma keeps_save_task (P : AutomationTask.t -> Prop) (status : string)
  (result : option RawMessage) (completedAt : option Time)
  (task : AutomationTask.t) :
  (forall x, AutomationTask.Status x = status ->
             AutomationTask.Result x = result ->
             AutomationTask.CompletedAt x = completedAt -> P x) ->
  keeps P (automation.save_task
             (automation.set_outcome status result completedAt task)).
Proof.
  intros HP. unfold automation.save_task.
  apply keeps_bind; [apply keeps_steady, steady_may_panic|]. intros _.
  apply keeps_bind; [apply keeps_steady, steady_time_Now|]. intros t.
  apply keeps_bind; [|intros _; apply keeps_steady, steady_ret].
  apply keeps_Save. exact HP.
Qed.

Lemma Marshal_errorData (E : Env) (msg : string) :
  json.Marshal E (automation.errorData msg) = inr (automation.errorData msg).
Proof. reflexivity. Qed.

Lemma consistent_failure (msg : string) (now : Time) (x : AutomationTask.t) :
  automation.containsHTML msg = false ->
  AutomationTask.Status x = "failed" ->
  AutomationTask.Result x = Some (Encoded (automation.errorData msg)) ->
  AutomationTask.CompletedAt x = Some now ->
  consistent x.
Proof.
  intros Hm H1 H2 H3. unfold consistent, consistent_outcome.
  rewrite H1, H2, H3. split; [discriminate|]. right. split; [reflexivity|].
  now exists msg.
Qed.

Lemma sanitized_is_clean (errMsg : string) :
  automation.containsHTML (automation.sanitizeErrorMessage errMsg) = false.
Proof.
  unfold automation.sanitizeErrorMessage.
  destruct (automation.containsHTML errMsg) eqn:C;
    [apply connection_error_message_is_clean | exact C].
Qed.

Lemma keeps_fail_with (E : Env) (task : AutomationTask.t) (now : Time)
  (errText : string) :
  keeps consistent (automation.fail_with E task now errText).
Proof.
  unfold automation.fail_with.
  apply keeps_bind; [apply keeps_steady, steady_may_panic|]. intros _.
  rewrite Marshal_errorData. apply keeps_save_task.
  intros x. apply consistent_failure, sanitized_is_clean.
Qed.

Lemma keeps_complete_with (E : Env) (task : AutomationTask.t) (now : Time)
  (data : JValue) :
  keeps consistent
    (automation.complete_with E task now
       (JObject [("data", data); ("success", JBool true)])).
Proof.
  unfold automation.complete_with.
  apply keeps_bind; [apply keeps_steady, steady_may_panic|]. intros _.
  unfold json.Marshal.
  destruct (json.marshalable E _).
  - apply keeps_save_task. intros x H1 H2 H3.
    unfold consistent, consistent_outcome. rewrite H1, H2, H3.
    split; [discriminate|]. left. split; [reflexivity|]. now exists data.
  - apply keeps_save_task. intros x. now apply consistent_failure.
Qed.

Lemma keeps_call (P : AutomationTask.t -> Prop) {A : Type} (sim : bool)
  (simulated real : M A) :
  tame false simulated -> tame true real ->
  keeps P (if sim then simulated else real).
Proof.
  intros Hs Hr. apply keeps_steady.
  destruct sim; [exact (steady_tame Hs) | exact (steady_tame Hr)].
Qed.

Lemma keeps_executeTask (E : Env) (taskID : Z) (req : TaskRequest)
  (apiClient : APIClient) :
  keeps consistent (automation.executeTask E taskID req apiClient).
Proof.
  assert (Hpanic : forall site, keeps consistent (may_panic site))
    by (intros; apply keeps_steady, steady_may_panic).
  unfold automation.executeTask. apply keeps_defer_recover.
  - unfold automation.executeTask_body.
    apply keeps_bind; [apply Hpanic|]. intros _.
    apply keeps_bind; [apply keeps_steady, steady_GetDB_is_live|]. intros live.
    destruct (negb live); [apply keeps_steady, steady_ret|].
    apply keeps_bind; [apply Hpanic|]. intros _.
    apply keeps_bind; [apply keeps_steady, steady_First|].
    intros [err|task]; [apply keeps_steady, steady_ret|].
    apply keeps_bind; [apply Hpanic|]. intros _.
    apply keeps_bind;
      [apply keeps_steady, (steady_tame (tame_uuid_New E false))|].
    intros rid.
    apply keeps_bind; [apply keeps_steady, steady_time_Now|]. intros now.
    destruct (String.eqb (AutomationTask.Name task) "create_account").
    { apply keeps_bind; [apply Hpanic|]. intros _.
      apply keeps_bind.
      - apply keeps_call;
          [apply tame_SimulateCreateAccount | apply tame_CreateAccount].
      - intros [err|response];
          [apply keeps_fail_with | apply keeps_complete_with]. }
    destruct (String.eqb (AutomationTask.Name task) "find_account").
    { apply keeps_bind; [apply Hpanic|]. intros _.
      apply keeps_bind.
      - apply keeps_call;
          [apply tame_SimulateFindAccount | apply tame_FindAccount].
      - intros [err|lines];
          [apply keeps_fail_with | apply keeps_complete_with]. }
    destruct (String.eqb (AutomationTask.Name task) "extend_package");
      [|apply keeps_steady, steady_ret].
    apply keeps_bind; [apply Hpanic|]. intros _.
    apply keeps_bind.
    + apply keeps_call;
        [apply tame_SimulateFindAccount | apply tame_FindAccount].
    + intros [err|[|line lines]]; [apply keeps_fail_with| |].
      * apply keeps_bind; [apply Hpanic|]. intros _.
        rewrite Marshal_errorData. apply keeps_save_task.
        intros x. now apply consistent_failure.
      * apply keeps_bind; [apply Hpanic|]. intros _.
        apply keeps_bind.
        -- apply keeps_call;
             [apply tame_SimulateExtendPackage | apply tame_ExtendPackage].
        -- intros [err|response];
             [apply keeps_fail_with | apply keeps_complete_with].
  - intros v. unfold automation.executeTask_recovered.
    apply keeps_bind; [apply keeps_steady, steady_GetDB_is_live|]. intros live.
    destruct live; [|apply keeps_steady, steady_ret].
    apply keeps_bind; [apply keeps_steady, steady_First|].
    intros [err|task]; [apply keeps_steady, steady_ret|].
    apply keeps_bind; [apply keeps_steady, steady_time_Now|]. intros now.
    apply keeps_bind; [|intros _; apply keeps_steady, steady_ret].
    rewrite Marshal_errorData. apply keeps_Save.
    intros x. now apply consistent_failure.
Qed.

(** X4. Whatever one run of [executeTask] writes is a finished row:
    every task row in the table after the run is a row that was there
    before, or has a completion time and a result that agrees with its
    status, "completed" with {"data": ..., "success": true}, "failed"
    with {"error": msg, "success": false} where no HTML marker occurs in
    [msg]. This holds for every task name, every answer of the panel,
    every driver fault and every panic. *)
Theorem executeTask_writes_finished_rows (E : Env) (taskID : Z)
  (req : TaskRequest) (apiClient : APIClient) (w : World) (x : AutomationTask.t) :
  In x (server.tasks (snd (automation.executeTask E taskID req apiClient w))) ->
  In x (server.tasks w) \/ consistent x.
Proof.
  apply (@keeps_executeTask E taskID req apiClient w w (written_refl _ w)).
Qed.

(** ** Task rows over the life of the server *)

Definition pristine_or_consistent (t : AutomationTask.t) : Prop :=
  pristine t \/ consistent t.

Lemma keeps_weaken (P Q : AutomationTask.t -> Prop) {A : Type} (m : M A) :
  (forall x, P x -> Q x) -> keeps P m ->
  forall w, Forall Q (server.tasks w) -> Forall Q (server.tasks (snd (m w))).
Proof.
  intros HPQ Hm w Hall. apply Forall_forall. intros x Hx.
  destruct (Hm w w (written_refl _ w) x Hx) as [Hold|Hnew]; [|now apply HPQ].
  rewrite Forall_forall in Hall. now apply Hall.
Qed.

Lemma keeps_CreateTask (user : option CtxValue) (body : RawBody TaskRequest) :
  keeps pristine (automation.CreateTask user body).
Proof.
  unfold automation.CreateTask.
  destruct user as [user|]; [|apply keeps_steady, steady_ret].
  destruct (automation.ShouldBindJSON_TaskRequest body) as [err|req];
    [apply keeps_steady, steady_ret|].
  destruct user as [u|]; [|apply keeps_steady, steady_ret].
  apply keeps_bind; [apply keeps_steady, steady_First|].
  intros [[|msg]|settings]; try (apply keeps_steady, steady_ret).
  apply keeps_bind; [apply keeps_steady, steady_time_Now|]. intros createdAt.
  apply keeps_bind; [apply keeps_steady, steady_time_Now|]. intros updatedAt.
  apply keeps_bind.
  - intros w0 w Hw x. unfold db, server.tasks.
    destruct (DB w) as [c|] eqn:Hdb; [|simpl; now rewrite Hdb].
    assert (Hold : forall y, In y (rows (automation_tasks (store c))) ->
                             In y (server.tasks w0) \/ pristine y).
    { intros y Hy. apply Hw. unfold server.tasks. now rewrite Hdb. }
    unfold gorm.Create.
    match goal with
    | |- context [gorm.statement ?f c] =>
        destruct (statement_cases f c) as [[msg [rest Hst]]|[rest Hst]]
    end; rewrite Hst; simpl; [apply Hold|].
    rewrite insert_task_fresh by reflexivity. simpl.
    intros Hin. apply in_app_or in Hin. destruct Hin as [Hin|[<-|[]]];
      [now apply Hold|].
    right. repeat split.
  - intros [err|task]; [apply keeps_steady, steady_ret|].
    apply keeps_bind; [|intros _; apply keeps_steady, steady_ret].
    intros w0 w Hw x Hx. apply Hw. exact Hx.
Qed.

Lemma step_keeps_rows (E : Env) (e : server.Event) (w : World) :
  Forall pristine_or_consistent (server.tasks w) ->
  Forall pristine_or_consistent (server.tasks (server.step E e w)).
Proof.
  intros Hall. destruct e as [r|n|fs p now]; simpl.
  - destruct r;
      try (match goal with
           | |- context [gin_Recovery ?h w] =>
               assert (Hs : steady (gin_Recovery h))
                 by (apply steady_gin_Recovery;
                     first [ apply steady_Login | apply steady_GetUserStatus
                           | apply steady_CreateUser | apply steady_GetUsers
                           | apply steady_UpdateUser | apply steady_DeleteUser
                           | apply steady_GetUserTasks | apply steady_GetTask
                           | apply steady_UpdateSettings
                           | apply steady_GetSettings ]);
               destruct (Hs w) as [Ht _]; rewrite tasks_of_table, Ht,
                 <- tasks_of_table; exact Hall
           end).
    simpl.
    assert (Hk : keeps pristine (gin_Recovery (automation.CreateTask user body))).
    { intros w0 w1 Hw1. unfold gin_Recovery.
      pose proof (@keeps_CreateTask user body w0 w1 Hw1) as H.
      destruct (automation.CreateTask user body w1) as [[resp|v] w2]; exact H. }
    apply (@keeps_weaken pristine pristine_or_consistent _ _
             (fun x Hx => or_introl Hx) Hk w Hall).
  - destruct (nth_error (goroutines w) n) as [g|]; [|exact Hall].
    apply (@keeps_weaken consistent pristine_or_consistent _ _
             (fun x Hx => or_intror Hx)
             (@keeps_executeTask E (g_taskID g) (g_req g) (g_client g))).
    exact Hall.
  - unfold server.tasks, server.set_environment in *. simpl.
    destruct (DB w); exact Hall.
Qed.

(** The server after a sequence of events. *)
Definition after (E : Env) (es : list server.Event) (w : World) : World :=
  fold_left (fun w e => server.step E e w) es w.

(** X5. The rows of the task table stay well-formed over the whole life
    of the server. Starting from a table whose rows are all either
    pending with no result and no completion time, or finished with a
    completion time and a result that agrees with the status (an empty
    table, for one), every sequence of requests, goroutine runs, driver
    faults and injected panics leads to a table of which the same is
    true. In particular no request handler writes a result, and no row
    is ever "completed" with a failure result or "failed" with a success
    result. *)
Theorem task_rows_stay_well_formed (E : Env) (es : list server.Event)
  (w : World) :
  Forall pristine_or_consistent (server.tasks w) ->
  Forall pristine_or_consistent (server.tasks (after E es w)).
Proof.
  revert w. induction es as [|e es IH]; intros w Hall; [exact Hall|].
  simpl. apply IH. now apply step_keeps_rows.
Qed.

Lemma task_rows_stay_well_formed_witness :
  Forall pristine_or_consistent
    (server.tasks
       (after demo.env
          [server.Serve (server.POST_automation_tasks (Some (CtxUser demo.alice))
                           (Decoded create_request));
           server.Run 0]
          demo.world0)).
Proof.
  apply (@task_rows_stay_well_formed demo.env _ demo.world0). constructor.
Defined.

Definition finished_row : AutomationTask.t :=
  hd carol_task
     (server.tasks (snd (automation.executeTask demo.env 1 create_request
                           test_client (with_goroutines [] created_world)))).

Lemma executeTask_writes_finished_rows_witness :
  In finished_row (server.tasks (with_goroutines [] created_world))
  \/ consistent finished_row.
Proof.
  apply (@executeTask_writes_finished_rows demo.env 1 create_request test_client
           (with_goroutines [] created_world) finished_row).
  left. reflexivity.
Defined.

(** ** The settings of a user *)

(** The rows of [user_settings] that belong to the user [uid]. *)
Definition settings_rows (s : Store) (uid : Z) : list UserSettings.t :=
  filter (fun r => UserSettings.UserID r =? uid) (rows (user_settings s)).

(** The answer of [GetSettings] for a row. *)
Definition settings_json (r : UserSettings.t) : JValue :=
  JObject [("api_key", JString (UserSettings.APIKey r));
           ("auth_user", JString (UserSettings.AuthUser r));
           ("created_at", JTime (UserSettings.CreatedAt r));
           ("updated_at", JTime (UserSettings.UpdatedAt r));
           ("website_url", JString (UserSettings.WebsiteURL r))].

Definition empty_settings_json : JValue :=
  JObject [("api_key", JString ""); ("auth_user", JString "");
           ("website_url", JString "")].

Section LeastFacts.
Context {R : Type} `{Model R}.

Lemma least_unique (l : list R) (r : R) :
  In r l -> (forall y, In y l -> y = r) -> gorm.least l = Some r.
Proof.
  intros Hin Hall. destruct (gorm.least l) as [x|] eqn:Hl.
  - apply least_In in Hl. now rewrite (Hall x Hl).
  - apply least_nil_iff in Hl. subst l. contradiction.
Qed.

End LeastFacts.

(** [First] on a live handle: the scheduled fault, or the least row
    that matches; the store stays as it is. *)
Definition first_match {R : Type} `{Model R} (cond : R -> bool) (s : Store)
  : DbError + R :=
  match gorm.least (filter cond (rows (table s))) with
  | Some r => inr r
  | None => inl ErrRecordNotFound
  end.

Lemma db_First {R : Type} `{Model R} (cond : R -> bool) (w : World) (c : Conn) :
  DB w = Some c ->
  db (gorm.First cond) w
  = (Done (answer (faults c) (first_match cond (store c))),
     with_DB (Some (mkConn (store c) (tl (faults c)))) w).
Proof.
  intros Hdb. unfold db, gorm.First, gorm.statement, answer, first_match.
  rewrite Hdb.
  destruct (faults c) as [|[msg|] rest]; try reflexivity;
    now destruct (gorm.least _).
Qed.

Lemma SettingsRequest_binds (body : RawBody SettingsRequest)
  (req : SettingsRequest) :
  automation.ShouldBindJSON_SettingsRequest body = inr req ->
  body = Decoded req.
Proof.
  unfold automation.ShouldBindJSON_SettingsRequest.
  destruct body as [err|req']; [discriminate|].
  destruct (validate_required _ _); [discriminate|]. now intros [= ->].
Qed.

(** What a successful [UpdateSettings] leaves in the table. *)
Lemma UpdateSettings_stores (u : User.t) (body : RawBody SettingsRequest)
  (w : World) (c : Conn) :
  DB w = Some c -> reliable c ->
  exists resp w1 c1,
    automation.UpdateSettings (Some (CtxUser u)) body w = (Done resp, w1)
    /\ DB w1 = Some c1 /\ reliable c1
    /\ (code resp = StatusOK ->
        exists req r,
          body = Decoded req
          /\ In r (settings_rows (store c1) (User.ID u))
          /\ (forall y, In y (settings_rows (store c1) (User.ID u)) -> y = r)
          /\ UserSettings.WebsiteURL r = sreq_WebsiteURL req
          /\ UserSettings.APIKey r = sreq_APIKey req
          /\ UserSettings.AuthUser r = sreq_AuthUser req
          /\ UserSettings.UpdatedAt r = clock w).
Proof.
  intros Hdb Hrel. unfold automation.UpdateSettings.
  destruct (automation.ShouldBindJSON_SettingsRequest body) as [err|req] eqn:Hb.
  { exists (JSON StatusBadRequest (ErrorJSON err)), w, c.
    repeat split; auto. discriminate. }
  apply SettingsRequest_binds in Hb. subst body.
  unfold bind at 1. unfold gorm.First.
  db_step Hdb r1 s1 rest1 Hc1 Hr1.
  destruct (Hr1 Hrel) as [Hf1 Hrel1]. clear Hc1 Hr1.
  cbn [table UserSettings_Model] in Hf1.
  fold (settings_rows (store c) (User.ID u)) in Hf1.
  destruct (gorm.least (settings_rows (store c) (User.ID u))) as [st|] eqn:Hl;
    injection Hf1 as -> ->.
  - (* a row exists: it is saved *)
    unfold bind, time_Now, gorm.Save.
    db_step (eq_refl (Some (mkConn (store c) rest1))) r2 s2 rest2 Hc2 Hr2.
    destruct (Hr2 Hrel1) as [Hf2 Hrel2]. clear Hc2 Hr2.
    cbn [store clock with_DB pk table UserSettings_Model
         automation.set_credentials UserSettings.ID] in Hf2.
    pose proof (least_In _ Hl) as Hst. apply filter_In in Hst.
    destruct Hst as [Hst Huid]. apply Z.eqb_eq in Huid.
    destruct (UserSettings.ID st =? 0) eqn:Hz.
    { (* a zero key: the insert clashes with the row itself *)
      unfold gorm.insert in Hf2.
      cbn [pk with_pk table UserSettings_Model clashes UserSettings.ID
           UserSettings.UserID automation.set_credentials] in Hf2.
      rewrite Hz in Hf2.
      assert (Hclash : existsb
                (fun b => UserSettings.UserID st =? UserSettings.UserID b)
                (rows (user_settings (store c))) = true).
      { apply existsb_exists. exists st. split; [exact Hst | apply Z.eqb_refl]. }
      cbn [pk with_pk clashes UserSettings_Model UserSettings.UserID
           UserSettings.ID] in Hf2.
      rewrite Hclash, orb_true_r in Hf2. injection Hf2 as -> ->.
      do 3 eexists. split; [reflexivity|]. cbn.
      repeat split; auto. discriminate. }
    assert (Hhas : gorm.has_pk (UserSettings.ID st)
                     (rows (user_settings (store c))) = true).
    { apply has_pk_true_iff. now exists st. }
    rewrite Hhas in Hf2. unfold gorm.update in Hf2.
    cbn [pk touch clashes table with_table UserSettings_Model UserSettings.ID
         UserSettings.UserID automation.set_credentials] in Hf2.
    match type of Hf2 with
    | context [if ?b then _ else _] => destruct b eqn:Hclash
    end; injection Hf2 as -> ->.
    { do 3 eexists. split; [reflexivity|]. cbn.
      repeat split; auto. discriminate. }
    do 3 eexists. split; [reflexivity|]. cbn [DB with_DB store code].
    split; [reflexivity|]. split; [exact Hrel2|]. intros _.
    exists req,
      (UserSettings.mk (UserSettings.ID st) (UserSettings.UserID st)
         (sreq_WebsiteURL req) (sreq_APIKey req) (sreq_AuthUser req)
         (UserSettings.CreatedAt st) (clock w)).
    split; [reflexivity|].
    unfold settings_rows. cbn [store user_settings rows].
    split; [|split; [|cbn; repeat split; reflexivity]].
    + apply filter_In. split.
      * apply in_map_iff. exists st. split; [|exact Hst].
        now rewrite Z.eqb_refl.
      * cbn. now apply Z.eqb_eq.
    + intros y Hy. apply filter_In in Hy. destruct Hy as [Hy Hyu].
      apply in_map_iff in Hy. destruct Hy as [x [Hx Hin]].
      destruct (UserSettings.ID x =? UserSettings.ID st) eqn:Hpk;
        [now symmetry|].
      subst y. exfalso.
      assert (Hex : existsb
                (fun x0 => negb (UserSettings.ID x0 =? UserSettings.ID st)
                           && (UserSettings.UserID st =? UserSettings.UserID x0))
                (rows (user_settings (store c))) = true).
      { apply existsb_exists. exists x. split; [exact Hin|].
        rewrite Hpk. cbn. apply Z.eqb_eq. apply Z.eqb_eq in Hyu. congruence. }
      congruence.
  - (* no row: one is created *)
    unfold bind, time_Now, gorm.Create.
    db_step (eq_refl (Some (mkConn (store c) rest1))) r2 s2 rest2 Hc2 Hr2.
    destruct (Hr2 Hrel1) as [Hf2 Hrel2]. clear Hc2 Hr2.
    cbn [store clock with_DB] in Hf2. unfold gorm.insert in Hf2.
    cbn [pk with_pk clashes table with_table UserSettings_Model
         UserSettings.ID UserSettings.UserID] in Hf2.
    rewrite Z.eqb_refl in Hf2.
    cbn [pk with_pk clashes UserSettings_Model UserSettings.ID
         UserSettings.UserID] in Hf2.
    pose proof (@has_pk_next_pk _ UserSettings_Model (user_settings (store c)))
      as Hfresh.
    cbn [pk UserSettings_Model] in Hfresh. rewrite Hfresh in Hf2.
    apply least_nil_iff in Hl.
    assert (Hnone : existsb
              (fun b => User.ID u =? UserSettings.UserID b)
              (rows (user_settings (store c))) = false).
    { destruct (existsb _ _) eqn:Hex; [|reflexivity].
      apply existsb_exists in Hex. destruct Hex as [x [Hx Hxu]].
      exfalso.
      apply (filter_nonempty (fun r => UserSettings.UserID r =? User.ID u)
               _ x Hx); [|exact Hl].
      now rewrite Z.eqb_sym. }
    rewrite Hnone in Hf2. cbn [orb] in Hf2. injection Hf2 as -> ->.
    do 3 eexists. split; [reflexivity|]. cbn [DB with_DB store code].
    split; [reflexivity|]. split; [exact Hrel2|]. intros _.
    exists req,
      (UserSettings.mk (gorm.next_pk (user_settings (store c))) (User.ID u)
         (sreq_WebsiteURL req) (sreq_APIKey req) (sreq_AuthUser req)
         (clock w) (clock w)).
    split; [reflexivity|].
    unfold settings_rows in *. cbn [store user_settings rows].
    rewrite filter_app, Hl. cbn [filter UserSettings.UserID app].
    rewrite Z.eqb_refl.
    split; [now left|]. split; [|cbn; repeat split; reflexivity].
    intros y [<-|[]]. reflexivity.
Qed.

Lemma GetSettings_reads (u : User.t) (w : World) (c : Conn) (r : UserSettings.t) :
  DB w = Some c -> reliable c ->
  In r (settings_rows (store c) (User.ID u)) ->
  (forall y, In y (settings_rows (store c) (User.ID u)) -> y = r) ->
  fst (automation.GetSettings (Some (CtxUser u)) w)
  = Done (JSON StatusOK (ValueJSON (settings_json r))).
Proof.
  intros Hdb Hrel Hin Hall. unfold automation.GetSettings, bind.
  rewrite (db_First _ w Hdb). rewrite answer_reliable by exact Hrel.
  unfold first_match. cbn [table UserSettings_Model].
  fold (settings_rows (store c) (User.ID u)).
  now rewrite (least_unique _ Hin Hall).
Qed.

(** X6. Settings round trip. When [UpdateSettings] answers 200 for a
    user (on a database that answers), a [GetSettings] request of the
    same user that follows is answered with exactly the panel URL, the
    API key and the auth user that were sent, and with the time of the
    update as [updated_at]; this holds whether the row was created or
    updated, and whatever other rows the table holds. *)
Theorem UpdateSettings_then_GetSettings (u : User.t)
  (body : RawBody SettingsRequest) (w w1 : World) (c : Conn) (resp : Response) :
  DB w = Some c -> reliable c ->
  automation.UpdateSettings (Some (CtxUser u)) body w = (Done resp, w1) ->
  code resp = StatusOK ->
  exists req createdAt,
    body = Decoded req
    /\ fst (automation.GetSettings (Some (CtxUser u)) w1)
       = Done (JSON StatusOK
                 (ValueJSON
                    (JObject
                       [("api_key", JString (sreq_APIKey req));
                        ("auth_user", JString (sreq_AuthUser req));
                        ("created_at", JTime createdAt);
                        ("updated_at", JTime (clock w));
                        ("website_url", JString (sreq_WebsiteURL req))]))).
Proof.
  intros Hdb Hrel Hrun Hok.
  destruct (@UpdateSettings_stores u body w c Hdb Hrel)
    as [resp' [w1' [c1 [Hrun' [Hdb1 [Hrel1 Hstored]]]]]].
  rewrite Hrun in Hrun'. injection Hrun' as <- <-.
  destruct (Hstored Hok) as [req [r [Hbody [Hin [Hall [H1 [H2 [H3 H4]]]]]]]].
  exists req, (UserSettings.CreatedAt r). split; [exact Hbody|].
  rewrite (@GetSettings_reads u w1 c1 r Hdb1 Hrel1 Hin Hall).
  unfold settings_json. now rewrite H1, H2, H3, H4.
Qed.

Definition new_settings : SettingsRequest :=
  mkSettingsRequest "https://other.example" "key-1" "reseller".

Lemma UpdateSettings_then_GetSettings_witness :
  exists req createdAt,
    Decoded new_settings = Decoded req
    /\ fst (automation.GetSettings (Some (CtxUser demo.alice))
              (snd (automation.UpdateSettings (Some (CtxUser demo.alice))
                      (Decoded new_settings) demo.world0)))
       = Done (JSON StatusOK
                 (ValueJSON
                    (JObject
                       [("api_key", JString (sreq_APIKey req));
                        ("auth_user", JString (sreq_AuthUser req));
                        ("created_at", JTime createdAt);
                        ("updated_at", JTime (clock demo.world0));
                        ("website_url", JString (sreq_WebsiteURL req))]))).
Proof.
  apply (@UpdateSettings_then_GetSettings demo.alice (Decoded new_settings)
           demo.world0 _ conn0
           (JSON StatusOK (MessageJSON "Settings updated successfully"))).
  - reflexivity.
  - constructor.
  - reflexivity.
  - reflexivity.
Defined.

(** X7. [GetSettings] never reports a failure. For an authenticated
    user and a live database handle it always answers 200: with the
    stored row when the lookup finds one, and with three empty strings
    both when the user has no settings and when the lookup fails with a
    driver error; it changes no table. *)
Theorem GetSettings_hides_lookup_failures (u : User.t) (w : World) (c : Conn) :
  DB w = Some c ->
  exists v w' rest,
    automation.GetSettings (Some (CtxUser u)) w
    = (Done (JSON StatusOK (ValueJSON v)), w')
    /\ DB w' = Some (mkConn (store c) rest)
    /\ ((exists r, In r (settings_rows (store c) (User.ID u))
                   /\ v = settings_json r)
        \/ v = empty_settings_json)
    /\ (settings_rows (store c) (User.ID u) = [] -> v = empty_settings_json)
    /\ (forall msg rest', faults c = Some msg :: rest' ->
                          v = empty_settings_json).
Proof.
  intros Hdb. unfold automation.GetSettings, bind.
  rewrite (db_First _ w Hdb). unfold first_match.
  cbn [table UserSettings_Model].
  fold (settings_rows (store c) (User.ID u)).
  destruct (faults c) as [|[msg|] rest] eqn:Hf; cbn [answer tl].
  2:{ do 3 eexists. split; [reflexivity|]. split; [reflexivity|].
      repeat split; auto. }
  all: destruct (gorm.least (settings_rows (store c) (User.ID u))) as [r|] eqn:Hl;
    do 3 eexists; (split; [reflexivity|]); (split; [reflexivity|]);
    repeat split; auto;
    try (left; exists r; split; [now apply least_In | reflexivity]);
    try (intros Hnil; rewrite Hnil in Hl; discriminate);
    try discriminate.
Qed.

Lemma GetSettings_hides_lookup_failures_witness :
  exists v w' rest,
    automation.GetSettings (Some (CtxUser demo.bob)) demo.world0
    = (Done (JSON StatusOK (ValueJSON v)), w')
    /\ DB w' = Some (mkConn (store conn0) rest)
    /\ ((exists r, In r (settings_rows (store conn0) (User.ID demo.bob))
                   /\ v = settings_json r)
        \/ v = empty_settings_json)
    /\ (settings_rows (store conn0) (User.ID demo.bob) = [] ->
        v = empty_settings_json)
    /\ (forall msg rest', faults conn0 = Some msg :: rest' ->
                          v = empty_settings_json).
Proof.
  apply (@GetSettings_hides_lookup_failures demo.bob demo.world0 conn0).
  reflexivity.
Defined.

(** *** One row of settings per user *)

(** Keys are distinct and no two rows belong to the same user. *)
Definition settings_unique (s : Store) : Prop :=
  NoDup (map UserSettings.ID (rows (user_settings s)))
  /\ NoDup (map UserSettings.UserID (rows (user_settings s))).

Lemma not_in_map {A B : Type} (f : A -> B) (l : list A) (b : B) :
  (forall x, In x l -> f x <> b) -> ~ In b (map f l).
Proof.
  intros H Hin. apply in_map_iff in Hin. destruct Hin as [x [Hx Hin]].
  exact (H x Hin Hx).
Qed.

Lemma insert_settings_unique (r : UserSettings.t) (s : Store) :
  settings_unique s -> settings_unique (snd (gorm.insert r s)).
Proof.
  intros [Hid Huid]. unfold gorm.insert.
  cbn [table with_table UserSettings_Model].
  set (r' := if pk r =? 0 then with_pk (gorm.next_pk (user_settings s)) r else r).
  destruct (gorm.has_pk (pk r') (rows (user_settings s))) eqn:Hhas;
    [split; assumption|].
  destruct (existsb (clashes r') (rows (user_settings s))) eqn:Hclash;
    [split; assumption|].
  unfold settings_unique. cbn [snd orb user_settings rows].
  rewrite !map_app. cbn [map]. split; apply NoDup_snoc; auto.
  - apply not_in_map. intros x Hx Heq.
    assert (gorm.has_pk (pk r') (rows (user_settings s)) = true)
      by (apply has_pk_true_iff; now exists x).
    congruence.
  - apply not_in_map. intros x Hx Heq.
    assert (existsb (clashes r') (rows (user_settings s)) = true).
    { apply existsb_exists. exists x. split; [exact Hx|].
      cbn [clashes UserSettings_Model]. apply Z.eqb_eq. now symmetry. }
    congruence.
Qed.

Lemma update_settings_unique (r : UserSettings.t) (s : Store) :
  settings_unique s -> settings_unique (snd (gorm.update r s)).
Proof.
  intros [Hid Huid]. unfold gorm.update.
  cbn [table with_table UserSettings_Model pk clashes].
  match goal with
  | |- context [if ?b then _ else _] => destruct b eqn:Hclash
  end; [split; assumption|].
  unfold settings_unique. cbn [snd user_settings rows].
  assert (Hfree : forall x, In x (rows (user_settings s)) ->
                            UserSettings.ID x <> UserSettings.ID r ->
                            UserSettings.UserID x <> UserSettings.UserID r).
  { intros x Hx Hne Heq.
    assert (existsb
              (fun x0 => negb (UserSettings.ID x0 =? UserSettings.ID r)
                         && (UserSettings.UserID r =? UserSettings.UserID x0))
              (rows (user_settings s)) = true).
    { apply existsb_exists. exists x. split; [exact Hx|].
      apply Z.eqb_neq in Hne. rewrite Hne. cbn. apply Z.eqb_eq. now symmetry. }
    congruence. }
  clear Hclash. revert Hid Huid Hfree.
  induction (rows (user_settings s)) as [|x l IH]; intros Hid Huid Hfree;
    [split; constructor|].
  cbn [map] in *. inversion Hid as [|? ? Hx1 Hl1]; subst.
  inversion Huid as [|? ? Hx2 Hl2]; subst.
  destruct (IH Hl1 Hl2) as [IH1 IH2].
  { intros y Hy. apply Hfree. now right. }
  split; constructor; auto.
  - intros Hin. apply Hx1. rewrite map_map in Hin.
    apply in_map_iff in Hin. destruct Hin as [y [Hy Hin]].
    apply in_map_iff. exists y. split; [|exact Hin]. revert Hy.
    destruct (Z.eqb_spec (UserSettings.ID x) (UserSettings.ID r)) as [Hxr|Hxr];
      destruct (Z.eqb_spec (UserSettings.ID y) (UserSettings.ID r)) as [Hyr|Hyr];
      intros Hy; congruence.
  - intros Hin. rewrite map_map in Hin.
    apply in_map_iff in Hin. destruct Hin as [y [Hy Hin]].
    assert (Hxy : UserSettings.ID y <> UserSettings.ID x).
    { intros Heq. apply Hx1. apply in_map_iff. now exists y. }
    assert (Hxy2 : UserSettings.UserID y <> UserSettings.UserID x).
    { intros Heq. apply Hx2. apply in_map_iff. now exists y. }
    revert Hy.
    destruct (Z.eqb_spec (UserSettings.ID x) (UserSettings.ID r)) as [Hxr|Hxr];
      destruct (Z.eqb_spec (UserSettings.ID y) (UserSettings.ID r)) as [Hyr|Hyr];
      intros Hy; try congruence.
    + apply (Hfree y); [now right | exact Hyr | exact Hy].
    + apply (Hfree x); [now left | exact Hxr | now symmetry].
Qed.

Lemma settings_write_spares (f : Store -> (DbError + UserSettings.t) * Store)
  (r : UserSettings.t) (s : Store) :
  f = gorm.insert r \/ f = gorm.update r ->
  users (snd (f s)) = users s
  /\ automation_tasks (snd (f s)) = automation_tasks s.
Proof.
  intros [->| ->]; unfold gorm.insert, gorm.update;
    match goal with |- context [if ?b then _ else _] => destruct b end;
    split; reflexivity.
Qed.

(** X8. [UpdateSettings] keeps one row of settings per user. Whatever
    the request, and whatever faults the driver reports (the handler
    goes on to create a row whenever its lookup fails, for any reason),
    a table in which keys are distinct and no two rows belong to the
    same user is again such a table afterwards; the users and the tasks
    are not touched; and unless the answer is 200 the settings are as
    they were. *)
Theorem UpdateSettings_keeps_one_row_per_user (user : option CtxValue)
  (body : RawBody SettingsRequest) (w : World) (c : Conn) :
  DB w = Some c ->
  settings_unique (store c) ->
  exists c',
    DB (snd (automation.UpdateSettings user body w)) = Some c'
    /\ settings_unique (store c')
    /\ users (store c') = users (store c)
    /\ automation_tasks (store c') = automation_tasks (store c)
    /\ (forall resp,
          fst (automation.UpdateSettings user body w) = Done resp ->
          code resp <> StatusOK -> store c' = store c)
    /\ (forall v,
          fst (automation.UpdateSettings user body w) = Panicked v ->
          store c' = store c).
Proof.
  intros Hdb Huniq.
  enough (Hgen : forall o w',
             automation.UpdateSettings user body w = (o, w') ->
             exists c',
               DB w' = Some c'
               /\ settings_unique (store c')
               /\ users (store c') = users (store c)
               /\ automation_tasks (store c') = automation_tasks (store c)
               /\ (forall resp, o = Done resp -> code resp <> StatusOK ->
                                store c' = store c)
               /\ (forall v, o = Panicked v -> store c' = store c)).
  { destruct (automation.UpdateSettings user body w) as [o w'] eqn:Hrun.
    exact (Hgen o w' eq_refl). }
  intros o w'. unfold automation.UpdateSettings.
  destruct (automation.ShouldBindJSON_SettingsRequest body) as [err|req].
  { intros [= <- <-]. exists c. repeat split; auto; apply Huniq. }
  destruct user as [[u|]|];
    try (intros [= <- <-]; exists c; repeat split; auto; apply Huniq).
  unfold bind at 1. unfold gorm.First.
  db_step Hdb r1 s1 rest1 Hc1 Hr1. clear Hr1.
  assert (Hs1 : s1 = store c).
  { destruct Hc1 as [[_ ->]|Hf]; [reflexivity|]. simpl in Hf.
    match type of Hf with
    | context [match ?x with _ => _ end] => destruct x
    end; now injection Hf. }
  subst s1. clear Hc1.
  destruct r1 as [err|settings].
  - unfold bind, time_Now, gorm.Create.
    db_step (eq_refl (Some (mkConn (store c) rest1))) r2 s2 rest2 Hc2 Hr2.
    clear Hr2. cbn [store] in Hc2.
    destruct Hc2 as [[[msg ->] ->]|Hins].
    + intros [= <- <-]. eexists. cbn. repeat split; auto; apply Huniq.
    + match type of Hins with
      | _ = gorm.insert ?r _ =>
          pose proof (@insert_settings_unique r (store c) Huniq) as Hu;
          destruct (@settings_write_spares (gorm.insert r) r (store c)
                      (or_introl eq_refl)) as [Husers Htasks]
      end.
      rewrite <- Hins in Hu, Husers, Htasks. cbn [snd] in Hu, Husers, Htasks.
      destruct r2 as [err2|created]; intros [= <- <-]; eexists; cbn;
        (split; [reflexivity|]); (split; [exact Hu|]);
        (split; [exact Husers|]); (split; [exact Htasks|]);
        split; try discriminate.
      * intros resp _ _. unfold gorm.insert in Hins.
        match type of Hins with
        | context [if ?b then _ else _] => destruct b
        end; [now injection Hins | discriminate].
      * intros resp [= <-] Hne. now contradiction Hne.
  - unfold bind, time_Now, gorm.Save.
    db_step (eq_refl (Some (mkConn (store c) rest1))) r2 s2 rest2 Hc2 Hr2.
    clear Hr2. cbn [store] in Hc2.
    destruct Hc2 as [[[msg ->] ->]|Hsave].
    + intros [= <- <-]. eexists. cbn. repeat split; auto; apply Huniq.
    + assert (Hwrite : exists f r,
                 (f = gorm.insert r \/ f = gorm.update r)
                 /\ (r2, s2) = f (store c)).
      { destruct (pk _ =? 0); [eauto|].
        destruct (gorm.has_pk _ _); eauto. }
      destruct Hwrite as [f [r [Hf Heq]]]. clear Hsave.
      assert (Hu : settings_unique s2).
      { replace s2 with (snd (f (store c))) by (now rewrite <- Heq).
        destruct Hf as [->| ->];
          [now apply insert_settings_unique | now apply update_settings_unique]. }
      destruct (@settings_write_spares f r (store c) Hf) as [Husers Htasks].
      rewrite <- Heq in Husers, Htasks. cbn [snd] in Husers, Htasks.
      destruct r2 as [err2|saved]; intros [= <- <-]; eexists; cbn;
        (split; [reflexivity|]); (split; [exact Hu|]);
        (split; [exact Husers|]); (split; [exact Htasks|]);
        split; try discriminate.
      * intros resp _ _.
        destruct Hf as [->| ->]; unfold gorm.insert, gorm.update in Heq;
          match type of Heq with
          | context [if ?b then _ else _] => destruct b
          end; try discriminate; now injection Heq.
      * intros resp [= <-] Hne. now contradiction Hne.
Qed.

Lemma UpdateSettings_keeps_one_row_per_user_witness :
  exists c',
    DB (snd (automation.UpdateSettings (Some (CtxUser demo.alice))
               (Decoded new_settings) demo.world0)) = Some c'
    /\ settings_unique (store c').
Proof.
  destruct (@UpdateSettings_keeps_one_row_per_user (Some (CtxUser demo.alice))
              (Decoded new_settings) demo.world0 conn0 eq_refl)
    as [c' [Hdb [Hu _]]].
  - split; repeat constructor; simpl; tauto.
  - now exists c'.
Defined.

(** ** What [CreateTask] starts *)

(** X9. [CreateTask] answers 201 exactly when it has stored a row and
    started a goroutine, whatever the driver does. On a 201 the new row
    is the last of the table, belongs to the caller and records the
    name and the target website of the request; the goroutine gets the
    request and a client built from the stored settings row of the
    caller: its panel URL, API key and auth user. The target website of
    the request is only recorded, it is not where the task connects.
    On any other answer the tables and the goroutines are as they
    were. *)
Theorem CreateTask_starts_what_it_stores (user : option CtxValue)
  (body : RawBody TaskRequest) (w : World) (c : Conn) :
  DB w = Some c ->
  exists resp w' c',
    automation.CreateTask user body w = (Done resp, w')
    /\ DB w' = Some c'
    /\ ((code resp <> StatusCreated
         /\ store c' = store c /\ goroutines w' = goroutines w)
        \/ exists u req settings task,
             user = Some (CtxUser u) /\ body = Decoded req
             /\ resp = JSON StatusCreated (TaskJSON task)
             /\ In settings (rows (user_settings (store c)))
             /\ UserSettings.UserID settings = User.ID u
             /\ AutomationTask.UserID task = User.ID u
             /\ AutomationTask.Name task = req_Name req
             /\ AutomationTask.TargetWebsite task = req_TargetWebsite req
             /\ rows (automation_tasks (store c'))
                = (rows (automation_tasks (store c)) ++ [task])%list
             /\ users (store c') = users (store c)
             /\ user_settings (store c') = user_settings (store c)
             /\ goroutines w'
                = (goroutines w
                   ++ [mkGoroutine (AutomationTask.ID task) req
                         (mkAPIClient (UserSettings.WebsiteURL settings)
                                      (UserSettings.APIKey settings)
                                      (UserSettings.AuthUser settings))])%list).
Proof.
  intros Hdb. unfold automation.CreateTask.
  destruct user as [user|].
  2:{ exists (JSON StatusUnauthorized (ErrorJSON "User not authenticated")), w, c.
      repeat split; auto. left. repeat split. discriminate. }
  destruct (automation.ShouldBindJSON_TaskRequest body) as [err|req] eqn:Hb.
  { do 2 eexists. exists c. split; [reflexivity|]. split; [exact Hdb|].
    left. repeat split. discriminate. }
  assert (Hbody : body = Decoded req).
  { unfold automation.ShouldBindJSON_TaskRequest in Hb.
    destruct body as [e|req']; [discriminate|].
    destruct (validate_required _ _); [discriminate|]. now injection Hb as ->. }
  destruct user as [u|].
  2:{ do 2 eexists. exists c. split; [reflexivity|]. split; [exact Hdb|].
      left. repeat split. discriminate. }
  unfold bind at 1. rewrite (db_First _ w Hdb). unfold first_match.
  cbn [table UserSettings_Model].
  destruct (faults c) as [|[msg|] rest] eqn:Hf; cbn [answer tl].
  2:{ do 3 eexists. split; [reflexivity|]. split; [reflexivity|].
      left. repeat split. discriminate. }
  all: destruct (gorm.least _) as [settings|] eqn:Hl.
  all: try (do 3 eexists; split; [reflexivity|]; split; [reflexivity|];
            left; repeat split; discriminate).
  all: apply least_In in Hl; apply filter_In in Hl; destruct Hl as [Hin Huid];
    apply Z.eqb_eq in Huid.
  all: unfold bind, time_Now, gorm.Create; cbn [clock with_DB].
  all: match goal with
       | |- context [db (gorm.statement ?f) ?w1] =>
           destruct (@db_statement_spec _ f w1 _ eq_refl)
             as [r2 [s2 [rest2 [Hrun [Hc2 _]]]]]; rewrite Hrun; clear Hrun
       end.
  all: cbn [store] in Hc2; rewrite insert_task_fresh in Hc2 by reflexivity.
  all: destruct Hc2 as [[[msg ->] ->]|Hins];
    [ do 3 eexists; split; [reflexivity|]; split; [reflexivity|];
      left; repeat split; discriminate
    | injection Hins as -> -> ].
  all: unfold go, ret; cbn.
  all: do 3 eexists; split; [reflexivity|]; split; [reflexivity|]; right.
  all: exists u, req, settings; eexists.
  all: repeat split; try reflexivity; try assumption.
Qed.

Lemma CreateTask_starts_what_it_stores_witness :
  exists resp w' c',
    automation.CreateTask (Some (CtxUser demo.alice)) (Decoded create_request)
                          demo.world0 = (Done resp, w')
    /\ DB w' = Some c'
    /\ code resp = StatusCreated
    /\ map g_client (goroutines w') = [test_client].
Proof.
  destruct (@CreateTask_starts_what_it_stores (Some (CtxUser demo.alice))
              (Decoded create_request) demo.world0 conn0 eq_refl)
    as [resp [w' [c' [Hrun [Hdb _]]]]].
  exists resp, w', c'. split; [exact Hrun|]. split; [exact Hdb|].
  injection Hrun as <- <-. split; reflexivity.
Defined.

(** The text the validator reports for a request without a target
    website, alone or after the line for a missing name. *)
Lemma missing_target_website_message (req : TaskRequest) :
  req_TargetWebsite req = "" ->
  exists err,
    automation.ShouldBindJSON_TaskRequest (Decoded req) = inl err
    /\ strings.Contains err "TargetWebsite" = true
    /\ strings.Contains err "required" = true.
Proof.
  intros Ht. unfold automation.ShouldBindJSON_TaskRequest, validate_required.
  cbn [filter snd]. rewrite Ht.
  destruct (String.eqb (req_Name req) ""); cbn;
    eexists; (split; [reflexivity|]); split; reflexivity.
Qed.

(** X10. A task request without a target website (which is what the
    frontend sends when the user has no panel URL in the settings) is
    answered 400 with the text that asks to configure the panel URL,
    whatever else the request holds; a request with a target website
    but no name is answered 400 "Invalid request format". Neither
    reads or writes the database, and neither starts a goroutine. *)
Theorem CreateTask_without_panel_url (u : User.t) (req : TaskRequest)
  (w : World) :
  (req_TargetWebsite req = "" ->
   automation.CreateTask (Some (CtxUser u)) (Decoded req) w
   = (Done (JSON StatusBadRequest
              (ErrorJSON "Panel URL is not configured. Please go to Settings and configure your Panel URL first.")),
      w))
  /\ (req_TargetWebsite req <> "" -> req_Name req = "" ->
      automation.CreateTask (Some (CtxUser u)) (Decoded req) w
      = (Done (JSON StatusBadRequest (ErrorJSON "Invalid request format")), w)).
Proof.
  split.
  - intros Ht. destruct (missing_target_website_message req Ht)
      as [err [Hb [H1 H2]]].
    unfold automation.CreateTask. now rewrite Hb, H1, H2.
  - intros Ht Hn. unfold automation.CreateTask,
      automation.ShouldBindJSON_TaskRequest, validate_required.
    cbn [filter snd]. rewrite Hn. apply String.eqb_neq in Ht. rewrite Ht.
    reflexivity.
Qed.

Lemma CreateTask_without_panel_url_witness :
  automation.CreateTask (Some (CtxUser demo.alice))
    (Decoded (mkTaskRequest "" "" "carol" "" 101)) demo.world0
  = (Done (JSON StatusBadRequest
             (ErrorJSON "Panel URL is not configured. Please go to Settings and configure your Panel URL first.")),
     demo.world0)
  /\ automation.CreateTask (Some (CtxUser demo.alice))
       (Decoded (mkTaskRequest "" "https://panel.example" "carol" "" 101))
       demo.world0
     = (Done (JSON StatusBadRequest (ErrorJSON "Invalid request format")),
        demo.world0).
Proof.
  split.
  - apply (@CreateTask_without_panel_url demo.alice
             (mkTaskRequest "" "" "carol" "" 101) demo.world0). reflexivity.
  - apply (@CreateTask_without_panel_url demo.alice
             (mkTaskRequest "" "https://panel.example" "carol" "" 101)
             demo.world0); [discriminate | reflexivity].
Defined.

(** ** Logging in *)

(** The next statement is not scheduled to fail. *)
Definition next_runs (c : Conn) : Prop :=
  match faults c with
  | Some _ :: _ => False
  | _ => True
  end.

Lemma reliable_next_runs (c : Conn) : reliable c -> next_runs c.
Proof.
  unfold reliable, next_runs. intros Hr.
  destruct (faults c) as [|[msg|] rest]; auto. inversion Hr; discriminate.
Qed.

Lemma answer_next_runs {A : Type} (c : Conn) (v : DbError + A) :
  next_runs c -> answer (faults c) v = v.
Proof.
  unfold next_runs, answer. now destruct (faults c) as [|[msg|] rest].
Qed.

(** The answer to a login that [AuthenticateUser] lets through. *)
Definition token_response (E : Env) (username : string) (now : Time)
  : Response :=
  match jwt_SignedString E username now with
  | inr token => JSON StatusOK (TokenJSON token "bearer" username)
  | inl _ => JSON StatusInternalServerError (ErrorJSON "Failed to create token")
  end.

(** The row [Login] saves. *)
Definition logged_in (now : Time) (u : User.t) : User.t :=
  User.mk (User.ID u) (User.Username u) (User.HashedPassword u)
          (User.IsActive u) (User.IsAdmin u) (User.CreatedAt u) now (Some now).

Lemma Login_accepts (E : Env) (req : auth.LoginRequest) (w : World) (c : Conn)
  (u : User.t) :
  DB w = Some c -> next_runs c -> binds req = true ->
  stored_user c (auth.Username req) = Some u ->
  bcrypt_matches E (User.HashedPassword u) (auth.Password req) = true ->
  User.IsActive u = true ->
  exists s' rest,
    auth.Login E (Decoded req) w
    = (Done (token_response E (User.Username u) (clock w)),
       with_DB (Some (mkConn s' rest)) w)
    /\ user_settings s' = user_settings (store c)
    /\ automation_tasks s' = automation_tasks (store c)
    /\ (s' = store c
        \/ (User.ID u <> 0
            /\ users s'
               = mkTable (map (fun x => if User.ID x =? User.ID u
                                        then logged_in (clock w) u else x)
                              (rows (users (store c))))
                         (seq (users (store c))))).
Proof.
  intros Hdb Hnext Hb Hu Hm Ha. pose proof (ShouldBindJSON_binds req) as Hs.
  rewrite Hb in Hs. unfold auth.Login. rewrite Hs.
  unfold bind at 1. unfold utils.AuthenticateUser, bind at 1.
  rewrite (db_First _ w Hdb), (@answer_next_runs _ c _ Hnext).
  unfold first_match. cbn [table User_Model].
  fold (stored_user c (auth.Username req)). rewrite Hu.
  unfold utils.CheckPasswordHash. rewrite Hm, Ha. cbn [negb]. unfold ret at 1.
  rewrite Ha. cbn [negb].
  unfold bind, time_Now, gorm.Save. cbn [clock with_DB].
  match goal with
  | |- context [db (gorm.statement ?f) ?w1] =>
      destruct (@db_statement_spec _ f w1 _ eq_refl)
        as [r2 [s2 [rest2 [Hrun [Hc2 _]]]]]; rewrite Hrun; clear Hrun
  end.
  unfold utils.CreateAccessToken, bind, time_Now, ret, token_response.
  cbn [clock with_DB User.Username auth.set_LastLoginAt].
  exists s2, rest2. split.
  { destruct (jwt_SignedString E (User.Username u) (clock w)); reflexivity. }
  cbn [store pk table User_Model auth.set_LastLoginAt User.ID] in Hc2.
  destruct Hc2 as [[_ ->]|Hsave]; [auto|].
  assert (Huin : In u (rows (users (store c)))).
  { unfold stored_user in Hu. apply least_In in Hu. apply filter_In in Hu.
    tauto. }
  destruct (User.ID u =? 0) eqn:Hz.
  - (* a zero key: the insert clashes with the stored row itself *)
    unfold gorm.insert in Hsave.
    cbn [pk with_pk clashes table User_Model auth.set_LastLoginAt User.ID
         User.Username] in Hsave.
    rewrite Hz in Hsave.
    cbn [pk with_pk clashes table User_Model User.ID User.Username] in Hsave.
    assert (Hclash : existsb
              (fun b => String.eqb (User.Username u) (User.Username b))
              (rows (users (store c))) = true).
    { apply existsb_exists. exists u. split; [exact Huin | apply String.eqb_refl]. }
    rewrite Hclash, orb_true_r in Hsave. injection Hsave as -> ->. auto.
  - assert (Hhas : gorm.has_pk (User.ID u) (rows (users (store c))) = true).
    { apply has_pk_true_iff. now exists u. }
    rewrite Hhas in Hsave. unfold gorm.update in Hsave.
    match type of Hsave with
    | context [if ?b then _ else _] => destruct b eqn:Hclash
    end; injection Hsave as -> ->; auto.
    split; [reflexivity|]. split; [reflexivity|]. right.
    split; [now apply Z.eqb_neq | reflexivity].
Qed.

Definition bcrypt_consistent (E : Env) : Prop :=
  forall password hash,
    bcrypt_GenerateFromPassword E password = inr hash ->
    bcrypt_matches E hash password = true.

(** X11. A login with the right password of an active user is answered
    200 with a bearer token for that username whenever the lookup
    itself is not failed by the driver and the token can be signed. The
    handler then stamps the row with the time of the login (last login
    and updated-at); if that write fails, for a driver fault or a
    uniqueness clash, the login succeeds all the same and the store is
    as it was. No login touches the settings or the tasks. *)
Theorem Login_succeeds (E : Env) (req : auth.LoginRequest) (w : World)
  (c : Conn) (u : User.t) (token : string) :
  DB w = Some c -> next_runs c ->
  auth.Username req <> "" -> auth.Password req <> "" ->
  stored_user c (auth.Username req) = Some u ->
  bcrypt_matches E (User.HashedPassword u) (auth.Password req) = true ->
  User.IsActive u = true ->
  jwt_SignedString E (auth.Username req) (clock w) = inr token ->
  exists w' c',
    auth.Login E (Decoded req) w
    = (Done (JSON StatusOK (TokenJSON token "bearer" (auth.Username req))), w')
    /\ DB w' = Some c'
    /\ user_settings (store c') = user_settings (store c)
    /\ automation_tasks (store c') = automation_tasks (store c)
    /\ (store c' = store c
        \/ forall x, In x (rows (users (store c'))) ->
             (User.ID x = User.ID u
              /\ User.LastLoginAt x = Some (clock w)
              /\ User.UpdatedAt x = clock w
              /\ User.Username x = User.Username u
              /\ User.HashedPassword x = User.HashedPassword u)
             \/ (User.ID x <> User.ID u /\ In x (rows (users (store c))))).
Proof.
  intros Hdb Hnext Hn Hp Hu Hm Ha Htok.
  assert (Hb : binds req = true).
  { unfold binds. apply String.eqb_neq in Hn, Hp. now rewrite Hn, Hp. }
  assert (Hname : User.Username u = auth.Username req).
  { unfold stored_user in Hu. apply least_In in Hu. apply filter_In in Hu.
    destruct Hu as [_ Hu]. now apply String.eqb_eq. }
  destruct (@Login_accepts E req w c u Hdb Hnext Hb Hu Hm Ha)
    as [s' [rest [Hrun [Hset [Htasks Husers]]]]].
  unfold token_response in Hrun. rewrite Hname, Htok in Hrun.
  exists (with_DB (Some (mkConn s' rest)) w), (mkConn s' rest).
  split; [exact Hrun|]. cbn [DB with_DB store].
  split; [reflexivity|]. split; [exact Hset|]. split; [exact Htasks|].
  destruct Husers as [->|[Hnz Hrows]]; [now left|]. right.
  intros x Hx. rewrite Hrows in Hx. cbn [rows] in Hx.
  apply in_map_iff in Hx. destruct Hx as [y [Hy Hin]].
  destruct (Z.eqb_spec (User.ID y) (User.ID u)) as [He|Hne].
  - left. subst x. cbn. auto.
  - right. subst x. auto.
Qed.

Lemma Login_succeeds_witness :
  exists w' c',
    auth.Login demo.env (Decoded (auth.mkLoginRequest "alice" "wonderland"))
               demo.world0
    = (Done (JSON StatusOK (TokenJSON "jwt.alice" "bearer" "alice")), w')
    /\ DB w' = Some c'
    /\ user_settings (store c') = user_settings (store conn0)
    /\ automation_tasks (store c') = automation_tasks (store conn0)
    /\ (store c' = store conn0
        \/ forall x, In x (rows (users (store c'))) ->
             (User.ID x = User.ID demo.alice
              /\ User.LastLoginAt x = Some (clock demo.world0)
              /\ User.UpdatedAt x = clock demo.world0
              /\ User.Username x = User.Username demo.alice
              /\ User.HashedPassword x = User.HashedPassword demo.alice)
             \/ (User.ID x <> User.ID demo.alice
                 /\ In x (rows (users (store conn0))))).
Proof.
  apply (@Login_succeeds demo.env (auth.mkLoginRequest "alice" "wonderland")
           demo.world0 conn0 demo.alice "jwt.alice").
  - reflexivity.
  - exact I.
  - discriminate.
  - discriminate.
  - reflexivity.
  - reflexivity.
  - reflexivity.
  - reflexivity.
Defined.

(** ** Managing users *)

(** Keys are distinct and no two users share a name. *)
Definition users_unique (s : Store) : Prop :=
  NoDup (map User.ID (rows (users s)))
  /\ NoDup (map User.Username (rows (users s))).

Lemma insert_users_unique (r : User.t) (s : Store) :
  users_unique s -> users_unique (snd (gorm.insert r s)).
Proof.
  intros [Hid Hname]. unfold gorm.insert.
  cbn [table with_table User_Model].
  set (r' := if pk r =? 0 then with_pk (gorm.next_pk (users s)) r else r).
  destruct (gorm.has_pk (pk r') (rows (users s))) eqn:Hhas;
    [split; assumption|].
  destruct (existsb (clashes r') (rows (users s))) eqn:Hclash;
    [split; assumption|].
  unfold users_unique. cbn [snd orb users rows].
  rewrite !map_app. cbn [map]. split; apply NoDup_snoc; auto.
  - apply not_in_map. intros x Hx Heq.
    assert (gorm.has_pk (pk r') (rows (users s)) = true)
      by (apply has_pk_true_iff; now exists x).
    congruence.
  - apply not_in_map. intros x Hx Heq.
    assert (existsb (clashes r') (rows (users s)) = true).
    { apply existsb_exists. exists x. split; [exact Hx|].
      cbn [clashes User_Model]. apply String.eqb_eq. now symmetry. }
    congruence.
Qed.

Lemma CreateUserRequest_binds (body : RawBody auth.CreateUserRequest)
  (req : auth.CreateUserRequest) :
  auth.ShouldBindJSON_CreateUserRequest body = inr req ->
  body = Decoded req /\ auth.cu_Username req <> "" /\ auth.cu_Password req <> "".
Proof.
  unfold auth.ShouldBindJSON_CreateUserRequest, validate_required.
  destruct body as [err|req']; [discriminate|]. cbn [filter snd].
  destruct (String.eqb (auth.cu_Username req') "") eqn:Hn;
    destruct (String.eqb (auth.cu_Password req') "") eqn:Hp;
    try discriminate.
  intros [= ->]. apply String.eqb_neq in Hn, Hp. auto.
Qed.

(** What [CreateUser] does to the store, under any fault schedule. *)
Lemma CreateUser_effect (E : Env) (body : RawBody auth.CreateUserRequest)
  (w : World) (c : Conn) :
  DB w = Some c ->
  exists resp s' rest,
    auth.CreateUser E body w
    = (Done resp, with_DB (Some (mkConn s' rest)) w)
    /\ (reliable c -> reliable (mkConn s' rest))
    /\ ((code resp <> StatusCreated /\ s' = store c)
        \/ exists req hash,
             body = Decoded req
             /\ auth.cu_Username req <> "" /\ auth.cu_Password req <> ""
             /\ utils.HashPassword E (auth.cu_Password req) = inr hash
             /\ (inr (A := DbError)
                   (with_pk (gorm.next_pk (users (store c)))
                      (User.mk 0 (auth.cu_Username req) hash true
                               (auth.cu_IsAdmin req) (clock w) (clock w) None)),
                 s')
                = gorm.insert (User.mk 0 (auth.cu_Username req) hash true
                                 (auth.cu_IsAdmin req) (clock w) (clock w) None)
                              (store c)
             /\ resp = JSON StatusCreated
                         (ValueJSON
                            (JObject
                               [("id", JInt (gorm.next_pk (users (store c))));
                                ("is_admin", JBool (auth.cu_IsAdmin req));
                                ("message", JString "User created successfully");
                                ("username", JString (auth.cu_Username req))]))).
Proof.
  intros Hdb. unfold auth.CreateUser.
  destruct (auth.ShouldBindJSON_CreateUserRequest body) as [err|req] eqn:Hb.
  { exists (JSON StatusBadRequest (ErrorJSON err)), (store c), (faults c).
    split; [|split; [|left; split; [discriminate|reflexivity]]].
    - destruct w, c. simpl in *. now rewrite Hdb.
    - now destruct c. }
  apply CreateUserRequest_binds in Hb. destruct Hb as [-> [Hn Hp]].
  unfold bind at 1. unfold gorm.First.
  db_step Hdb r1 s1 rest1 Hc1 Hr1.
  assert (Hs1 : s1 = store c).
  { destruct Hc1 as [[_ ->]|Hf]; [reflexivity|]. simpl in Hf.
    match type of Hf with
    | context [match ?x with _ => _ end] => destruct x
    end; now injection Hf. }
  subst s1.
  assert (Hrel1 : reliable c -> reliable (mkConn (store c) rest1))
    by (intros Hrel; now apply Hr1).
  clear Hc1 Hr1.
  destruct r1 as [[|msg]|existing];
    try (do 3 eexists; split; [reflexivity|]; split; [exact Hrel1|];
         left; split; [discriminate|reflexivity]).
  destruct (utils.HashPassword E (auth.cu_Password req)) as [err|hash] eqn:Hh.
  { do 3 eexists. split; [reflexivity|]. split; [exact Hrel1|].
    left. split; [discriminate|reflexivity]. }
  unfold bind, time_Now, gorm.Create. cbn [clock with_DB].
  db_step (eq_refl (Some (mkConn (store c) rest1))) r2 s2 rest2 Hc2 Hr2.
  assert (Hrel2 : reliable c -> reliable (mkConn s2 rest2))
    by (intros Hrel; now apply Hr2, Hrel1).
  clear Hr2. cbn [store] in Hc2.
  destruct Hc2 as [[[msg ->] ->]|Hins].
  { do 3 eexists. split; [reflexivity|]. split; [exact Hrel2|].
    left. split; [discriminate|reflexivity]. }
  destruct r2 as [err|created].
  { do 3 eexists. split; [reflexivity|]. split; [exact Hrel2|].
    left. split; [discriminate|].
    unfold gorm.insert in Hins.
    match type of Hins with
    | context [if ?b then _ else _] => destruct b
    end; [now injection Hins | discriminate]. }
  assert (Hcreated : created
                     = with_pk (gorm.next_pk (users (store c)))
                         (User.mk 0 (auth.cu_Username req) hash true
                            (auth.cu_IsAdmin req) (clock w) (clock w) None)).
  { unfold gorm.insert in Hins.
    match type of Hins with
    | context [if ?b then _ else _] => destruct b
    end; [discriminate | now injection Hins]. }
  subst created.
  do 3 eexists. split; [reflexivity|]. split; [exact Hrel2|]. right.
  exists req, hash. repeat split; auto.
Qed.

Lemma CreateUser_duplicate (E : Env) (req : auth.CreateUserRequest)
  (w : World) (c : Conn) (x : User.t) :
  DB w = Some c -> next_runs c ->
  auth.cu_Username req <> "" -> auth.cu_Password req <> "" ->
  In x (rows (users (store c))) -> User.Username x = auth.cu_Username req ->
  fst (auth.CreateUser E (Decoded req) w)
  = Done (JSON StatusBadRequest (ErrorJSON "Username already registered")).
Proof.
  intros Hdb Hnext Hn Hp Hx Hname.
  unfold auth.CreateUser, auth.ShouldBindJSON_CreateUserRequest,
    validate_required.
  cbn [filter snd]. apply String.eqb_neq in Hn, Hp. rewrite Hn, Hp.
  unfold bind. rewrite (db_First _ w Hdb), (@answer_next_runs _ c _ Hnext).
  unfold first_match. cbn [table User_Model].
  destruct (gorm.least _) as [existing|] eqn:Hl; [reflexivity|].
  exfalso. apply least_nil_iff in Hl.
  apply (filter_nonempty
           (fun u => String.eqb (User.Username u) (auth.cu_Username req))
           _ x Hx); [now apply String.eqb_eq | exact Hl].
Qed.

(** X12. [CreateUser] keeps user names unique, whatever the request and
    whatever the driver does: a table of users with distinct keys and
    distinct names is again one afterwards, and unless the answer is
    201 the store is as it was. When the lookup is not failed by the
    driver, a request with a name and a password for a name that is
    taken is answered 400 "Username already registered". Neither case
    touches the settings or the tasks. *)
Theorem CreateUser_keeps_names_unique (E : Env)
  (body : RawBody auth.CreateUserRequest) (w : World) (c : Conn) :
  DB w = Some c ->
  users_unique (store c) ->
  exists resp w' c',
    auth.CreateUser E body w = (Done resp, w')
    /\ DB w' = Some c'
    /\ users_unique (store c')
    /\ user_settings (store c') = user_settings (store c)
    /\ automation_tasks (store c') = automation_tasks (store c)
    /\ (code resp <> StatusCreated -> store c' = store c)
    /\ (next_runs c ->
        forall req, body = Decoded req ->
          auth.cu_Username req <> "" -> auth.cu_Password req <> "" ->
          (exists x, In x (rows (users (store c)))
                     /\ User.Username x = auth.cu_Username req) ->
          resp = JSON StatusBadRequest (ErrorJSON "Username already registered")).
Proof.
  intros Hdb Huniq.
  destruct (@CreateUser_effect E body w c Hdb)
    as [resp [s' [rest [Hrun [_ Heff]]]]].
  exists resp, (with_DB (Some (mkConn s' rest)) w), (mkConn s' rest).
  split; [exact Hrun|]. split; [reflexivity|]. cbn [store].
  assert (Hstore : users_unique s'
                   /\ user_settings s' = user_settings (store c)
                   /\ automation_tasks s' = automation_tasks (store c)
                   /\ (code resp <> StatusCreated -> s' = store c)).
  { destruct Heff as [[Hcode ->]|[req [hash [_ [_ [_ [_ [Hins Hresp]]]]]]]];
      [repeat split; auto; apply Huniq|].
    replace s' with (snd (gorm.insert
                            (User.mk 0 (auth.cu_Username req) hash true
                               (auth.cu_IsAdmin req) (clock w) (clock w) None)
                            (store c)))
      by (now rewrite <- Hins).
    split; [now apply insert_users_unique|].
    unfold gorm.insert.
    match goal with |- context [if ?b then _ else _] => destruct b end;
      repeat split; subst resp; intros Hne; now contradiction Hne. }
  destruct Hstore as [H1 [H2 [H3 H4]]].
  split; [exact H1|]. split; [exact H2|]. split; [exact H3|].
  split; [exact H4|].
  intros Hnext req -> Hn Hp [x [Hx Hname]].
  pose proof (@CreateUser_duplicate E req w c x Hdb Hnext Hn Hp Hx Hname) as Hd.
  rewrite Hrun in Hd. now injection Hd.
Qed.

Lemma CreateUser_keeps_names_unique_witness :
  exists resp w' c',
    auth.CreateUser demo.env
      (Decoded (auth.mkCreateUserRequest "alice" "rabbit-hole" true))
      demo.world0 = (Done resp, w')
    /\ DB w' = Some c'
    /\ users_unique (store c')
    /\ resp = JSON StatusBadRequest (ErrorJSON "Username already registered").
Proof.
  destruct (@CreateUser_keeps_names_unique demo.env
              (Decoded (auth.mkCreateUserRequest "alice" "rabbit-hole" true))
              demo.world0 conn0 eq_refl)
    as [resp [w' [c' [Hrun [Hdb [Hu [_ [_ [_ Hdup]]]]]]]]].
  - split; repeat constructor; simpl; intuition discriminate.
  - exists resp, w', c'. repeat split; auto; try apply Hu.
    apply (Hdup I (auth.mkCreateUserRequest "alice" "rabbit-hole" true) eq_refl);
      try discriminate.
    exists demo.alice. split; [now left | reflexivity].
Defined.

(** The one row of the name [name], when the table holds exactly one. *)
Lemma stored_user_unique (c : Conn) (name : string) (u : User.t) :
  In u (rows (users (store c))) -> User.Username u = name ->
  (forall x, In x (rows (users (store c))) -> User.Username x = name -> x = u) ->
  stored_user c name = Some u.
Proof.
  intros Hin Hname Hall. unfold stored_user. apply least_unique.
  - apply filter_In. split; [exact Hin | now apply String.eqb_eq].
  - intros y Hy. apply filter_In in Hy. destruct Hy as [Hy Hn].
    apply Hall; [exact Hy | now apply String.eqb_eq].
Qed.

(** X13. A user an administrator has created can log in at once. When
    [CreateUser] answers 201 (on a database that answers, and with a
    bcrypt that accepts the hashes it generates), the new account is
    active, and a login with the very username and password of the
    request is answered 200 with a token for that username, provided
    the token can be signed. *)
Theorem created_user_can_log_in (E : Env)
  (body : RawBody auth.CreateUserRequest) (w w1 : World) (c : Conn)
  (resp : Response) :
  DB w = Some c -> reliable c -> bcrypt_consistent E ->
  auth.CreateUser E body w = (Done resp, w1) ->
  code resp = StatusCreated ->
  exists req,
    body = Decoded req
    /\ forall token,
         jwt_SignedString E (auth.cu_Username req) (clock w1) = inr token ->
         fst (auth.Login E (Decoded (auth.mkLoginRequest (auth.cu_Username req)
                                                         (auth.cu_Password req)))
                w1)
         = Done (JSON StatusOK
                   (TokenJSON token "bearer" (auth.cu_Username req))).
Proof.
  intros Hdb Hrel Hbcrypt Hrun Hcode.
  destruct (@CreateUser_effect E body w c Hdb)
    as [resp' [s' [rest [Hrun' [Hrel' Heff]]]]].
  rewrite Hrun in Hrun'. injection Hrun' as <- ->.
  destruct Heff as [[Hne _]|[req [hash [-> [Hn [Hp [Hh [Hins _]]]]]]]];
    [contradiction|].
  exists req. split; [reflexivity|]. intros token Htok.
  unfold gorm.insert in Hins.
  cbn [pk with_pk clashes table with_table User_Model User.ID User.Username]
    in Hins.
  rewrite Z.eqb_refl in Hins.
  cbn [pk with_pk clashes table with_table User_Model User.ID User.Username]
    in Hins.
  match type of Hins with
  | context [if ?b then _ else _] => destruct b eqn:Hfree
  end; [discriminate|].
  apply orb_false_iff in Hfree. destruct Hfree as [_ Hclash].
  injection Hins as ->.
  pose (r' := User.mk (gorm.next_pk (users (store c))) (auth.cu_Username req)
                      hash true (auth.cu_IsAdmin req) (clock w) (clock w) None).
  assert (Hstored : stored_user
                      (mkConn (mkStore
                                 (mkTable (rows (users (store c)) ++ [r'])%list
                                    (Z.max (seq (users (store c))) (User.ID r')))
                                 (user_settings (store c))
                                 (automation_tasks (store c))) rest)
                      (auth.cu_Username req) = Some r').
  { apply stored_user_unique; cbn [store users rows].
    - apply in_or_app. right. now left.
    - reflexivity.
    - intros x Hx Hname. apply in_app_or in Hx. destruct Hx as [Hx|[<-|[]]];
        [|reflexivity].
      exfalso.
      assert (existsb (fun b => String.eqb (auth.cu_Username req)
                                           (User.Username b))
                      (rows (users (store c))) = true).
      { apply existsb_exists. exists x. split; [exact Hx|].
        apply String.eqb_eq. now rewrite Hname. }
      congruence. }
  assert (Hb : binds (auth.mkLoginRequest (auth.cu_Username req)
                                          (auth.cu_Password req)) = true).
  { unfold binds. cbn. apply String.eqb_neq in Hn, Hp. now rewrite Hn, Hp. }
  cbn [clock with_DB] in Htok.
  match goal with
  | |- fst (auth.Login E (Decoded ?lr) ?w2) = _ =>
      destruct (@Login_accepts E lr w2 _ r' eq_refl) as [s2 [rest2 [Hlogin _]]]
  end.
  - apply reliable_next_runs, Hrel', Hrel.
  - exact Hb.
  - exact Hstored.
  - apply Hbcrypt. exact Hh.
  - reflexivity.
  - rewrite Hlogin. cbn [fst].
    unfold token_response. cbn [clock with_DB User.Username r'].
    now rewrite Htok.
Qed.

Lemma demo_bcrypt_consistent : bcrypt_consistent demo.env.
Proof. intros password hash [= <-]. apply String.eqb_refl. Qed.

Lemma created_user_can_log_in_witness :
  exists req,
    Decoded (auth.mkCreateUserRequest "dinah" "cheshire" false) = Decoded req
    /\ forall token,
         jwt_SignedString demo.env (auth.cu_Username req) 200 = inr token ->
         fst (auth.Login demo.env
                (Decoded (auth.mkLoginRequest (auth.cu_Username req)
                                              (auth.cu_Password req)))
                (snd (auth.CreateUser demo.env
                        (Decoded (auth.mkCreateUserRequest "dinah" "cheshire"
                                    false))
                        demo.world0)))
         = Done (JSON StatusOK
                   (TokenJSON token "bearer" (auth.cu_Username req))).
Proof.
  apply (@created_user_can_log_in demo.env
           (Decoded (auth.mkCreateUserRequest "dinah" "cheshire" false))
           demo.world0 _ conn0
           (JSON StatusCreated
              (ValueJSON
                 (JObject [("id", JInt 3); ("is_admin", JBool false);
                           ("message", JString "User created successfully");
                           ("username", JString "dinah")])))).
  - reflexivity.
  - constructor.
  - exact demo_bcrypt_consistent.
  - reflexivity.
  - reflexivity.
Defined.

(** The row [UpdateUser] saves for the stored row [u]. *)
Definition updated_user (req : auth.UpdateUserRequest) (hash : string)
  (now : Time) (u : User.t) : User.t :=
  User.mk (User.ID u) (User.Username u) hash (auth.uu_IsActive req)
          (auth.uu_IsAdmin req) (User.CreatedAt u) now (User.LastLoginAt u).

(** What a successful [UpdateUser] leaves in the store. *)
Lemma UpdateUser_stores (E : Env) (id : string)
  (body : RawBody auth.UpdateUserRequest) (w : World) (c : Conn) :
  DB w = Some c -> reliable c ->
  exists resp s' rest,
    auth.UpdateUser E id body w
    = (Done resp, with_DB (Some (mkConn s' rest)) w)
    /\ reliable (mkConn s' rest)
    /\ (code resp = StatusOK ->
        exists req userID u hash,
          body = Decoded req
          /\ strconv.Atoi id = Some userID
          /\ In u (rows (users (store c))) /\ User.ID u = userID
          /\ (if String.eqb (auth.uu_Password req) ""
              then hash = User.HashedPassword u
              else utils.HashPassword E (auth.uu_Password req) = inr hash)
          /\ (forall x, In x (rows (users (store c))) ->
                        User.ID x <> userID ->
                        User.Username x <> User.Username u)
          /\ s' = mkStore
                    (mkTable
                       (map (fun x => if User.ID x =? userID
                                      then updated_user req hash (clock w) u
                                      else x)
                            (rows (users (store c))))
                       (seq (users (store c))))
                    (user_settings (store c)) (automation_tasks (store c))).
Proof.
  intros Hdb Hrel. unfold auth.UpdateUser.
  assert (Hsame : w = with_DB (Some (mkConn (store c) (faults c))) w).
  { destruct w, c. simpl in *. now rewrite Hdb. }
  assert (Hrelc : reliable (mkConn (store c) (faults c))) by now destruct c.
  destruct (strconv.Atoi id) as [userID|].
  2:{ do 3 eexists. split; [rewrite Hsame at 1; reflexivity|].
      split; [exact Hrelc | discriminate]. }
  destruct body as [err|req].
  { do 3 eexists. split; [rewrite Hsame at 1; reflexivity|].
    split; [exact Hrelc | discriminate]. }
  unfold bind at 1. unfold gorm.First.
  db_step Hdb r1 s1 rest1 Hc1 Hr1.
  destruct (Hr1 Hrel) as [Hf1 Hrel1]. clear Hc1 Hr1.
  cbn [table User_Model] in Hf1.
  destruct (gorm.least _) as [u|] eqn:Hl; injection Hf1 as -> ->.
  2:{ do 3 eexists. split; [reflexivity|]. split; [exact Hrel1 | discriminate]. }
  apply least_In in Hl. apply filter_In in Hl. destruct Hl as [Hin Hid].
  apply Z.eqb_eq in Hid.
  set (hashed := if negb (String.eqb (auth.uu_Password req) "")
                 then utils.HashPassword E (auth.uu_Password req)
                 else inr (User.HashedPassword u)).
  destruct hashed as [err|hash] eqn:Hhash.
  { do 3 eexists. split; [reflexivity|]. split; [exact Hrel1 | discriminate]. }
  unfold bind, time_Now, gorm.Save. cbn [clock with_DB].
  db_step (eq_refl (Some (mkConn (store c) rest1))) r2 s2 rest2 Hc2 Hr2.
  destruct (Hr2 Hrel1) as [Hf2 Hrel2]. clear Hc2 Hr2.
  cbn [store pk table User_Model auth.set_flags User.ID] in Hf2.
  destruct (User.ID u =? 0) eqn:Hz.
  { (* a zero key: the insert clashes with the stored row itself *)
    unfold gorm.insert in Hf2.
    cbn [pk with_pk clashes table User_Model auth.set_flags User.ID
         User.Username] in Hf2.
    rewrite Hz in Hf2.
    cbn [pk with_pk clashes table User_Model User.ID User.Username] in Hf2.
    assert (Hclash : existsb
              (fun b => String.eqb (User.Username u) (User.Username b))
              (rows (users (store c))) = true).
    { apply existsb_exists. exists u. split; [exact Hin | apply String.eqb_refl]. }
    rewrite Hclash, orb_true_r in Hf2. injection Hf2 as -> ->.
    do 3 eexists. split; [reflexivity|]. split; [exact Hrel2 | discriminate]. }
  assert (Hhas : gorm.has_pk (User.ID u) (rows (users (store c))) = true).
  { apply has_pk_true_iff. now exists u. }
  rewrite Hhas in Hf2. unfold gorm.update in Hf2.
  cbn [pk touch clashes table with_table User_Model auth.set_flags User.ID
       User.Username] in Hf2.
  match type of Hf2 with
  | context [if ?b then _ else _] => destruct b eqn:Hclash
  end; injection Hf2 as -> ->.
  { do 3 eexists. split; [reflexivity|]. split; [exact Hrel2 | discriminate]. }
  do 3 eexists. split; [reflexivity|]. split; [exact Hrel2|]. intros _.
  exists req, userID, u, hash. split; [reflexivity|]. split; [reflexivity|].
  split; [exact Hin|]. split; [exact Hid|]. split; [|split].
  - subst hashed. destruct (String.eqb (auth.uu_Password req) "");
      cbn [negb] in Hhash; [now injection Hhash | exact Hhash].
  - intros x Hx Hne Heq.
    assert (existsb
              (fun x0 => negb (User.ID x0 =? User.ID u)
                         && String.eqb (User.Username u) (User.Username x0))
              (rows (users (store c))) = true).
    { apply existsb_exists. exists x. split; [exact Hx|].
      rewrite Hid. apply Z.eqb_neq in Hne. rewrite Hne. cbn.
      apply String.eqb_eq. now symmetry. }
    congruence.
  - unfold updated_user. rewrite Hid. reflexivity.
Qed.

Lemma updated_user_stored (req : auth.UpdateUserRequest) (hash : string)
  (now : Time) (u : User.t) (c : Conn) (rest : list (option string)) :
  In u (rows (users (store c))) ->
  (forall x, In x (rows (users (store c))) ->
             User.ID x <> User.ID u -> User.Username x <> User.Username u) ->
  stored_user
    (mkConn (mkStore
               (mkTable
                  (map (fun x => if User.ID x =? User.ID u
                                 then updated_user req hash now u else x)
                       (rows (users (store c))))
                  (seq (users (store c))))
               (user_settings (store c)) (automation_tasks (store c))) rest)
    (User.Username u)
  = Some (updated_user req hash now u).
Proof.
  intros Hin Hfree. apply stored_user_unique; cbn [store users rows].
  - apply in_map_iff. exists u. split; [|exact Hin]. now rewrite Z.eqb_refl.
  - reflexivity.
  - intros x Hx Hname. apply in_map_iff in Hx. destruct Hx as [y [Hy Hyin]].
    destruct (Z.eqb_spec (User.ID y) (User.ID u)) as [He|Hne];
      [now symmetry|].
    subst x. exfalso. exact (Hfree y Hyin Hne Hname).
Qed.

(** X14. [UpdateUser] overwrites both flags of the account with the
    flags of the request, a flag the request leaves out counting as
    false; the password hash is replaced only when the request carries
    a password. When it answers 200 (on a database that answers) the
    stored row of that user has exactly the admin flag and the active
    flag of the request, its name and key unchanged. In particular a
    request that only changes the password deactivates the account:
    with the active flag false or absent, every later login under that
    name is rejected with a 401 and gets no token, whatever the
    password. *)
Theorem UpdateUser_overwrites_flags (E : Env) (id : string)
  (body : RawBody auth.UpdateUserRequest) (w w1 : World) (c : Conn)
  (resp : Response) :
  DB w = Some c -> reliable c ->
  auth.UpdateUser E id body w = (Done resp, w1) ->
  code resp = StatusOK ->
  exists req c1 u u',
    body = Decoded req
    /\ DB w1 = Some c1
    /\ In u (rows (users (store c)))
    /\ strconv.Atoi id = Some (User.ID u)
    /\ stored_user c1 (User.Username u) = Some u'
    /\ User.ID u' = User.ID u /\ User.Username u' = User.Username u
    /\ User.IsActive u' = auth.uu_IsActive req
    /\ User.IsAdmin u' = auth.uu_IsAdmin req
    /\ (auth.uu_Password req = "" ->
        User.HashedPassword u' = User.HashedPassword u)
    /\ (auth.uu_Password req <> "" ->
        utils.HashPassword E (auth.uu_Password req)
        = inr (User.HashedPassword u'))
    /\ (auth.uu_IsActive req = false ->
        forall password,
          password <> "" -> User.Username u <> "" ->
          fst (auth.Login E (Decoded (auth.mkLoginRequest (User.Username u)
                                                          password)) w1)
          = Done invalid_credentials).
Proof.
  intros Hdb Hrel Hrun Hok.
  destruct (@UpdateUser_stores E id body w c Hdb Hrel)
    as [resp' [s' [rest [Hrun' [Hrel' Hstored]]]]].
  rewrite Hrun in Hrun'. injection Hrun' as <- ->.
  destruct (Hstored Hok)
    as [req [userID [u [hash [-> [Hatoi [Hin [Hid [Hhash [Hfree ->]]]]]]]]]].
  subst userID.
  exists req, (mkConn
                 (mkStore
                    (mkTable
                       (map (fun x => if User.ID x =? User.ID u
                                      then updated_user req hash (clock w) u
                                      else x)
                            (rows (users (store c))))
                       (seq (users (store c))))
                    (user_settings (store c)) (automation_tasks (store c)))
                 rest), u, (updated_user req hash (clock w) u).
  pose proof (@updated_user_stored req hash (clock w) u c rest Hin Hfree)
    as Hlook.
  split; [reflexivity|]. split; [reflexivity|]. split; [exact Hin|].
  split; [exact Hatoi|]. split; [exact Hlook|].
  cbn [updated_user User.ID User.Username User.IsActive User.IsAdmin
       User.HashedPassword].
  do 4 (split; [reflexivity|]). split; [|split].
  - intros Hp. apply String.eqb_eq in Hp. now rewrite Hp in Hhash.
  - intros Hp. apply String.eqb_neq in Hp. now rewrite Hp in Hhash.
  - intros Hoff password Hpw Hname.
    match goal with
    | |- fst (auth.Login E (Decoded ?lr) ?w2) = _ =>
        destruct (@Login_rejected E lr w2 _ eq_refl) as [w3 Hlogin]
    end.
    + unfold binds. cbn. apply String.eqb_neq in Hpw, Hname.
      now rewrite Hpw, Hname.
    + intros x Hx _. cbn [auth.Username] in Hx. rewrite Hlook in Hx.
      injection Hx as <-. exact Hoff.
    + now rewrite Hlogin.
Qed.

Lemma UpdateUser_overwrites_flags_witness :
  fst (auth.Login demo.env
         (Decoded (auth.mkLoginRequest "alice" "white-rabbit"))
         (snd (auth.UpdateUser demo.env "1"
                 (Decoded (auth.mkUpdateUserRequest "white-rabbit" false false))
                 demo.world0)))
  = Done invalid_credentials.
Proof.
  destruct (@UpdateUser_overwrites_flags demo.env "1"
              (Decoded (auth.mkUpdateUserRequest "white-rabbit" false false))
              demo.world0
              (snd (auth.UpdateUser demo.env "1"
                      (Decoded (auth.mkUpdateUserRequest "white-rabbit" false
                                  false))
                      demo.world0))
              conn0
              (JSON StatusOK
                 (ValueJSON
                    (JObject [("id", JInt 1); ("is_active", JBool false);
                              ("is_admin", JBool false);
                              ("message", JString "User updated successfully");
                              ("username", JString "alice")])))
              eq_refl)
    as [req [c1 [u [u' [Hbody [_ [Hin [Hatoi [_ [_ [_ [_ [_ [_ [_ Hoff]]]]]]]]]]]]]]].
  - constructor.
  - reflexivity.
  - reflexivity.
  - injection Hbody as <-.
    assert (Hu : u = demo.alice).
    { destruct Hin as [<-|[<-|[]]]; [reflexivity | discriminate]. }
    subst u. apply Hoff; [reflexivity | discriminate | discriminate].
Defined.

(** Steps over the next [First] on a handle that is visibly live. *)
Ltac first_step :=
  lazymatch goal with
  | |- context [db (gorm.First ?cond) ?w] =>
      rewrite (@db_First _ _ cond w _ eq_refl)
  end.

Lemma filter_out {A : Type} (p : A -> bool) (l : list A) :
  filter p (filter (fun x => negb (p x)) l) = [].
Proof.
  induction l as [|x l IH]; [reflexivity|].
  cbn [filter]. destruct (p x) eqn:Hx; cbn [negb]; [exact IH|].
  cbn [filter]. now rewrite Hx.
Qed.

(** X15. [DeleteUser] removes the user and nothing else. When it
    answers 200 (on a database that answers) the users table has lost
    exactly the rows with the key of the request; the settings and the
    tasks of that user are still in their tables (nothing cascades);
    and the key is gone: deleting it again, or updating it, is answered
    404 "User not found". *)
Theorem DeleteUser_removes_only_the_user (E : Env) (id : string)
  (w w1 : World) (c : Conn) (resp : Response) :
  DB w = Some c -> reliable c ->
  auth.DeleteUser id w = (Done resp, w1) ->
  code resp = StatusOK ->
  exists userID c1,
    strconv.Atoi id = Some userID
    /\ DB w1 = Some c1
    /\ rows (users (store c1))
       = filter (fun x => negb (User.ID x =? userID)) (rows (users (store c)))
    /\ user_settings (store c1) = user_settings (store c)
    /\ automation_tasks (store c1) = automation_tasks (store c)
    /\ fst (auth.DeleteUser id w1)
       = Done (JSON StatusNotFound (ErrorJSON "User not found"))
    /\ forall req,
         fst (auth.UpdateUser E id (Decoded req) w1)
         = Done (JSON StatusNotFound (ErrorJSON "User not found")).
Proof.
  intros Hdb Hrel. unfold auth.DeleteUser at 1.
  destruct (strconv.Atoi id) as [userID|] eqn:Hatoi;
    [|intros [= <- <-]; discriminate].
  unfold bind at 1. unfold gorm.First.
  db_step Hdb r1 s1 rest1 Hc1 Hr1.
  destruct (Hr1 Hrel) as [Hf1 Hrel1]. clear Hc1 Hr1.
  cbn [table User_Model] in Hf1.
  destruct (gorm.least _) as [u|] eqn:Hl; injection Hf1 as -> ->;
    [|intros [= <- <-]; discriminate].
  apply least_In in Hl. apply filter_In in Hl. destruct Hl as [Hin Hid].
  apply Z.eqb_eq in Hid.
  unfold bind, gorm.Delete.
  db_step (eq_refl (Some (mkConn (store c) rest1))) r2 s2 rest2 Hc2 Hr2.
  destruct (Hr2 Hrel1) as [Hf2 Hrel2]. clear Hc2 Hr2.
  cbn [store pk table with_table User_Model] in Hf2. injection Hf2 as -> ->.
  intros [= <- <-] _. subst userID.
  exists (User.ID u). eexists. split; [reflexivity|]. split; [reflexivity|].
  cbn [store users rows user_settings automation_tasks].
  do 3 (split; [reflexivity|]).
  assert (Hgone : forall s,
             rows (users s)
             = filter (fun x => negb (User.ID x =? User.ID u))
                      (rows (users (store c))) ->
             @first_match _ User_Model (fun x => User.ID x =? User.ID u) s
             = inl ErrRecordNotFound).
  { intros s Hrows. unfold first_match. cbn [table User_Model].
    rewrite Hrows.
    now rewrite (filter_out (fun x => User.ID x =? User.ID u)). }
  split.
  - unfold auth.DeleteUser. rewrite Hatoi. unfold bind.
    first_step. rewrite answer_reliable by exact Hrel2.
    cbn [store]. now rewrite Hgone by reflexivity.
  - intros req. unfold auth.UpdateUser. rewrite Hatoi. unfold bind.
    first_step. rewrite answer_reliable by exact Hrel2.
    cbn [store]. now rewrite Hgone by reflexivity.
Qed.

Lemma DeleteUser_removes_only_the_user_witness :
  exists userID c1,
    strconv.Atoi "1" = Some userID
    /\ DB (snd (auth.DeleteUser "1" demo.world0)) = Some c1
    /\ rows (users (store c1)) = [demo.bob]
    /\ rows (user_settings (store c1)) = [demo.alice_settings].
Proof.
  destruct (@DeleteUser_removes_only_the_user demo.env "1" demo.world0
              (snd (auth.DeleteUser "1" demo.world0)) conn0
              (JSON StatusOK (MessageJSON "User deleted successfully")) eq_refl)
    as [userID [c1 [Hatoi [Hdb [Hrows [Hset _]]]]]].
  - constructor.
  - reflexivity.
  - reflexivity.
  - exists userID, c1. split; [exact Hatoi|]. split; [exact Hdb|].
    injection Hatoi as <-. rewrite Hrows, Hset. split; reflexivity.
Defined.

(** ** Listing users *)

(** Two rows that differ at most in the password hash. *)
Definition same_but_hash (a b : User.t) : Prop :=
  User.ID a = User.ID b /\ User.Username a = User.Username b
  /\ User.IsActive a = User.IsActive b /\ User.IsAdmin a = User.IsAdmin b
  /\ User.CreatedAt a = User.CreatedAt b /\ User.UpdatedAt a = User.UpdatedAt b
  /\ User.LastLoginAt a = User.LastLoginAt b.

Lemma filter_all {A : Type} (l : list A) : filter (fun _ => true) l = l.
Proof. induction l as [|x l IH]; [reflexivity|]. cbn. now rewrite IH. Qed.

(** X16. The list of users does not depend on any password hash: two
    databases whose user rows agree in everything but the hashes (and
    whose drivers behave alike) get the same answer from [GetUsers],
    which is, when the query succeeds, an array of one object per row
    in the order of the table, and [null], not an empty array, when
    the table has no row. *)
Theorem GetUsers_does_not_show_hashes (w1 w2 : World) (c1 c2 : Conn) :
  DB w1 = Some c1 -> DB w2 = Some c2 ->
  faults c1 = faults c2 ->
  Forall2 same_but_hash (rows (users (store c1))) (rows (users (store c2))) ->
  fst (auth.GetUsers w1) = fst (auth.GetUsers w2)
  /\ (next_runs c1 ->
      fst (auth.GetUsers w1)
      = Done (JSON StatusOK
                (ValueJSON
                   (match rows (users (store c1)) with
                    | [] => JNull
                    | _ :: _ => JArray (map auth.user_summary
                                            (rows (users (store c1))))
                    end)))).
Proof.
  intros Hdb1 Hdb2 Hf Hrows. unfold auth.GetUsers, bind, gorm.Find.
  rewrite (db_query _ w1 Hdb1), (db_query _ w2 Hdb2).
  cbn [table User_Model]. rewrite !filter_all, <- Hf.
  assert (Hsum : map auth.user_summary (rows (users (store c1)))
                 = map auth.user_summary (rows (users (store c2)))).
  { induction Hrows as [|a b l1 l2 Hab _ IH]; [reflexivity|].
    cbn [map]. rewrite IH. f_equal. unfold auth.user_summary.
    destruct Hab as [H1 [H2 [H3 [H4 [H5 [_ H7]]]]]].
    now rewrite H1, H2, H3, H4, H5, H7. }
  split.
  - destruct (faults c1) as [|[msg|] rest]; cbn [answer]; try reflexivity;
      cbn; now rewrite Hsum.
  - intros Hnext. rewrite (@answer_next_runs _ c1 _ Hnext).
    now destruct (rows (users (store c1))).
Qed.

(** The demo database after Alice has changed her password. *)
Definition conn_rehashed : Conn :=
  mkConn (mkStore
            (mkTable [User.mk 1 "alice" "bcrypt:looking-glass" true false 100
                              100 None;
                      demo.bob] 2)
            (user_settings demo.store0) (automation_tasks demo.store0)) [].

Definition world_rehashed : World :=
  mkWorld (Some conn_rehashed) 200 [] 0 0 [] None.

(** A database before its first user. *)
Definition empty_world : World :=
  mkWorld (Some (mkConn (mkStore (mkTable [] 0) (mkTable [] 0) (mkTable [] 0))
                        []))
          200 [] 0 0 [] None.

Lemma GetUsers_does_not_show_hashes_witness :
  fst (auth.GetUsers demo.world0) = fst (auth.GetUsers world_rehashed)
  /\ fst (auth.GetUsers empty_world)
     = Done (JSON StatusOK (ValueJSON JNull)).
Proof.
  split.
  - refine (proj1 (@GetUsers_does_not_show_hashes demo.world0 world_rehashed
                     conn0 conn_rehashed eq_refl eq_refl eq_refl _)).
    constructor; [repeat split | constructor; [repeat split | constructor]].
  - refine (proj2 (@GetUsers_does_not_show_hashes empty_world empty_world
                     (mkConn (mkStore (mkTable [] 0) (mkTable [] 0)
                                      (mkTable [] 0)) [])
                     (mkConn (mkStore (mkTable [] 0) (mkTable [] 0)
                                      (mkTable [] 0)) [])
                     eq_refl eq_refl eq_refl _) I).
    constructor.
Defined.

(** ** The Authorization header *)

(** The separator does not occur in the string. *)
Fixpoint free_of (sep : ascii) (s : string) : bool :=
  match s with
  | EmptyString => true
  | String c rest => negb (Ascii.eqb c sep) && free_of sep rest
  end.

Lemma Split_nonempty (sep : ascii) (s : string) :
  middleware.strings_Split sep s <> [].
Proof.
  destruct s as [|c rest]; cbn; [discriminate|].
  destruct (Ascii.eqb c sep); [discriminate|].
  destruct (middleware.strings_Split sep rest); discriminate.
Qed.

Lemma Split_free (sep : ascii) (s : string) :
  free_of sep s = true -> middleware.strings_Split sep s = [s].
Proof.
  induction s as [|c rest IH]; cbn; [reflexivity|].
  destruct (Ascii.eqb c sep); cbn; [discriminate|].
  intros Hfree. now rewrite (IH Hfree).
Qed.

Lemma Split_glue (sep : ascii) (a b : string) :
  free_of sep a = true ->
  middleware.strings_Split sep (a ++ String sep b)
  = a :: middleware.strings_Split sep b.
Proof.
  induction a as [|c a IH]; cbn.
  - intros _. now rewrite Ascii.eqb_refl.
  - destruct (Ascii.eqb c sep); cbn; [discriminate|].
    intros Hfree. now rewrite (IH Hfree).
Qed.

Lemma Split_single (sep : ascii) (s : string) :
  List.length (middleware.strings_Split sep s) = 1%nat -> free_of sep s = true.
Proof.
  induction s as [|c rest IH]; cbn; [reflexivity|].
  pose proof (Split_nonempty sep rest) as Hne.
  destruct (Ascii.eqb c sep); cbn.
  - destruct (middleware.strings_Split sep rest); [contradiction|discriminate].
  - destruct (middleware.strings_Split sep rest) as [|piece pieces];
      [contradiction|].
    cbn in *. exact IH.
Qed.

Lemma Split_pair (sep : ascii) (s : string) :
  List.length (middleware.strings_Split sep s) = 2%nat ->
  exists a b, s = a ++ String sep b
              /\ free_of sep a = true /\ free_of sep b = true.
Proof.
  induction s as [|c rest IH]; cbn; [discriminate|].
  pose proof (Split_nonempty sep rest) as Hne.
  destruct (Ascii.eqb c sep) eqn:Hc; cbn.
  - intros Hlen. apply Ascii.eqb_eq in Hc. subst c.
    exists "", rest. repeat split. apply Split_single. lia.
  - destruct (middleware.strings_Split sep rest) as [|piece pieces];
      [contradiction|].
    cbn in *. intros Hlen. destruct (IH Hlen) as [a [b [-> [Ha Hb]]]].
    exists (String c a), b. cbn. rewrite Hc. auto.
Qed.

Lemma lower_keeps_space (c : ascii) :
  Ascii.eqb (middleware.lower c) " " = Ascii.eqb c " ".
Proof. destruct c as [[] [] [] [] [] [] [] []]; reflexivity. Qed.

Lemma ToLower_free (s : string) :
  free_of " " (middleware.strings_ToLower s) = free_of " " s.
Proof.
  induction s as [|c rest IH]; [reflexivity|].
  cbn [middleware.strings_ToLower free_of]. now rewrite lower_keeps_space, IH.
Qed.

(** [h] is a bearer header for the token [tok]: a scheme that reads
    "bearer" in any mix of cases, one space, and a token without
    spaces. *)
Definition bearer_header (h tok : string) : Prop :=
  exists scheme,
    h = scheme ++ " " ++ tok
    /\ middleware.strings_ToLower scheme = "bearer"
    /\ free_of " " tok = true.

Lemma bearer_header_parts (h tok : string) :
  bearer_header h tok ->
  exists scheme,
    h = scheme ++ String " " tok
    /\ middleware.strings_ToLower scheme = "bearer"
    /\ middleware.strings_Split " " h = [scheme; tok]
    /\ String.eqb h "" = false.
Proof.
  intros [scheme [-> [Hs Ht]]]. exists scheme.
  assert (Hfree : free_of " " scheme = true).
  { rewrite <- ToLower_free, Hs. reflexivity. }
  repeat split; auto.
  - cbn [append]. now rewrite (@Split_glue " " scheme tok Hfree), (@Split_free " " tok Ht).
  - destruct scheme; [discriminate | reflexivity].
Qed.

(** What [AuthRequired] makes of a token it has taken from the header. *)
Definition verified (T : TokenEnv) (tok : string) (k : middleware.Keys)
  (now : Time) : Response + middleware.Keys :=
  match jwt_ParseWithClaims T tok now with
  | inr (true, username) =>
      inr (middleware.mkKeys (Some username) (middleware.key_user k))
  | _ => inl (JSON StatusUnauthorized (ErrorJSON "Invalid or expired token"))
  end.

Lemma AuthRequired_run (T : TokenEnv) (h : string) (k : middleware.Keys)
  (w : World) :
  (exists tok,
      bearer_header h tok
      /\ middleware.AuthRequired T h k w = (Done (verified T tok k (clock w)), w))
  \/ ((forall tok, ~ bearer_header h tok)
      /\ exists msg,
           middleware.AuthRequired T h k w
           = (Done (inl (JSON StatusUnauthorized (ErrorJSON msg))), w)
           /\ (msg = "Authorization header is required"
               \/ msg = "Authorization header format must be Bearer {token}")).
Proof.
  unfold middleware.AuthRequired.
  destruct (String.eqb h "") eqn:Hempty.
  { right. split.
    - intros tok Hb. destruct (bearer_header_parts Hb) as [s [_ [_ [_ Hne]]]].
      congruence.
    - eexists. split; [reflexivity|]. now left. }
  cbv zeta.
  destruct (Nat.eqb (List.length (middleware.strings_Split " " h)) 2) eqn:Hlen.
  - apply Nat.eqb_eq in Hlen.
    destruct (@Split_pair " " h Hlen) as [a [b [-> [Ha Hb]]]].
    rewrite (@Split_glue " " a b Ha), (@Split_free " " b Hb). cbn [negb orb nth].
    destruct (String.eqb (middleware.strings_ToLower a) "bearer") eqn:Hs.
    + apply String.eqb_eq in Hs. left. exists b. split.
      * exists a. repeat split; auto.
      * cbn [negb]. unfold middleware.VerifyToken, bind, time_Now, verified.
        destruct (jwt_ParseWithClaims T b (clock w)) as [err|[[|] username]];
          reflexivity.
    + right. split.
      * intros tok Hbh.
        destruct (bearer_header_parts Hbh) as [s [Heq [Hlow [Hsplit _]]]].
        rewrite (@Split_glue " " a b Ha), (@Split_free " " b Hb) in Hsplit.
        injection Hsplit as <- <-. apply String.eqb_neq in Hs. contradiction.
      * eexists. split; [reflexivity|]. now right.
  - right. split.
    + intros tok Hbh.
      destruct (bearer_header_parts Hbh) as [s [_ [_ [Hsplit _]]]].
      rewrite Hsplit in Hlen. discriminate.
    + eexists. split; [reflexivity|]. now right.
Qed.

(** X17. [AuthRequired] lets a request pass exactly when its
    [Authorization] header is a scheme that reads "bearer" in any mix
    of upper and lower case, one space, and a token without spaces that
    the token library accepts as valid; the request then goes on with
    the username claim of the token. Every other header (empty, no
    space, two spaces as in "Bearer  token", another scheme, a token
    the library rejects) is answered 401, and the token library is not
    even asked unless the header has that form. The middleware changes
    nothing and never panics. *)
Theorem AuthRequired_accepts_bearer_tokens (T : TokenEnv) (h : string)
  (k : middleware.Keys) (w : World) :
  exists r,
    middleware.AuthRequired T h k w = (Done r, w)
    /\ (forall k',
          r = inr k' <->
          exists tok username,
            bearer_header h tok
            /\ jwt_ParseWithClaims T tok (clock w) = inr (true, username)
            /\ k' = middleware.mkKeys (Some username) (middleware.key_user k))
    /\ (forall resp, r = inl resp -> code resp = StatusUnauthorized)
    /\ ((forall tok, ~ bearer_header h tok) ->
        exists msg,
          r = inl (JSON StatusUnauthorized (ErrorJSON msg))
          /\ msg <> "Invalid or expired token").
Proof.
  destruct (AuthRequired_run T h k w)
    as [[tok [Hb Hrun]]|[Hnone [msg [Hrun Hmsg]]]].
  - exists (verified T tok k (clock w)). split; [exact Hrun|].
    split; [|split].
    + intros k'. unfold verified. split.
      * destruct (jwt_ParseWithClaims T tok (clock w))
          as [err|[[|] username]] eqn:Hp; try discriminate.
        intros [= <-]. now exists tok, username.
      * intros [tok' [username [Hb' [Hp ->]]]].
        assert (tok' = tok).
        { destruct (bearer_header_parts Hb) as [s [_ [_ [Hs _]]]].
          destruct (bearer_header_parts Hb') as [s' [_ [_ [Hs' _]]]].
          rewrite Hs in Hs'. now injection Hs'. }
        subst tok'. now rewrite Hp.
    + intros resp. unfold verified.
      destruct (jwt_ParseWithClaims T tok (clock w)) as [err|[[|] username]];
        try discriminate; now intros [= <-].
    + intros Hno. exfalso. exact (Hno tok Hb).
  - exists (inl (JSON StatusUnauthorized (ErrorJSON msg))).
    split; [exact Hrun|]. split; [|split].
    + intros k'. split; [discriminate|].
      intros [tok [username [Hb _]]]. exfalso. exact (Hnone tok Hb).
    + now intros resp [= <-].
    + intros _. exists msg. split; [reflexivity|].
      destruct Hmsg as [-> | ->]; discriminate.
Qed.

(** A token library that knows one token, Alice's. *)
Definition demo_tokens : TokenEnv :=
  mkTokenEnv (fun tok _ => if String.eqb tok "jwt.alice"
                           then inr (true, "alice")
                           else inl "token is malformed").

Lemma AuthRequired_accepts_bearer_tokens_witness :
  middleware.AuthRequired demo_tokens "BEARER jwt.alice"
    (middleware.mkKeys None None) demo.world0
  = (Done (inr (middleware.mkKeys (Some "alice") None)), demo.world0)
  /\ exists msg,
       middleware.AuthRequired demo_tokens "Bearer  jwt.alice"
         (middleware.mkKeys None None) demo.world0
       = (Done (inl (JSON StatusUnauthorized (ErrorJSON msg))), demo.world0)
       /\ msg <> "Invalid or expired token".
Proof.
  split; [reflexivity|].
  destruct (@AuthRequired_accepts_bearer_tokens demo_tokens "Bearer  jwt.alice"
              (middleware.mkKeys None None) demo.world0)
    as [r [Hrun [_ [_ Hno]]]].
  destruct Hno as [msg [-> Hmsg]].
  - intros tok Hb. destruct (bearer_header_parts Hb) as [s [_ [_ [Hs _]]]].
    discriminate.
  - now exists msg.
Defined.

(** ** Who reaches a handler *)

Definition no_keys : middleware.Keys := middleware.mkKeys None None.

Lemma with_DB_same (w : World) (c : Conn) :
  DB w = Some c -> with_DB (Some (mkConn (store c) (faults c))) w = w.
Proof. intros Hdb. destruct w, c. simpl in *. now rewrite Hdb. Qed.

Definition middleware_401 : list string :=
  ["Authorization header is required";
   "Authorization header format must be Bearer {token}";
   "Invalid or expired token"; "User not found"; "User is inactive"].

(** The two middlewares of the protected groups, run one after the
    other on a fresh context. *)
Lemma authenticated (T : TokenEnv) (h : string)
  (handler : middleware.Keys -> M Response) (w : World) (c : Conn) :
  DB w = Some c ->
  exists rest,
    (exists msg,
        In msg middleware_401
        /\ middleware.chain
             [middleware.AuthRequired T h; middleware.GetCurrentUser]
             handler no_keys w
           = (Done (JSON StatusUnauthorized (ErrorJSON msg)),
              with_DB (Some (mkConn (store c) rest)) w)
        /\ forall tok name u,
             bearer_header h tok ->
             jwt_ParseWithClaims T tok (clock w) = inr (true, name) ->
             next_runs c -> stored_user c name = Some u ->
             User.IsActive u = false /\ msg = "User is inactive")
    \/ (exists tok name u,
           bearer_header h tok
           /\ jwt_ParseWithClaims T tok (clock w) = inr (true, name)
           /\ stored_user c name = Some u
           /\ User.IsActive u = true
           /\ middleware.chain
                [middleware.AuthRequired T h; middleware.GetCurrentUser]
                handler no_keys w
              = handler (middleware.mkKeys (Some name) (Some (CtxUser u)))
                        (with_DB (Some (mkConn (store c) rest)) w)).
Proof.
  intros Hdb.
  remember (middleware.chain
              [middleware.AuthRequired T h; middleware.GetCurrentUser]
              handler no_keys w) as run eqn:Hchain.
  cbn [middleware.chain] in Hchain. unfold bind at 1 in Hchain.
  assert (Hbearer : forall tok tok', bearer_header h tok ->
                                     bearer_header h tok' -> tok' = tok).
  { intros tok tok' Hb Hb'.
    destruct (bearer_header_parts Hb) as [s [_ [_ [Hs _]]]].
    destruct (bearer_header_parts Hb') as [s' [_ [_ [Hs' _]]]].
    rewrite Hs in Hs'. now injection Hs'. }
  destruct (AuthRequired_run T h no_keys w)
    as [[tok [Hb Hrun]]|[Hnone [msg [Hrun Hmsg]]]]; rewrite Hrun in Hchain.
  2:{ exists (faults c). left. exists msg. rewrite (@with_DB_same w c Hdb).
      split; [|split; [exact Hchain|]].
      - destruct Hmsg as [-> | ->]; simpl; tauto.
      - intros tok name u Hb. exfalso. exact (Hnone tok Hb). }
  assert (Hother : forall name' tok',
             bearer_header h tok' ->
             jwt_ParseWithClaims T tok' (clock w) = inr (true, name') ->
             jwt_ParseWithClaims T tok (clock w) = inr (true, name')).
  { intros name' tok' Hb' Hp'. now rewrite (Hbearer tok tok' Hb Hb') in Hp'. }
  unfold verified in Hchain.
  destruct (jwt_ParseWithClaims T tok (clock w)) as [err|[[|] name]] eqn:Hp.
  { exists (faults c). left. eexists. rewrite (@with_DB_same w c Hdb).
    split; [|split; [exact Hchain|]]; [simpl; tauto|].
    intros tok' name' u Hb' Hp'. pose proof (Hother name' tok' Hb' Hp').
    discriminate. }
  2:{ exists (faults c). left. eexists. rewrite (@with_DB_same w c Hdb).
      split; [|split; [exact Hchain|]]; [simpl; tauto|].
      intros tok' name' u Hb' Hp'. pose proof (Hother name' tok' Hb' Hp').
      discriminate. }
  unfold bind at 1 in Hchain.
  unfold middleware.GetCurrentUser at 1 in Hchain.
  cbn [middleware.key_username] in Hchain.
  unfold bind at 1 in Hchain. rewrite (db_First _ w Hdb) in Hchain.
  unfold first_match in Hchain.
  cbn [table User_Model] in Hchain. fold (stored_user c name) in Hchain.
  exists (tl (faults c)).
  assert (Hsame : forall tok' name',
             bearer_header h tok' ->
             jwt_ParseWithClaims T tok' (clock w) = inr (true, name') ->
             name' = name).
  { intros tok' name' Hb' Hp'. pose proof (Hother name' tok' Hb' Hp').
    congruence. }
  destruct (faults c) as [|[msg|] rest] eqn:Hf; cbn [answer tl] in *.
  2:{ left. eexists. split; [|split; [exact Hchain|]]; [simpl; tauto|].
      intros tok' name' u _ _ Hnext. unfold next_runs in Hnext.
      rewrite Hf in Hnext. contradiction. }
  - destruct (stored_user c name) as [u|] eqn:Hu.
    + destruct (User.IsActive u) eqn:Ha; cbn [negb] in Hchain.
      * right. exists tok, name, u. repeat split; auto.
      * left. eexists. split; [|split; [exact Hchain|]]; [simpl; tauto|].
        intros tok' name' u' Hb' Hp' _ Hu'.
        rewrite (Hsame tok' name' Hb' Hp') in Hu'.
        assert (u' = u) by congruence. subst u'. auto.
    + left. eexists. split; [|split; [exact Hchain|]]; [simpl; tauto|].
      intros tok' name' u' Hb' Hp' _ Hu'.
      rewrite (Hsame tok' name' Hb' Hp') in Hu'. congruence.
  - destruct (stored_user c name) as [u|] eqn:Hu.
    + destruct (User.IsActive u) eqn:Ha; cbn [negb] in Hchain.
      * right. exists tok, name, u. repeat split; auto.
      * left. eexists. split; [|split; [exact Hchain|]]; [simpl; tauto|].
        intros tok' name' u' Hb' Hp' _ Hu'.
        rewrite (Hsame tok' name' Hb' Hp') in Hu'.
        assert (u' = u) by congruence. subst u'. auto.
    + left. eexists. split; [|split; [exact Hchain|]]; [simpl; tauto|].
      intros tok' name' u' Hb' Hp' _ Hu'.
      rewrite (Hsame tok' name' Hb' Hp') in Hu'. congruence.
Qed.

(** X18. Behind [AuthRequired] and [GetCurrentUser], as the protected
    groups of [main] chain them, a handler runs only for a bearer
    token that the token library accepts and whose username claim is
    the name of a stored, active user, and it finds exactly that user's
    row under the context key "user". Every other request is answered
    401 by the middleware, and the handler does not run. The middleware
    itself writes nothing to the store. *)
Theorem handlers_run_for_active_users (T : TokenEnv) (h : string)
  (handler : middleware.Keys -> M Response) (w : World) (c : Conn) :
  DB w = Some c ->
  exists rest,
    let w1 := with_DB (Some (mkConn (store c) rest)) w in
    (exists msg,
        middleware.chain
          [middleware.AuthRequired T h; middleware.GetCurrentUser]
          handler no_keys w
        = (Done (JSON StatusUnauthorized (ErrorJSON msg)), w1))
    \/ (exists tok name u,
           bearer_header h tok
           /\ jwt_ParseWithClaims T tok (clock w) = inr (true, name)
           /\ In u (rows (users (store c)))
           /\ User.Username u = name
           /\ User.IsActive u = true
           /\ middleware.chain
                [middleware.AuthRequired T h; middleware.GetCurrentUser]
                handler no_keys w
              = handler (middleware.mkKeys (Some name) (Some (CtxUser u))) w1).
Proof.
  intros Hdb. destruct (@authenticated T h handler w c Hdb)
    as [rest [[msg [_ [Hrun _]]]|[tok [name [u [Hb [Hp [Hu [Ha Hrun]]]]]]]]];
    exists rest; cbv zeta.
  - left. now exists msg.
  - right. exists tok, name, u. unfold stored_user in Hu.
    apply least_In in Hu. apply filter_In in Hu. destruct Hu as [Hin Hn].
    apply String.eqb_eq in Hn. repeat split; auto.
Qed.

Lemma handlers_run_for_active_users_witness :
  exists rest,
    let w1 := with_DB (Some (mkConn (store conn0) rest)) demo.world0 in
    (exists msg,
        middleware.chain
          [middleware.AuthRequired demo_tokens "Bearer jwt.alice";
           middleware.GetCurrentUser]
          (fun k => automation.GetSettings (middleware.key_user k))
          no_keys demo.world0
        = (Done (JSON StatusUnauthorized (ErrorJSON msg)), w1))
    \/ (exists tok name u,
           bearer_header "Bearer jwt.alice" tok
           /\ jwt_ParseWithClaims demo_tokens tok (clock demo.world0)
              = inr (true, name)
           /\ In u (rows (users (store conn0)))
           /\ User.Username u = name
           /\ User.IsActive u = true
           /\ middleware.chain
                [middleware.AuthRequired demo_tokens "Bearer jwt.alice";
                 middleware.GetCurrentUser]
                (fun k => automation.GetSettings (middleware.key_user k))
                no_keys demo.world0
              = automation.GetSettings
                  (middleware.key_user
                     (middleware.mkKeys (Some name) (Some (CtxUser u)))) w1).
Proof.
  apply (@handlers_run_for_active_users demo_tokens "Bearer jwt.alice"
           (fun k => automation.GetSettings (middleware.key_user k))
           demo.world0 conn0).
  reflexivity.
Defined.

(** ** The route groups of [main] *)

(** A chain of middleware, cut in two. *)
Lemma chain_app (ms1 ms2 : list middleware.Middleware)
  (h : middleware.Keys -> M Response) (k : middleware.Keys) (w : World) :
  middleware.chain (ms1 ++ ms2) h k w
  = middleware.chain ms1 (middleware.chain ms2 h) k w.
Proof.
  revert k w. induction ms1 as [|m ms1 IH]; intros k w; [reflexivity|].
  cbn [app middleware.chain]. unfold bind.
  destruct (m k w) as [[[resp|k']|v] w']; auto.
Qed.

Lemma bearer_header_unique (h tok tok' : string) :
  bearer_header h tok -> bearer_header h tok' -> tok' = tok.
Proof.
  intros Hb Hb'.
  destruct (bearer_header_parts Hb) as [s [_ [_ [Hs _]]]].
  destruct (bearer_header_parts Hb') as [s' [_ [_ [Hs' _]]]].
  rewrite Hs in Hs'. now injection Hs'.
Qed.

(** What the two middlewares of the protected groups do with a request
    that carries a valid token, when the lookup of the user is not
    failed by the driver. *)
Lemma authenticated_run (T : TokenEnv) (h tok name : string)
  (handler : middleware.Keys -> M Response) (w : World) (c : Conn) :
  DB w = Some c -> next_runs c ->
  bearer_header h tok ->
  jwt_ParseWithClaims T tok (clock w) = inr (true, name) ->
  middleware.chain [middleware.AuthRequired T h; middleware.GetCurrentUser]
                   handler no_keys w
  = let w1 := with_DB (Some (mkConn (store c) (tl (faults c)))) w in
    match stored_user c name with
    | Some u =>
        if User.IsActive u
        then handler (middleware.mkKeys (Some name) (Some (CtxUser u))) w1
        else (Done (JSON StatusUnauthorized (ErrorJSON "User is inactive")), w1)
    | None => (Done (JSON StatusUnauthorized (ErrorJSON "User not found")), w1)
    end.
Proof.
  intros Hdb Hnext Hb Hp. cbn [middleware.chain]. unfold bind at 1.
  destruct (AuthRequired_run T h no_keys w)
    as [[tok' [Hb' Hrun]]|[Hnone _]]; [|exfalso; exact (Hnone tok Hb)].
  rewrite Hrun, (bearer_header_unique Hb Hb'). unfold verified. rewrite Hp.
  unfold bind at 1. unfold middleware.GetCurrentUser at 1.
  cbn [middleware.key_username]. unfold bind at 1.
  rewrite (db_First _ w Hdb), (@answer_next_runs _ c _ Hnext).
  unfold first_match. cbn [table User_Model]. fold (stored_user c name).
  cbv zeta. destruct (stored_user c name) as [u|]; [|reflexivity].
  now destruct (User.IsActive u).
Qed.

Lemma gin_Recovery_Done (m : M Response) (w w' : World) (r : Response) :
  m w = (Done r, w') -> gin_Recovery m w = (Done r, w').
Proof. intros Hm. unfold gin_Recovery. now rewrite Hm. Qed.

(** The routes of the [/admin] group. *)
Definition admin_route (r : main.Route) : bool :=
  match r with
  | main.POST_admin_users _ | main.GET_admin_users
  | main.PUT_admin_users _ _ | main.DELETE_admin_users _ => true
  | _ => false
  end.

(** The routes behind [AuthRequired]: all but the login. *)
Definition protected_route (r : main.Route) : bool :=
  match r with
  | main.POST_auth_token _ => false
  | _ => true
  end.

Lemma group_protected (T : TokenEnv) (h : string) (r : main.Route) :
  protected_route r = true ->
  main.group T h r
  = ([middleware.AuthRequired T h; middleware.GetCurrentUser]
       ++ (if admin_route r then [middleware.AdminRequired] else []))%list.
Proof. now destruct r. Qed.

(** X19. The handler of an [/admin] route runs only for the bearer of
    a valid token whose username is that of a stored user who is active
    and an administrator. Of the requests that reach the group, the one
    of a stored, active user who is no administrator is answered 403
    "Admin access required", and every other one is answered 401. Up to
    the handler nothing is written to the store, and a request of an
    active user who is no administrator never reaches the handler (when
    the lookup is not failed by the driver). *)
Theorem admin_routes_need_an_admin (E : Env) (T : TokenEnv) (h : string)
  (r : main.Route) (w : World) (c : Conn) :
  admin_route r = true -> DB w = Some c ->
  (exists rest,
     let w1 := with_DB (Some (mkConn (store c) rest)) w in
     (exists msg,
         main.serve E T h r w
         = (Done (JSON StatusUnauthorized (ErrorJSON msg)), w1))
     \/ (exists tok name u,
            bearer_header h tok
            /\ jwt_ParseWithClaims T tok (clock w) = inr (true, name)
            /\ stored_user c name = Some u
            /\ User.IsActive u = true
            /\ if User.IsAdmin u
               then main.serve E T h r w
                    = gin_Recovery
                        (main.handle E r
                           (middleware.mkKeys (Some name) (Some (CtxUser u))))
                        w1
               else main.serve E T h r w
                    = (Done (JSON StatusForbidden
                               (ErrorJSON "Admin access required")), w1)))
  /\ (forall tok name u,
        next_runs c -> bearer_header h tok ->
        jwt_ParseWithClaims T tok (clock w) = inr (true, name) ->
        stored_user c name = Some u ->
        User.IsActive u = true -> User.IsAdmin u = false ->
        main.serve E T h r w
        = (Done (JSON StatusForbidden (ErrorJSON "Admin access required")),
           with_DB (Some (mkConn (store c) (tl (faults c)))) w)).
Proof.
  intros Hadmin Hdb.
  assert (Hprot : protected_route r = true) by now destruct r.
  assert (Hserve : forall w',
             main.serve E T h r w'
             = gin_Recovery
                 (middleware.chain
                    [middleware.AuthRequired T h; middleware.GetCurrentUser]
                    (middleware.chain [middleware.AdminRequired]
                                      (main.handle E r))
                    no_keys) w').
  { intros w'. unfold main.serve, gin_Recovery.
    rewrite (group_protected T h r Hprot), Hadmin.
    fold no_keys. now rewrite chain_app. }
  assert (Hadm : forall name u w',
             middleware.chain [middleware.AdminRequired] (main.handle E r)
               (middleware.mkKeys (Some name) (Some (CtxUser u))) w'
             = if User.IsAdmin u
               then main.handle E r
                      (middleware.mkKeys (Some name) (Some (CtxUser u))) w'
               else (Done (JSON StatusForbidden
                             (ErrorJSON "Admin access required")), w')).
  { intros name u w'. cbn [middleware.chain]. unfold bind.
    unfold middleware.AdminRequired. cbn [middleware.key_user].
    now destruct (User.IsAdmin u). }
  split.
  - destruct (@authenticated T h
                (middleware.chain [middleware.AdminRequired] (main.handle E r))
                w c Hdb)
      as [rest [[msg [_ [Hrun _]]]|[tok [name [u [Hb [Hp [Hu [Ha Hrun]]]]]]]]];
      exists rest; cbv zeta.
    + left. exists msg. rewrite Hserve. now apply gin_Recovery_Done.
    + right. exists tok, name, u. do 4 (split; [assumption|]).
      rewrite Hserve. rewrite Hadm in Hrun.
      destruct (User.IsAdmin u).
      * unfold gin_Recovery. now rewrite Hrun.
      * now apply gin_Recovery_Done.
  - intros tok name u Hnext Hb Hp Hu Ha Hno. rewrite Hserve.
    apply gin_Recovery_Done.
    rewrite (@authenticated_run T h tok name _ w c Hdb Hnext Hb Hp).
    cbv zeta. rewrite Hu, Ha, Hadm. now rewrite Hno.
Qed.

(** Alice, who is no administrator, asks for the list of users. *)
Lemma admin_routes_need_an_admin_witness :
  main.serve demo.env demo_tokens "Bearer jwt.alice" main.GET_admin_users
             demo.world0
  = (Done (JSON StatusForbidden (ErrorJSON "Admin access required")),
     demo.world0).
Proof.
  refine (proj2 (@admin_routes_need_an_admin demo.env demo_tokens
                   "Bearer jwt.alice" main.GET_admin_users demo.world0 conn0
                   eq_refl eq_refl)
                "jwt.alice" "alice" demo.alice I _ eq_refl eq_refl eq_refl
                eq_refl).
  unfold bearer_header. exists "Bearer". repeat split; vm_compute; auto.
Defined.

(** ** Revocation *)

(** Every protected route starts with the two middlewares that find
    the user of the token. *)
Lemma serve_protected (E : Env) (T : TokenEnv) (h : string) (r : main.Route)
  (w : World) :
  protected_route r = true ->
  main.serve E T h r w
  = gin_Recovery
      (middleware.chain
         [middleware.AuthRequired T h; middleware.GetCurrentUser]
         (middleware.chain
            (if admin_route r then [middleware.AdminRequired] else [])
            (main.handle E r))
         no_keys) w.
Proof.
  intros Hprot. unfold main.serve, gin_Recovery.
  rewrite (group_protected T h r Hprot). fold no_keys. now rewrite chain_app.
Qed.

(** X20. Deactivating an account locks its user out at once, whatever
    tokens are still valid: after [UpdateUser] has answered 200 to a
    request that does not set [is_active] (on a database that answers),
    the next request of that user that reaches the group of a protected
    route, with a token the token library still accepts, is answered
    401 "User is inactive" by the middleware, and its handler does not
    run. *)
Theorem deactivated_user_is_locked_out (E : Env) (T : TokenEnv) (id : string)
  (body : RawBody auth.UpdateUserRequest) (w w1 : World) (c : Conn)
  (resp : Response) :
  DB w = Some c -> reliable c ->
  auth.UpdateUser E id body w = (Done resp, w1) ->
  code resp = StatusOK ->
  exists req u,
    body = Decoded req
    /\ In u (rows (users (store c)))
    /\ strconv.Atoi id = Some (User.ID u)
    /\ (auth.uu_IsActive req = false ->
        forall h tok r,
          protected_route r = true ->
          bearer_header h tok ->
          jwt_ParseWithClaims T tok (clock w1) = inr (true, User.Username u) ->
          exists w2,
            main.serve E T h r w1
            = (Done (JSON StatusUnauthorized (ErrorJSON "User is inactive")),
               w2)
            /\ option_map store (DB w2) = option_map store (DB w1)).
Proof.
  intros Hdb Hrel Hrun Hok.
  destruct (@UpdateUser_stores E id body w c Hdb Hrel)
    as [resp' [s' [rest [Hrun' [Hrel' Hstored]]]]].
  rewrite Hrun in Hrun'. injection Hrun' as <- ->.
  destruct (Hstored Hok)
    as [req [userID [u [hash [-> [Hatoi [Hin [Hid [_ [Hfree ->]]]]]]]]]].
  subst userID. exists req, u. split; [reflexivity|].
  split; [exact Hin|]. split; [exact Hatoi|].
  intros Hoff h tok r Hprot Hb Hp.
  eexists. rewrite (serve_protected E T h r _ Hprot). split.
  - apply gin_Recovery_Done.
    lazymatch goal with
    | |- middleware.chain _ ?hd no_keys (with_DB (Some ?c1) ?w0) = _ =>
        rewrite (@authenticated_run T h tok (User.Username u) hd
                   (with_DB (Some c1) w0) c1 eq_refl
                   (reliable_next_runs Hrel') Hb Hp)
    end.
    cbv zeta.
    rewrite (@updated_user_stored req hash (clock w) u c rest Hin Hfree).
    cbn [updated_user User.IsActive]. rewrite Hoff. reflexivity.
  - reflexivity.
Qed.

(** Alice's token after an administrator has switched her account off. *)
Lemma deactivated_user_is_locked_out_witness :
  exists w2,
    main.serve demo.env demo_tokens "Bearer jwt.alice"
      main.GET_automation_tasks
      (snd (auth.UpdateUser demo.env "1"
              (Decoded (auth.mkUpdateUserRequest "" false false))
              demo.world0))
    = (Done (JSON StatusUnauthorized (ErrorJSON "User is inactive")), w2).
Proof.
  destruct (@deactivated_user_is_locked_out demo.env demo_tokens "1"
              (Decoded (auth.mkUpdateUserRequest "" false false))
              demo.world0
              (snd (auth.UpdateUser demo.env "1"
                      (Decoded (auth.mkUpdateUserRequest "" false false))
                      demo.world0))
              conn0
              (JSON StatusOK
                 (ValueJSON
                    (JObject [("id", JInt 1); ("is_active", JBool false);
                              ("is_admin", JBool false);
                              ("message", JString "User updated successfully");
                              ("username", JString "alice")])))
              eq_refl)
    as [req [u [Hbody [Hin [Hatoi Hoff]]]]].
  - constructor.
  - reflexivity.
  - reflexivity.
  - injection Hbody as <-.
    assert (Hu : u = demo.alice).
    { destruct Hin as [<-|[<-|[]]]; [reflexivity | discriminate]. }
    subst u.
    destruct (Hoff eq_refl "Bearer jwt.alice" "jwt.alice"
                main.GET_automation_tasks eq_refl) as [w2 [Hrun _]].
    + exists "Bearer". repeat split.
    + reflexivity.
    + now exists w2.
Defined.

(** X21. Deleting an account locks its user out at once: after
    [DeleteUser] has answered 200 (on a database that answers, with
    user names that are unique), the next request that reaches the
    group of a protected route with a token for the name of the deleted
    user is answered 401 "User not found" by the middleware, and its
    handler does not run. *)
Theorem deleted_user_is_locked_out (E : Env) (T : TokenEnv) (id : string)
  (w w1 : World) (c : Conn) (resp : Response) :
  DB w = Some c -> reliable c -> users_unique (store c) ->
  auth.DeleteUser id w = (Done resp, w1) ->
  code resp = StatusOK ->
  exists u,
    In u (rows (users (store c)))
    /\ strconv.Atoi id = Some (User.ID u)
    /\ forall h tok r,
         protected_route r = true ->
         bearer_header h tok ->
         jwt_ParseWithClaims T tok (clock w1) = inr (true, User.Username u) ->
         exists w2,
           main.serve E T h r w1
           = (Done (JSON StatusUnauthorized (ErrorJSON "User not found")), w2)
           /\ option_map store (DB w2) = option_map store (DB w1).
Proof.
  intros Hdb Hrel [_ Hnames]. unfold auth.DeleteUser at 1.
  destruct (strconv.Atoi id) as [userID|] eqn:Hatoi;
    [|intros [= <- <-]; discriminate].
  unfold bind at 1. unfold gorm.First.
  db_step Hdb r1 s1 rest1 Hc1 Hr1.
  destruct (Hr1 Hrel) as [Hf1 Hrel1]. clear Hc1 Hr1.
  cbn [table User_Model] in Hf1.
  destruct (gorm.least _) as [u|] eqn:Hl; injection Hf1 as -> ->;
    [|intros [= <- <-]; discriminate].
  apply least_In in Hl. apply filter_In in Hl. destruct Hl as [Hin Hid].
  apply Z.eqb_eq in Hid.
  unfold bind, gorm.Delete.
  db_step (eq_refl (Some (mkConn (store c) rest1))) r2 s2 rest2 Hc2 Hr2.
  destruct (Hr2 Hrel1) as [Hf2 Hrel2]. clear Hc2 Hr2.
  cbn [store pk table with_table User_Model] in Hf2. injection Hf2 as -> ->.
  intros [= <- <-] _. subst userID.
  exists u. split; [exact Hin|]. split; [reflexivity|].
  intros h tok r Hprot Hb Hp.
  eexists. rewrite (serve_protected E T h r _ Hprot). split.
  - apply gin_Recovery_Done.
    lazymatch goal with
    | |- middleware.chain _ ?hd no_keys (with_DB (Some ?c1) ?w0) = _ =>
        rewrite (@authenticated_run T h tok (User.Username u) hd
                   (with_DB (Some c1) w0) c1 eq_refl
                   (reliable_next_runs Hrel2) Hb Hp)
    end.
    cbv zeta.
    replace (stored_user _ (User.Username u)) with (@None User.t);
      [reflexivity|].
    symmetry. unfold stored_user. cbn [store users rows].
    apply least_nil_iff.
    destruct (filter _ (filter _ _)) as [|x l] eqn:Hfl; [reflexivity|].
    exfalso.
    assert (Hx : In x (x :: l)) by now left.
    rewrite <- Hfl in Hx. apply filter_In in Hx. destruct Hx as [Hx Hname].
    apply filter_In in Hx. destruct Hx as [Hx Hne].
    apply String.eqb_eq in Hname.
    apply negb_true_iff, Z.eqb_neq in Hne. apply Hne. f_equal.
    clear - Hnames Hin Hx Hname.
    induction (rows (users (store c))) as [|y ys IH]; [contradiction|].
    cbn [map] in Hnames. inversion Hnames as [|? ? Hnot Hrest]; subst.
    destruct Hin as [->|Hin], Hx as [->|Hx]; auto.
    + exfalso. apply Hnot. rewrite <- Hname. now apply in_map.
    + exfalso. apply Hnot. rewrite Hname. now apply in_map.
  - reflexivity.
Qed.

Lemma deleted_user_is_locked_out_witness :
  exists w2,
    main.serve demo.env demo_tokens "Bearer jwt.alice"
      main.GET_automation_settings (snd (auth.DeleteUser "1" demo.world0))
    = (Done (JSON StatusUnauthorized (ErrorJSON "User not found")), w2).
Proof.
  destruct (@deleted_user_is_locked_out demo.env demo_tokens "1" demo.world0
              (snd (auth.DeleteUser "1" demo.world0)) conn0
              (JSON StatusOK (MessageJSON "User deleted successfully"))
              eq_refl)
    as [u [Hin [Hatoi Hout]]].
  - constructor.
  - split; repeat constructor; simpl; intuition discriminate.
  - reflexivity.
  - reflexivity.
  - assert (Hu : u = demo.alice).
    { destruct Hin as [<-|[<-|[]]]; [reflexivity | discriminate]. }
    subst u.
    destruct (Hout "Bearer jwt.alice" "jwt.alice" main.GET_automation_settings
                eq_refl) as [w2 [Hrun _]].
    + exists "Bearer". repeat split.
    + reflexivity.
    + now exists w2.
Defined.

(** ** The default administrator *)

(** A statement on a live handle whose next statement is not failed. *)
Lemma db_statement_runs {A : Type} (f : Store -> (DbError + A) * Store)
  (w : World) (c : Conn) :
  DB w = Some c -> next_runs c ->
  db (gorm.statement f) w
  = (Done (fst (f (store c))),
     with_DB (Some (mkConn (snd (f (store c))) (tl (faults c)))) w).
Proof.
  intros Hdb Hnext. unfold db, gorm.statement. rewrite Hdb.
  unfold next_runs in Hnext.
  destruct (faults c) as [|[msg|] rest]; [|contradiction|];
    now destruct (f (store c)).
Qed.

(** The row [createDefaultAdminUser] asks the table to insert. *)
Definition default_admin (hash : string) (now : Time) : User.t :=
  User.mk 0 "admin" hash true true now now None.

(** Inserting the default administrator into a table without the name
    "admin". *)
Lemma insert_default_admin (hash : string) (now : Time) (s : Store) :
  (forall x, In x (rows (users s)) -> User.Username x <> "admin") ->
  gorm.insert (default_admin hash now) s
  = (inr (with_pk (gorm.next_pk (users s)) (default_admin hash now)),
     mkStore
       (mkTable (rows (users s)
                   ++ [with_pk (gorm.next_pk (users s))
                               (default_admin hash now)])
                (Z.max (seq (users s)) (gorm.next_pk (users s))))
       (user_settings s) (automation_tasks s)).
Proof.
  intros Hfree. unfold gorm.insert, default_admin.
  cbn [pk with_pk clashes table with_table User_Model User.ID User.Username
       Z.eqb].
  rewrite has_pk_next_pk. cbn [orb].
  destruct (existsb _ (rows (users s))) eqn:Hclash; [|reflexivity].
  exfalso. apply existsb_exists in Hclash. destruct Hclash as [x [Hx Hn]].
  apply String.eqb_eq in Hn. now apply (Hfree x Hx).
Qed.

(** Inserting it into a table that has the name. *)
Lemma insert_second_admin (hash : string) (now : Time) (s : Store)
  (x : User.t) :
  In x (rows (users s)) -> User.Username x = "admin" ->
  gorm.insert (default_admin hash now) s
  = (inl (DriverError "UNIQUE constraint failed: users.username"), s).
Proof.
  intros Hx Hn. unfold gorm.insert, default_admin.
  cbn [pk with_pk clashes table with_table User_Model User.ID User.Username
       Z.eqb].
  rewrite has_pk_next_pk. cbn [orb].
  destruct (existsb _ (rows (users s))) eqn:Hclash; [reflexivity|].
  exfalso.
  assert (Ht : existsb (fun b => String.eqb "admin" (User.Username b))
                       (rows (users s)) = true).
  { apply existsb_exists. exists x. split; [exact Hx|].
    rewrite Hn. reflexivity. }
  cbn [User.Username] in Hclash. congruence.
Qed.

(** The run of [createDefaultAdminUser] once the count is known to be
    taken for zero. *)
Lemma createDefaultAdminUser_creates (E : Env) (w : World) (c : Conn)
  (hash : string) :
  DB w = Some c ->
  (exists msg rest, faults c = Some msg :: rest)
  \/ rows (users (store c)) = [] ->
  next_runs (mkConn (store c) (tl (faults c))) ->
  utils.HashPassword E "admin" = inr hash ->
  main.createDefaultAdminUser E w
  = let r := gorm.insert (default_admin hash (clock w)) (store c) in
    (Done (match fst r with
           | inl err => inl ("Failed to create default admin user:"
                             ++ DbError_Error err)
           | inr _ => inr tt
           end),
     with_DB (Some (mkConn (snd r) (tl (tl (faults c))))) w).
Proof.
  intros Hdb Hzero Hnext Hhash. unfold main.createDefaultAdminUser.
  unfold bind at 1. unfold main.Count. rewrite (db_query _ w Hdb).
  assert (Hcount : (match answer (faults c)
                            (inr (A := DbError)
                               (Z.of_nat (List.length (rows (users (store c))))))
                    with
                    | inr n => n
                    | inl _ => 0
                    end =? 0) = true).
  { destruct Hzero as [[msg [rest ->]]| ->]; [reflexivity|].
    now destruct (faults c) as [|[?|] ?]. }
  rewrite Hcount, Hhash. unfold bind at 1, time_Now at 1. unfold bind at 1.
  unfold gorm.Create.
  lazymatch goal with
  | |- context [db (gorm.statement ?f) ?w0] =>
      rewrite (@db_statement_runs _ f w0 (mkConn (store c) (tl (faults c)))
                 eq_refl Hnext)
  end.
  cbn [store faults clock with_DB]. fold (default_admin hash (clock w)).
  cbv zeta.
  destruct (fst (gorm.insert (default_admin hash (clock w)) (store c)));
    unfold ret; destruct w; reflexivity.
Qed.

(** X22. On a database without users [createDefaultAdminUser] creates
    the account "admin", active and administrator, with the hash of the
    password "admin", and changes nothing else; with a bcrypt that
    accepts the hashes it generates, a login as admin/admin is then
    answered 200 with a token. *)
Theorem default_admin_can_log_in (E : Env) (w : World) (c : Conn)
  (hash : string) :
  DB w = Some c -> reliable c ->
  rows (users (store c)) = [] ->
  utils.HashPassword E "admin" = inr hash ->
  exists w1 c1,
    main.createDefaultAdminUser E w = (Done (inr tt), w1)
    /\ DB w1 = Some c1
    /\ rows (users (store c1))
       = [User.mk (1 + seq (users (store c))) "admin" hash true true
                  (clock w) (clock w) None]
    /\ user_settings (store c1) = user_settings (store c)
    /\ automation_tasks (store c1) = automation_tasks (store c)
    /\ (bcrypt_consistent E ->
        forall token,
          jwt_SignedString E "admin" (clock w1) = inr token ->
          fst (auth.Login E (Decoded (auth.mkLoginRequest "admin" "admin")) w1)
          = Done (JSON StatusOK (TokenJSON token "bearer" "admin"))).
Proof.
  intros Hdb Hrel Hempty Hhash.
  assert (Hrel1 : reliable (mkConn (store c) (tl (faults c)))).
  { unfold reliable in *. cbn [faults]. destruct (faults c); [constructor|].
    now inversion Hrel. }
  assert (Hrel2 : forall s, reliable (mkConn s (tl (tl (faults c))))).
  { intros s. unfold reliable in *. cbn [faults] in *.
    destruct (tl (faults c)); [constructor|]. now inversion Hrel1. }
  rewrite (@createDefaultAdminUser_creates E w c hash Hdb (or_intror Hempty)
             (reliable_next_runs Hrel1) Hhash).
  rewrite insert_default_admin by (rewrite Hempty; intros x []).
  cbv zeta. cbn [fst snd]. rewrite Hempty. cbn [app].
  do 2 eexists.
  split; [reflexivity|]. split; [reflexivity|].
  cbn [store users rows user_settings automation_tasks with_pk User_Model
       default_admin User.Username User.HashedPassword User.IsActive
       User.IsAdmin User.CreatedAt User.UpdatedAt User.LastLoginAt].
  split; [unfold gorm.next_pk; rewrite Hempty; reflexivity|].
  do 2 (split; [reflexivity|]).
  intros Hbcrypt token Htok.
  match goal with
  | |- fst (auth.Login E ?req (with_DB (Some ?c1) ?w0)) = _ =>
      destruct (@Login_accepts E (auth.mkLoginRequest "admin" "admin")
                  (with_DB (Some c1) w0) c1
                  (User.mk (gorm.next_pk (users (store c))) "admin" hash true
                           true (clock w) (clock w) None)
                  eq_refl (reliable_next_runs (Hrel2 _)) eq_refl)
        as [s' [rest [Hlogin _]]]
  end.
  - reflexivity.
  - apply Hbcrypt. exact Hhash.
  - reflexivity.
  - rewrite Hlogin. cbn [fst User.Username]. unfold token_response.
    cbn [clock with_DB] in *. now rewrite Htok.
Qed.

Lemma default_admin_can_log_in_witness :
  exists w1 c1,
    main.createDefaultAdminUser demo.env empty_world = (Done (inr tt), w1)
    /\ DB w1 = Some c1
    /\ rows (users (store c1))
       = [User.mk 1 "admin" "bcrypt:admin" true true 200 200 None]
    /\ fst (auth.Login demo.env
              (Decoded (auth.mkLoginRequest "admin" "admin")) w1)
       = Done (JSON StatusOK (TokenJSON "jwt.admin" "bearer" "admin")).
Proof.
  destruct (@default_admin_can_log_in demo.env empty_world
              (mkConn (mkStore (mkTable [] 0) (mkTable [] 0) (mkTable [] 0)) [])
              "bcrypt:admin" eq_refl)
    as [w1 [c1 [Hrun [Hdb [Hrows [_ [_ Hlogin]]]]]]].
  - constructor.
  - reflexivity.
  - reflexivity.
  - exists w1, c1. split; [exact Hrun|]. split; [exact Hdb|].
    split; [exact Hrows|].
    apply (Hlogin demo_bcrypt_consistent). reflexivity.
Defined.

(** X23. [createDefaultAdminUser] does not look at the error of its
    count. With users in the table it does nothing when the count runs.
    When the driver fails the count it goes on as on an empty table: it
    inserts the account admin, with the hash of the password "admin",
    beside the users there are if none of them is named "admin", and
    it ends the process ([log.Fatal]) on the uniqueness error of the
    driver, which names the column [users.username], if one is. *)
Theorem createDefaultAdminUser_trusts_a_failed_count (E : Env) (w : World)
  (c : Conn) :
  DB w = Some c ->
  rows (users (store c)) <> [] ->
  (next_runs c ->
   main.createDefaultAdminUser E w
   = (Done (inr tt), with_DB (Some (mkConn (store c) (tl (faults c)))) w))
  /\ (forall msg rest hash,
        faults c = Some msg :: rest ->
        next_runs (mkConn (store c) rest) ->
        utils.HashPassword E "admin" = inr hash ->
        ((forall x, In x (rows (users (store c))) ->
                    User.Username x <> "admin") ->
         exists w1 c1,
           main.createDefaultAdminUser E w = (Done (inr tt), w1)
           /\ DB w1 = Some c1
           /\ rows (users (store c1))
              = (rows (users (store c))
                   ++ [User.mk (gorm.next_pk (users (store c))) "admin" hash
                               true true (clock w) (clock w) None])%list)
        /\ ((exists x, In x (rows (users (store c)))
                       /\ User.Username x = "admin") ->
            exists w1,
              main.createDefaultAdminUser E w
              = (Done (inl ("Failed to create default admin user:"
                            ++ "UNIQUE constraint failed: users.username")),
                 w1)
              /\ DB w1 = Some (mkConn (store c) (tl rest)))).
Proof.
  intros Hdb Hrows. split.
  - intros Hnext. unfold main.createDefaultAdminUser.
    unfold bind at 1. unfold main.Count. rewrite (db_query _ w Hdb).
    rewrite (@answer_next_runs _ c _ Hnext).
    destruct (rows (users (store c))) as [|x l]; [contradiction|].
    reflexivity.
  - intros msg rest hash Hf Hnext Hhash.
    assert (Hrun := @createDefaultAdminUser_creates E w c hash Hdb
                      (or_introl (ex_intro _ msg (ex_intro _ rest Hf)))).
    rewrite Hf in Hrun. cbn [tl] in Hrun.
    specialize (Hrun Hnext Hhash). cbv zeta in Hrun. split.
    + intros Hfree. rewrite (insert_default_admin _ _ _ Hfree) in Hrun.
      cbn [fst snd] in Hrun. do 2 eexists. split; [exact Hrun|].
      split; reflexivity.
    + intros [x [Hx Hn]].
      rewrite (@insert_second_admin hash (clock w) (store c) x Hx Hn) in Hrun.
      cbn [fst snd DbError_Error] in Hrun. eexists. split; [exact Hrun|].
      reflexivity.
Qed.

(** The demo database when the driver fails the first statement. *)
Definition world_count_fails : World :=
  mkWorld (Some (mkConn demo.store0 [Some "database is locked"]))
          200 [] 0 0 [] None.

(** The same fault on a database that has an administrator. *)
Definition world_admin_count_fails : World :=
  mkWorld (Some (mkConn
                   (mkStore
                      (mkTable [User.mk 1 "admin" "bcrypt:changed" true true
                                        100 100 None] 1)
                      (mkTable [] 0) (mkTable [] 0))
                   [Some "database is locked"]))
          200 [] 0 0 [] None.

Lemma createDefaultAdminUser_trusts_a_failed_count_witness :
  (exists w1 c1,
      main.createDefaultAdminUser demo.env world_count_fails
      = (Done (inr tt), w1)
      /\ DB w1 = Some c1
      /\ rows (users (store c1))
         = [demo.alice; demo.bob;
            User.mk 3 "admin" "bcrypt:admin" true true 200 200 None])
  /\ (exists w1,
        main.createDefaultAdminUser demo.env world_admin_count_fails
        = (Done (inl "Failed to create default admin user:UNIQUE constraint failed: users.username"),
           w1)).
Proof.
  split.
  - destruct (@createDefaultAdminUser_trusts_a_failed_count demo.env
                world_count_fails
                (mkConn demo.store0 [Some "database is locked"]) eq_refl)
      as [_ Hfail].
    + discriminate.
    + destruct (Hfail "database is locked" [] "bcrypt:admin" eq_refl I eq_refl)
        as [Hadds _].
      apply Hadds. intros x [<-|[<-|[]]]; discriminate.
  - destruct (@createDefaultAdminUser_trusts_a_failed_count demo.env
                world_admin_count_fails
                (mkConn
                   (mkStore
                      (mkTable [User.mk 1 "admin" "bcrypt:changed" true true
                                        100 100 None] 1)
                      (mkTable [] 0) (mkTable [] 0))
                   [Some "database is locked"]) eq_refl)
      as [_ Hfail].
    + discriminate.
    + destruct (Hfail "database is locked" [] "bcrypt:admin" eq_refl I eq_refl)
        as [_ Hstops].
      destruct Hstops as [w1 [Hrun _]].
      * eexists. split; [now left | reflexivity].
      * now exists w1.
Defined.

(** ** [models.JSON] between the program and the database *)

(** X24. A [models.JSON] value survives the trip through the database
    exactly when it is a JSON document. [Value] never fails; [Scan] of
    what [Value] wrote gives the value back without an error if, and
    only if, the value is valid JSON. An empty value is written as
    NULL, and [Scan] refuses NULL (as it refuses everything that is no
    byte slice) with "type assertion to []byte failed", leaving its
    receiver as it was. *)
Theorem JSON_Value_then_Scan (before j : option RawMessage) :
  snd (models.Value j) = None
  /\ (models.Scan before (fst (models.Value j)) = (j, None)
      <-> exists v, j = Some (Encoded v))
  /\ ((j = None \/ j = Some (Garbage "")) ->
      models.Scan before (fst (models.Value j))
      = (before, Some "type assertion to []byte failed")).
Proof.
  unfold models.Value, models.Scan.
  destruct j as [[v|bytes]|]; cbn [automation.len_positive fst snd].
  - split; [reflexivity|]. split.
    + split; [now exists v | reflexivity].
    + intros [H|H]; discriminate.
  - destruct (String.eqb_spec bytes "") as [->|Hne]; cbn [negb fst snd].
    + split; [reflexivity|]. split; [|reflexivity].
      split; [discriminate | intros [v Hv]; discriminate].
    + split; [reflexivity|]. split.
      * split; [discriminate | intros [v Hv]; discriminate].
      * intros [H|H]; [discriminate | now injection H].
  - split; [reflexivity|]. split; [|reflexivity].
    split; [discriminate | intros [v Hv]; discriminate].
Qed.

Lemma JSON_Value_then_Scan_witness :
  models.Scan None (fst (models.Value (Some (Encoded (JObject [])))))
  = (Some (Encoded (JObject [])), None)
  /\ models.Scan (Some (Encoded JNull)) (fst (models.Value None))
     = (Some (Encoded JNull), Some "type assertion to []byte failed").
Proof.
  split.
  - apply (proj2 (proj1 (proj2 (@JSON_Value_then_Scan
                                  None (Some (Encoded (JObject []))))))).
    now exists (JObject []).
  - apply (proj2 (proj2 (@JSON_Value_then_Scan (Some (Encoded JNull)) None))).
    now left.
Defined.

(** ** [TrustedHosts] *)

(** X25. [TrustedHosts] lets a request pass exactly when its [Host] is
    one of "localhost", "127.0.0.1", "localhost:8080" and
    "localhost:5173" (so a loopback address with a port is refused). A
    refused request is answered 403 without a body, and the middleware
    changes neither the context nor the state. *)
Theorem TrustedHosts_allows_four_hosts (host : string) (k : middleware.Keys)
  (w : World) :
  middleware.TrustedHosts host k w
  = (Done (if existsb (String.eqb host)
                      ["localhost"; "127.0.0.1"; "localhost:8080";
                       "localhost:5173"]
           then inr k
           else inl (JSON StatusForbidden NoBody)), w).
Proof.
  unfold middleware.TrustedHosts, middleware.allowedHosts.
  cbn [middleware.host_allowed existsb String.eqb Ascii.eqb Bool.eqb andb orb].
  destruct (String.eqb host "localhost"), (String.eqb host "127.0.0.1"),
    (String.eqb host "localhost:8080"), (String.eqb host "localhost:5173");
    reflexivity.
Qed.

(** ** The packages of the form against the simulated panel *)

(** X26. Every duration the form offers has a package number, and for
    every package number the form can send, the simulated panel sets
    the expiry one month after now, for a new account as for an
    extension: the integer division of the package number by 100 is 1
    for each of 101, 103, 106, 112 and 124, whatever the duration. Only
    the amount follows the package. *)
Theorem simulated_packages_last_one_month (E : Env) (c : APIClient)
  (duration package : Z) :
  (In duration action.packageDurations <->
   action.packageMapping duration <> None)
  /\ (action.packageMapping duration = Some package ->
      (forall req w,
          car_Package req = package ->
          exists lineID w',
            automation.SimulateCreateAccount E c req w
            = (Done (inr (mkCreateAccountResponse
                            lineID (AddDate E (clock w) 0 1 0)
                            (automation.mock_transaction_amount package)
                            (car_RID req))), w'))
      /\ (forall lineID req w,
             epr_Package req = package ->
             automation.SimulateExtendPackage E c lineID req w
             = (Done (inr (mkExtendPackageResponse
                             lineID (AddDate E (clock w) 0 1 0)
                             (automation.mock_transaction_amount package)
                             (epr_RID req))), w))).
Proof.
  assert (Hmonth : action.packageMapping duration = Some package ->
                   Z.quot package 100 = 1).
  { unfold action.packageMapping.
    repeat match goal with
           | |- context [if ?b then _ else _] => destruct b
           end; intros [= <-]; reflexivity. }
  split; [|intros Hp; split].
  - unfold action.packageMapping, action.packageDurations. cbn [In]. split.
    + intros [<-|[<-|[<-|[<-|[<-|[]]]]]]; discriminate.
    + repeat match goal with
             | |- context [?a =? ?b] => destruct (Z.eqb_spec a b)
             end; subst; tauto.
  - intros req w Hreq. unfold automation.SimulateCreateAccount.
    unfold bind, automation.uuid_New, time_Now, ret. cbn [clock].
    rewrite Hreq, (Hmonth Hp). eauto.
  - intros lineID req w Hreq. unfold automation.SimulateExtendPackage.
    unfold bind, time_Now, ret. now rewrite Hreq, (Hmonth Hp).
Qed.

(** Two years, as the form sends them. *)
Lemma simulated_packages_last_one_month_witness :
  automation.SimulateExtendPackage demo.env test_client "sim-1"
    (mkExtendPackageRequest 124 "rid") demo.world0
  = (Done (inr (mkExtendPackageResponse "sim-1" 230 1800 "rid")), demo.world0).
Proof.
  exact (proj2 (proj2 (@simulated_packages_last_one_month demo.env test_client
                         24 124) eq_refl)
               "sim-1" (mkExtendPackageRequest 124 "rid") demo.world0 eq_refl).
Defined.

(** ** The status route *)

(** X27. In its route group, behind [AuthRequired] and
    [GetCurrentUser], [GET /auth/status] answers either 401 (the
    middleware) or 200 with the creation time and the admin flag
    of the stored row whose name is the username claim of the token,
    and with [is_active] true: the status of an inactive account is
    never shown, and the handler's own answers for a missing or
    ill-typed user (401 "User not authenticated", 500 "Invalid user
    data") are never given. *)
Theorem status_route_shows_the_stored_row (E : Env) (T : TokenEnv)
  (h : string) (w : World) (c : Conn) :
  DB w = Some c ->
  exists rest,
    let w1 := with_DB (Some (mkConn (store c) rest)) w in
    (exists msg,
        In msg middleware_401
        /\ main.serve E T h main.GET_auth_status w
           = (Done (JSON StatusUnauthorized (ErrorJSON msg)), w1))
    \/ (exists tok name u,
           bearer_header h tok
           /\ jwt_ParseWithClaims T tok (clock w) = inr (true, name)
           /\ stored_user c name = Some u
           /\ main.serve E T h main.GET_auth_status w
              = (Done (JSON StatusOK
                         (ValueJSON
                            (JObject
                               [("created_at", JTime (User.CreatedAt u));
                                ("is_active", JBool true);
                                ("is_admin", JBool (User.IsAdmin u))]))),
                 w1)).
Proof.
  intros Hdb.
  rewrite (serve_protected E T h main.GET_auth_status w eq_refl).
  cbn [admin_route].
  destruct (@authenticated T h
              (middleware.chain [] (main.handle E main.GET_auth_status))
              w c Hdb)
    as [rest [[msg [Hmsg [Hrun _]]]|[tok [name [u [Hb [Hp [Hu [Ha Hrun]]]]]]]]];
    exists rest; cbv zeta.
  - left. exists msg. split; [exact Hmsg|]. now apply gin_Recovery_Done.
  - right. exists tok, name, u. do 3 (split; [assumption|]).
    apply gin_Recovery_Done. rewrite Hrun. cbn [middleware.chain].
    unfold main.handle, server.handler, auth.GetUserStatus.
    cbn [middleware.key_user]. now rewrite Ha.
Qed.

Lemma status_route_shows_the_stored_row_witness :
  exists rest,
    let w1 := with_DB (Some (mkConn (store conn0) rest)) demo.world0 in
    (exists msg,
        In msg middleware_401
        /\ main.serve demo.env demo_tokens "bearer jwt.alice"
                      main.GET_auth_status demo.world0
           = (Done (JSON StatusUnauthorized (ErrorJSON msg)), w1))
    \/ (exists tok name u,
           bearer_header "bearer jwt.alice" tok
           /\ jwt_ParseWithClaims demo_tokens tok (clock demo.world0)
              = inr (true, name)
           /\ stored_user conn0 name = Some u
           /\ main.serve demo.env demo_tokens "bearer jwt.alice"
                         main.GET_auth_status demo.world0
              = (Done (JSON StatusOK
                         (ValueJSON
                            (JObject
                               [("created_at", JTime (User.CreatedAt u));
                                ("is_active", JBool true);
                                ("is_admin", JBool (User.IsAdmin u))]))),
                 w1)).
Proof.
  apply (@status_route_shows_the_stored_row demo.env demo_tokens
           "bearer jwt.alice" demo.world0 conn0).
  reflexivity.
Defined.
